(** * Temperature calibration system: protocol clients, statistics,
      classification and the calibration engine

    A shallow embedding of the Python sources of the calibration rig
    ([devices/furnace.py], [devices/cropico.py], [calibration/statistics.py],
    [calibration/uncertainty.py], [calibration/engine.py], [config.py]).

    Python [float] is IEEE-754 binary64, and so is Rocq's primitive [float]:
    arithmetic and comparisons are embedded one to one.  Python [bytes] are
    [list byte], Python [str] is [string], Python [dict] is an insertion-ordered
    association list, and integers are [Z]. *)

From Stdlib Require Import ZArith List String Ascii Bool Lia Sorted Permutation.
From Stdlib.Strings Require Import Byte.
From Stdlib Require Import Floats.
Import ListNotations.

Set Warnings "-inexact-float".

Local Open Scope Z_scope.

(* ===================================================================== *)
(** * Part I: the embedding *)
(* ===================================================================== *)

(** ** Python values shared by the modules *)

(** [l[a:b]] for [0 <= a <= b]. *)
Definition slice {A : Type} (a b : nat) (l : list A) : list A :=
firstn (b - a) (skipn a l).

(** The value of a byte, as Python's [bytes.__getitem__] gives it. *)
Definition byte_val (b : byte) : Z := Z.of_N (Byte.to_N b).

(** [int] to the byte that holds it ([struct.pack('B', z)]); [None] is
    [struct.error] (value out of 0..255). *)
Definition pack_B (z : Z) : option (list byte) :=
if (0 <=? z) && (z <? 256) then
  match Byte.of_N (Z.to_N z) with Some b => Some [b] | None => None end
else None.

(** [struct.pack('>H', z)] and [struct.pack('<H', z)]. *)
Definition pack_H_be (z : Z) : option (list byte) :=
if (0 <=? z) && (z <? 65536) then
  match pack_B (Z.shiftr z 8), pack_B (Z.land z 255) with
  | Some hi, Some lo => Some (hi ++ lo)
  | _, _ => None
  end
else None.

Definition pack_H_le (z : Z) : option (list byte) :=
if (0 <=? z) && (z <? 65536) then
  match pack_B (Z.land z 255), pack_B (Z.shiftr z 8) with
  | Some lo, Some hi => Some (lo ++ hi)
  | _, _ => None
  end
else None.

(** [struct.unpack('<H', l)[0]]; [None] is [struct.error] (not two bytes). *)
Definition unpack_H_le (l : list byte) : option Z :=
match l with
| [lo; hi] => Some (byte_val lo + 256 * byte_val hi)
| _ => None
end.

(** The binary32 value with bit pattern [w], as a binary64 (every binary32
    value is one): sign bit 31, exponent bits 30..23, fraction bits 22..0. *)
Definition float_of_bits32 (w : Z) : float :=
let e := Z.land (Z.shiftr w 23) 255 in
let m := Z.land w 8388607 in
let mag :=
  if e =? 255 then (if m =? 0 then infinity else nan)
  else if e =? 0 then Z.ldexp (of_uint63 (Uint63.of_Z m)) (-149)
  else Z.ldexp (of_uint63 (Uint63.of_Z (m + 8388608))) (e - 150) in
if Z.testbit w 31 then (- mag)%float else mag.

(** [struct.unpack('>f', l)[0]]; [None] is [struct.error] (not four bytes). *)
Definition unpack_f_be (l : list byte) : option float :=
match l with
| [b0; b1; b2; b3] =>
    Some (float_of_bits32
            (byte_val b0 * 16777216 + byte_val b1 * 65536 + byte_val b2 * 256 + byte_val b3))
| _ => None
end.

(* --------------------------------------------------------------------- *)
(** ** config.py *)
(* --------------------------------------------------------------------- *)

Module Config.

Definition FURNACE_SLAVE_ID : Z := 0x01.
Definition FURNACE_PV_ADDRESS : Z := 0x8002.
Definition FURNACE_SP_ADDRESS : Z := 0x8004.
Definition MODBUS_READ_HOLDING : Z := 0x03.
Definition MODBUS_WRITE_MULTIPLE : Z := 0x10.

Definition REFERENCE_CHANNEL : string := "A0".
Definition PARKING_TEMPERATURE : float := 30.0.
Definition STABILITY_TOLERANCE : float := 0.5.
Definition STABILITY_TIME_SECONDS : float := 60.
Definition THERMAL_EQUILIBRIUM_THRESHOLD : float := 0.3.
Definition MEASUREMENTS_PER_POINT : nat := 10.

Definition PT100_CLASS_AA_TOLERANCE (t : float) : float := (0.1 + 0.0017 * abs t)%float.
Definition PT100_CLASS_A_TOLERANCE (t : float) : float := (0.15 + 0.002 * abs t)%float.
Definition PT100_CLASS_B_TOLERANCE (t : float) : float := (0.3 + 0.005 * abs t)%float.
Definition PT100_CLASS_C_TOLERANCE (t : float) : float := (0.6 + 0.01 * abs t)%float.

End Config.

(* --------------------------------------------------------------------- *)
(** ** devices/furnace.py: the Modbus RTU master *)
(* --------------------------------------------------------------------- *)

Module Furnace.
Import Config.

(** One pass of the inner loop of [_calculate_crc]. *)
Definition crc_shift (crc : Z) : Z :=
if negb (Z.land crc 0x0001 =? 0) then Z.lxor (Z.shiftr crc 1) 0xA001
else Z.shiftr crc 1.

(** The body of the outer loop: [crc ^= byte], then eight shifts. *)
Definition crc_byte (crc : Z) (b : byte) : Z :=
Nat.iter 8 crc_shift (Z.lxor crc (byte_val b)).

Definition _calculate_crc (data : list byte) : Z :=
fold_left crc_byte data 0xFFFF.

(** The client object: the fields the read path looks at.  [has_ser] is
    [self.ser] being a port object rather than [None]. *)
Record device := {
  use_simulator : bool;
  connected : bool;
  has_ser : bool;
  slave_id : Z
}.

Definition _build_read_request (d : device) (address count : Z) : option (list byte) :=
match pack_B (slave_id d), pack_B MODBUS_READ_HOLDING,
      pack_H_be address, pack_H_be count with
| Some a, Some b, Some c, Some e =>
    let frame := a ++ b ++ c ++ e in
    match pack_H_le (_calculate_crc frame) with
    | Some trailer => Some (frame ++ trailer)
    | None => None
    end
| _, _, _, _ => None
end.

(** The CRC comparison of [_parse_float_response]:
    [crc_received == crc_calculated]. *)
Definition crc_matches (response : list byte) : bool :=
match unpack_H_le (slice 7 9 response) with
| Some crc_received => crc_received =? _calculate_crc (slice 0 7 response)
| None => false
end.

(** [_parse_float_response]: [None] is Python's [None].  After the length
    check the slices have the sizes [struct.unpack] wants, so no exception
    can be raised. *)
Definition _parse_float_response (d : device) (response : list byte) : option float :=
if (List.length response <? 9)%nat then None
else if negb (byte_val (nth 0 response Byte.x00) =? slave_id d) then None
else if byte_val (nth 1 response Byte.x00) =? Z.lor MODBUS_READ_HOLDING 0x80 then None
else
  let byte_count := byte_val (nth 2 response Byte.x00) in
  if negb (byte_count =? 4) then None
  else
    let float_bytes := slice 3 7 response in
    if negb (crc_matches response) then None
    else unpack_f_be float_bytes.

(** A transmission error: the byte at position [i] arrives as [b']. *)
Fixpoint corrupt (i : nat) (b' : byte) (response : list byte) : list byte :=
match response, i with
| [], _ => []
| _ :: rest, O => b' :: rest
| b :: rest, S i' => b :: corrupt i' b' rest
end.

(** What one serial exchange of the read path produces: the bytes that
    [ser.read(9)] returned, or an exception raised by the port. *)
Inductive exchange :=
| Reply (response : list byte)
| PortError.

(** [read_temperature].  [sim] is the value the simulator would return;
    [x] is the serial exchange, looked at only on the serial path.  With
    [self.ser] equal to [None] the call [self.ser.reset_input_buffer()]
    raises, which the [except] turns into [(False, 0.0)]. *)
Definition read_temperature (d : device) (sim : float) (x : exchange) : bool * float :=
if use_simulator d then (true, sim)
else if negb (connected d) && negb (has_ser d) then (false, 0%float)
else if negb (has_ser d) then (false, 0%float)
else match x with
     | PortError => (false, 0%float)
     | Reply response =>
         match _parse_float_response d response with
         | Some value => (true, value)
         | None => (false, 0%float)
         end
     end.

(** [read_setpoint]: the same, behind [if not self.connected]. *)
Definition read_setpoint (d : device) (sim : float) (x : exchange) : bool * float :=
if use_simulator d then (true, sim)
else if negb (connected d) then (false, 0%float)
else if negb (has_ser d) then (false, 0%float)
else match x with
     | PortError => (false, 0%float)
     | Reply response =>
         match _parse_float_response d response with
         | Some value => (true, value)
         | None => (false, 0%float)
         end
     end.

End Furnace.

(* --------------------------------------------------------------------- *)
(** ** Python [str] operations used by the multimeter client *)
(* --------------------------------------------------------------------- *)

Local Open Scope string_scope.

(** [c.upper()] on an ASCII character. *)
Definition upper_char (c : ascii) : ascii :=
let n := nat_of_ascii c in
if ((97 <=? n) && (n <=? 122))%nat then ascii_of_nat (n - 32) else c.

(** [s.upper()].  The client only sees text decoded as ASCII. *)
Fixpoint upper (s : string) : string :=
match s with
| EmptyString => EmptyString
| String c s' => String (upper_char c) (upper s')
end.

(** [hay.startswith(needle)]. *)
Fixpoint startswith (needle hay : string) : bool :=
match needle, hay with
| EmptyString, _ => true
| String a n', String b h' => Ascii.eqb a b && startswith n' h'
| String _ _, EmptyString => false
end.

(** [needle in hay]. *)
Fixpoint py_in (needle hay : string) : bool :=
startswith needle hay ||
match hay with
| EmptyString => false
| String _ h' => py_in needle h'
end.

(** The regular expression class [\d] on ASCII text. *)
Definition is_digit (c : ascii) : bool :=
let n := nat_of_ascii c in ((48 <=? n) && (n <=? 57))%nat.

Definition is_sign (c : ascii) : bool :=
Ascii.eqb c "+" || Ascii.eqb c "-".

(** Whether [s] holds a decimal digit anywhere. *)
Fixpoint has_digit (s : string) : bool :=
match s with
| String c s' => is_digit c || has_digit s'
| EmptyString => false
end.

(** The longest run of digits at the start of [s], and what follows it. *)
Fixpoint take_digits (s : string) : string * string :=
match s with
| String c s' =>
    if is_digit c then let (ds, rest) := take_digits s' in (String c ds, rest)
    else (EmptyString, s)
| EmptyString => (EmptyString, EmptyString)
end.

(** The match of digits, optional point, digits anchored at the start of
    [s] (the pattern without its sign): every quantifier
    is greedy and what follows each is optional, so the first attempt of
    the backtracking matcher succeeds whenever any does. *)
Definition number_at (s : string) : option string :=
match take_digits s with
| (EmptyString, _) => None
| (ds, String "." rest) => let (fs, _) := take_digits rest in Some (ds ++ "." ++ fs)
| (ds, _) => Some ds
end.

(** The match of the whole pattern anchored at the start of [s]: with the
    sign first, and without it when that fails. *)
Definition match_at (s : string) : option string :=
match s with
| String c s' =>
    if is_sign c then
      match number_at s' with
      | Some tok => Some (String c tok)
      | None => number_at s
      end
    else number_at s
| EmptyString => None
end.

(** [re.search] for the pattern of [read_temperature] and [get_raw_value]
    (an optional sign, one or more digits, an optional point, any number of
    digits, all in one group): the match at the leftmost position that has
    one; the result is [match.group(1)]. *)
Fixpoint re_search (s : string) : option string :=
match match_at s with
| Some tok => Some tok
| None =>
    match s with
    | EmptyString => None
    | String _ s' => re_search s'
    end
end.

(** The value of a run of digits read in base ten, after [acc]. *)
Fixpoint digits_value (acc : Z) (s : string) : Z :=
match s with
| String c s' => digits_value (10 * acc + (Z.of_nat (nat_of_ascii c) - 48)) s'
| EmptyString => acc
end.

(** A conversion of the tokens that pattern matches to binary64 by one
    correctly rounded division of the digits by the power of ten.  It is
    Python's [float(token)] whenever the digits read as an integer stay
    below [2^53] and at most 22 of them follow the point (both operands of
    the division are then exact); the client is stated over an arbitrary
    conversion, and this one is used to evaluate it on concrete replies. *)
Definition decimal_float (tok : string) : float :=
let (neg, body) :=
  match tok with
  | String c rest => if is_sign c then (Ascii.eqb c "-", rest) else (false, tok)
  | EmptyString => (false, tok)
  end in
let (ds, rest) := take_digits body in
let fs := match rest with String "." r => fst (take_digits r) | _ => EmptyString end in
let m := digits_value (digits_value 0 ds) fs in
let q := (of_uint63 (Uint63.of_Z m) /
          of_uint63 (Uint63.of_Z (10 ^ Z.of_nat (String.length fs))))%float in
if neg then (- q)%float else q.

(* --------------------------------------------------------------------- *)
(** ** devices/cropico.py: the multimeter text client *)
(* --------------------------------------------------------------------- *)

Module Cropico.

Record device := {
  use_simulator : bool;
  connected : bool
}.

(** What one command/response exchange produces: the value of
    [self._read(...)] (the stripped buffer, or [None]), or an exception. *)
Inductive exchange :=
| Response (r : option string)
| PortError.

(** Python truthiness of [response]: neither [None] nor the empty string. *)
Definition truthy (r : option string) : option string :=
match r with
| Some EmptyString => None
| Some s => Some s
| None => None
end.

(** ["OVF" in response.upper() or "OVERFLOW" in response.upper()]. *)
Definition overflow_marker (response : string) : bool :=
py_in "OVF" (upper response) || py_in "OVERFLOW" (upper response).

Section Client.

(** Python's builtin [float] on the matched token. *)
Variable py_float : string -> float.

(** [read_temperature].  [sim] is [self.simulator.read_temperature(...)],
    looked at only in simulator mode. *)
Definition read_temperature (d : device) (sim : float) (x : exchange) : bool * float :=
if use_simulator d then (true, sim)
else if negb (connected d) then (false, 0%float)
else match x with
     | PortError => (false, 0%float)
     | Response r =>
         match truthy r with
         | Some response =>
             match re_search response with
             | Some tok =>
                 let temp := py_float tok in
                 if ((-200) <=? temp)%float && (temp <=? 2000)%float
                 then (true, temp)
                 else (false, 0%float)
             | None =>
                 if overflow_marker response then (false, infinity)
                 else (false, 0%float)
             end
         | None => (false, 0%float)
         end
     end.

(** [get_raw_value]. *)
Definition get_raw_value (d : device) (sim : float) (x : exchange) : bool * float :=
if use_simulator d then (true, sim)
else if negb (connected d) then (false, 0%float)
else match x with
     | PortError => (false, 0%float)
     | Response r =>
         match truthy r with
         | Some response =>
             match re_search response with
             | Some tok => (true, py_float tok)
             | None => (false, 0%float)
             end
         | None => (false, 0%float)
         end
     end.

End Client.

End Cropico.

(* --------------------------------------------------------------------- *)
(** ** calibration/statistics.py *)
(* --------------------------------------------------------------------- *)

(** [float(n)] for a length [n]. *)
Definition float_of_nat (n : nat) : float := of_uint63 (Uint63.of_Z (Z.of_nat n)).

(** [float(z)] for an integer [z] that is not negative. *)
Definition float_of_Z (z : Z) : float := of_uint63 (Uint63.of_Z z).

Module Statistics.

Section Numpy.

(** numpy's sum of a one-dimensional array of doubles ([np.add.reduce]).
    numpy fixes the order in which it adds (blocked from eight elements
    on), which the sources of this repository do not see; the functions
    below are stated over any summation. *)
Variable np_sum : list float -> float.

(** [np.mean(values)]: the sum over the number of elements. *)
Definition np_mean (values : list float) : float :=
(np_sum values / float_of_nat (List.length values))%float.

(** [np.std(values, ddof=ddof)]: the deviations from the mean, squared,
    summed, divided by [max(n - ddof, 0)], and the square root of that. *)
Definition np_std (values : list float) (ddof : Z) : float :=
let arrmean := np_mean values in
let x := map (fun v => (v - arrmean)%float) values in
let x := map (fun d => (d * d)%float) x in
let rcount := Z.max (Z.of_nat (List.length values) - ddof) 0 in
sqrt (np_sum x / float_of_Z rcount)%float.

(** [StatisticsCalculator.calculate_mean]. *)
Definition calculate_mean (values : list float) : float :=
match values with
| [] => 0%float
| _ => np_mean values
end.

(** [StatisticsCalculator.calculate_std]; [ddof] defaults to [default_ddof]. *)
Definition default_ddof : Z := 1.

Definition calculate_std (values : list float) (ddof : Z) : float :=
if (List.length values <? 2)%nat then 0%float
else np_std values ddof.

End Numpy.

(** The Bessel-corrected sample standard deviation, in the words of the
    specification: the square root of the sum of the squared deviations
    from the mean over [n - 1]. *)
Definition bessel_std (np_sum : list float -> float) (values : list float) : float :=
let n := List.length values in
let mean := (np_sum values / float_of_nat n)%float in
sqrt (np_sum (map (fun x => (x - mean) * (x - mean)) values) / float_of_nat (n - 1))%float.

(** Adding from left to right, starting from zero: numpy's order for fewer
    than eight elements.  Used to evaluate the functions on concrete lists. *)
Definition seq_sum (values : list float) : float :=
fold_left (fun acc v => (acc + v)%float) values 0%float.

(** [CalibrationPointStatistics]: the four lists [add_measurement] extends. *)
Record CalibrationPointStatistics := {
  cps_channel : string;
  cps_point_temperature : float;
  measured_temps : list float;
  reference_temps : list float;
  raw_values : list float;
  timestamps : list float
}.

Definition new_point_statistics (channel : string) (t : float) : CalibrationPointStatistics :=
{| cps_channel := channel; cps_point_temperature := t;
   measured_temps := []; reference_temps := []; raw_values := []; timestamps := [] |}.

Definition add_measurement (st : CalibrationPointStatistics)
  (measured reference raw_value timestamp : float) : CalibrationPointStatistics :=
{| cps_channel := cps_channel st;
   cps_point_temperature := cps_point_temperature st;
   measured_temps := measured_temps st ++ [measured];
   reference_temps := reference_temps st ++ [reference];
   raw_values := raw_values st ++ [raw_value];
   timestamps := timestamps st ++ [timestamp] |}.

End Statistics.

(* --------------------------------------------------------------------- *)
(** ** calibration/uncertainty.py *)
(* --------------------------------------------------------------------- *)

(** [max(a, b)] on two floats: [b] when [b > a], else [a]. *)
Definition py_max (a b : float) : float := if (a <? b)%float then b else a.

(** The text between the first and the second ["_"] of [s]:
    [s.split("_")[1]] when [s] holds a ["_"]. *)
Fixpoint upto_underscore (s : string) : string :=
match s with
| String c s' => if Ascii.eqb c "_" then EmptyString else String c (upto_underscore s')
| EmptyString => EmptyString
end.

Fixpoint after_underscore (s : string) : string :=
match s with
| String c s' => if Ascii.eqb c "_" then s' else after_underscore s'
| EmptyString => EmptyString
end.

Definition split_underscore_1 (s : string) : string :=
upto_underscore (after_underscore s).

Module Uncertainty.
Import Config.

Definition REFERENCE_UNCERTAINTY : float := 0.01.
Definition RESOLUTION_UNCERTAINTY : float := 0.001.
Definition STABILITY_UNCERTAINTY : float := 0.02.
Definition HOMOGENEITY_UNCERTAINTY : float := 0.05.
Definition DRIFT_UNCERTAINTY : float := 0.01.

Definition TC_K_CLASS_1_TOLERANCE (t : float) : float := py_max 1.5 (0.004 * abs t).
Definition TC_K_CLASS_2_TOLERANCE (t : float) : float := py_max 2.5 (0.0075 * abs t).
Definition TC_S_CLASS_1_TOLERANCE (t : float) : float :=
if (1100 <? t)%float then py_max 1.0 (0.003 * (t - 1100)) else 1.0%float.

(** The two concrete [UncertaintyCalculator] classes; a thermocouple
    calculator holds [tc_type.upper()]. *)
Inductive calculator :=
| PT100UncertaintyCalculator
| ThermocoupleUncertaintyCalculator (tc_type : string).

Definition new_thermocouple_calculator (tc_type : string) : calculator :=
ThermocoupleUncertaintyCalculator (upper tc_type).

Definition create_uncertainty_calculator (sensor_type : string) : calculator :=
if String.eqb sensor_type "PT100" then PT100UncertaintyCalculator
else if startswith "TC_" sensor_type then
  new_thermocouple_calculator
    (if py_in "_" sensor_type then split_underscore_1 sensor_type else "K")
else PT100UncertaintyCalculator.

Definition OUT_OF_CLASS : string := "Poza klasą".

(** [classify_sensor] of the two classes. *)
Definition classify_sensor (c : calculator) (max_error temperature : float) : string :=
let abs_error := abs max_error in
match c with
| PT100UncertaintyCalculator =>
    if (abs_error <=? PT100_CLASS_AA_TOLERANCE temperature)%float then "AA"
    else if (abs_error <=? PT100_CLASS_A_TOLERANCE temperature)%float then "A"
    else if (abs_error <=? PT100_CLASS_B_TOLERANCE temperature)%float then "B"
    else if (abs_error <=? PT100_CLASS_C_TOLERANCE temperature)%float then "C"
    else OUT_OF_CLASS
| ThermocoupleUncertaintyCalculator tc_type =>
    if String.eqb tc_type "K" then
      if (abs_error <=? TC_K_CLASS_1_TOLERANCE temperature)%float then "Klasa 1"
      else if (abs_error <=? TC_K_CLASS_2_TOLERANCE temperature)%float then "Klasa 2"
      else OUT_OF_CLASS
    else if String.eqb tc_type "S" then
      if (abs_error <=? TC_S_CLASS_1_TOLERANCE temperature)%float then "Klasa 1"
      else if (abs_error <=? TC_S_CLASS_1_TOLERANCE temperature * 1.5)%float then "Klasa 2"
      else OUT_OF_CLASS
    else
      if (abs_error <=? py_max 1.5 (0.004 * abs temperature))%float then "Klasa 1"
      else if (abs_error <=? py_max 2.5 (0.0075 * abs temperature))%float then "Klasa 2"
      else OUT_OF_CLASS
end.

(** The tolerance thresholds [classify_sensor] compares against, tightest
    first: the sensor type's table at [temperature]. *)
Definition tolerance_table (c : calculator) (temperature : float) : list float :=
match c with
| PT100UncertaintyCalculator =>
    [PT100_CLASS_AA_TOLERANCE temperature; PT100_CLASS_A_TOLERANCE temperature;
     PT100_CLASS_B_TOLERANCE temperature; PT100_CLASS_C_TOLERANCE temperature]
| ThermocoupleUncertaintyCalculator tc_type =>
    if String.eqb tc_type "K" then
      [TC_K_CLASS_1_TOLERANCE temperature; TC_K_CLASS_2_TOLERANCE temperature]
    else if String.eqb tc_type "S" then
      [TC_S_CLASS_1_TOLERANCE temperature; (TC_S_CLASS_1_TOLERANCE temperature * 1.5)%float]
    else
      [py_max 1.5 (0.004 * abs temperature); py_max 2.5 (0.0075 * abs temperature)]
end.

(** How strict a class is: the position of its name in the calculator's
    ladder, tightest first; "out of class" comes after every class. *)
Definition strictness (class : string) : nat :=
if String.eqb class "AA" then 0
else if String.eqb class "A" then 1
else if String.eqb class "B" then 2
else if String.eqb class "C" then 3
else if String.eqb class "Klasa 1" then 0
else if String.eqb class "Klasa 2" then 1
else 4.

(** The uncertainty budget.  [x ** 2] is taken as the product [x * x]. *)
Definition sq (x : float) : float := (x * x)%float.

Definition calculate_type_a (std_dev : float) (n_measurements : nat) : float :=
if (n_measurements <? 2)%nat then 0%float
else (std_dev / sqrt (float_of_nat n_measurements))%float.

Definition calculate_type_b (c : calculator) : float :=
let s3 := sqrt 3%float in
match c with
| PT100UncertaintyCalculator =>
    let u_ref := (REFERENCE_UNCERTAINTY / s3)%float in
    let u_res := (RESOLUTION_UNCERTAINTY / s3)%float in
    let u_stab := (STABILITY_UNCERTAINTY / s3)%float in
    let u_hom := (HOMOGENEITY_UNCERTAINTY / s3)%float in
    let u_drift := (DRIFT_UNCERTAINTY / s3)%float in
    sqrt (sq u_ref + sq u_res + sq u_stab + sq u_hom + sq u_drift)%float
| ThermocoupleUncertaintyCalculator _ =>
    let u_ref := (REFERENCE_UNCERTAINTY * 2 / s3)%float in
    let u_res := (RESOLUTION_UNCERTAINTY / s3)%float in
    let u_stab := (STABILITY_UNCERTAINTY / s3)%float in
    let u_hom := (HOMOGENEITY_UNCERTAINTY / s3)%float in
    let u_drift := (DRIFT_UNCERTAINTY * 2 / s3)%float in
    let u_cj := (0.5 / s3)%float in
    sqrt (sq u_ref + sq u_res + sq u_stab + sq u_hom + sq u_drift + sq u_cj)%float
end.

Definition calculate_combined (u_a u_b : float) : float := sqrt (sq u_a + sq u_b)%float.

Definition calculate_expanded (u_c k : float) : float := (k * u_c)%float.

(** [calculate_full_uncertainty(...)] with [k = 2.0]: the entries
    ["combined"] and ["expanded"] of the dictionary it returns. *)
Definition calculate_full_uncertainty (std_dev : float) (n_measurements : nat)
  (sensor_type : string) : float * float :=
let calculator := create_uncertainty_calculator sensor_type in
let u_a := calculate_type_a std_dev n_measurements in
let u_b := calculate_type_b calculator in
let u_c := calculate_combined u_a u_b in
(u_c, calculate_expanded u_c 2.0).

End Uncertainty.

(* --------------------------------------------------------------------- *)
(** ** Python containers used by the engine *)
(* --------------------------------------------------------------------- *)

(** A [dict] with [str] keys: the items in insertion order, no key twice. *)
Definition dict (V : Type) : Type := list (string * V).

Fixpoint dict_get {V : Type} (k : string) (d : dict V) : option V :=
match d with
| [] => None
| (k', v) :: d' => if String.eqb k' k then Some v else dict_get k d'
end.

(** [d.get(k, default)]. *)
Definition dict_get_default {V : Type} (k : string) (d : dict V) (default : V) : V :=
match dict_get k d with
| Some v => v
| None => default
end.

(** [k in d]. *)
Definition dict_mem {V : Type} (k : string) (d : dict V) : bool :=
match dict_get k d with
| Some _ => true
| None => false
end.

(** [d[k] = v]: a key already there keeps its place, a new one goes last. *)
Fixpoint dict_set {V : Type} (k : string) (v : V) (d : dict V) : dict V :=
match d with
| [] => [(k, v)]
| (k', v') :: d' => if String.eqb k' k then (k', v) :: d' else (k', v') :: dict_set k v d'
end.

(** [l.index(x)]; [None] is [ValueError]. *)
Fixpoint list_index (x : string) (l : list string) : option nat :=
match l with
| [] => None
| y :: l' => if String.eqb y x then Some 0%nat
             else match list_index x l' with Some i => Some (S i) | None => None end
end.

(** [max(l)] and [min(l)] of a list that is not empty: the first element
    unless a later one is greater (smaller), from left to right.  They are
    only called on lists known to hold an element. *)
Definition py_list_max (l : list float) : float :=
match l with
| [] => 0%float
| x :: l' => fold_left (fun m y => if (m <? y)%float then y else m) l' x
end.

Definition py_list_min (l : list float) : float :=
match l with
| [] => 0%float
| x :: l' => fold_left (fun m y => if (y <? m)%float then y else m) l' x
end.

(** [sorted(l)] on floats: a stable sort by [<].  Element after element is
    put behind everything that is not greater than it; on a list without
    NaN this is the list Python's sort returns. *)
Fixpoint insert_sorted (x : float) (l : list float) : list float :=
match l with
| [] => [x]
| y :: l' => if (x <? y)%float then x :: y :: l' else y :: insert_sorted x l'
end.

Definition sorted (l : list float) : list float :=
fold_left (fun acc x => insert_sorted x acc) l [].

(** A list of floats in ascending order: each element [<=] the next. *)
Definition ascending (l : list float) : Prop :=
Sorted (fun a b => (a <=? b)%float = true) l.

(** No NaN among the elements. *)
Definition no_nan (l : list float) : Prop :=
Forall (fun x => is_nan x = false) l.

(* --------------------------------------------------------------------- *)
(** ** calibration/engine.py: the orchestrator *)
(* --------------------------------------------------------------------- *)

Module Engine.
Import Config Statistics Uncertainty.

Inductive log_level := INFO | WARNING | ERROR.

(** One entry of the dictionary [_calculate_point_results] returns. *)
Record PointResult := {
  channel : string;
  point_temperature : float;
  avg_measured_temp : float;
  avg_reference_temp : float;
  std_dev : float;
  n_measurements : nat;
  error : float;
  max_absolute_error : float;
  standard_uncertainty : float;
  expanded_uncertainty : float;
  sensor_class : string;
  is_compliant : bool
}.

(** The arguments of [database.add_measurement]. *)
Record db_measurement := {
  dm_session_id : Z;
  dm_channel : nat;
  dm_channel_name : string;
  dm_measured_temperature : float;
  dm_reference_temperature : float;
  dm_furnace_pv : float;
  dm_furnace_sp : float;
  dm_raw_value : float;
  dm_absolute_error : float;
  dm_calibration_point : float
}.

(** What the engine does to the outside, in the order it does it: commands
    to the devices, Qt signals, log records (the fixed part of the message)
    and calls of the persistence collaborators. *)
Inductive event :=
| FurnaceSetSetpoint (temperature : float)
| CropicoConfigureChannel (channel sensor_type : string)
| WorkerThreadStarted
| ChannelChanged (channel : string)
| StabilityChanged (is_stable : bool)
| MeasurementTaken (channel : string) (temp ref_temp : float)
| PointCompleted (point_idx : nat) (target_temp : float) (results : dict PointResult)
| CalibrationCompleted
| ErrorOccurred
| StatusUpdated
| Log (level : log_level) (message : string)
| DbAddMeasurement (m : db_measurement)
| DbAddCalibrationResult (session : Z) (channel_idx : nat) (r : PointResult)
| DbUpdateSessionEndTime (session : Z)
| LoggerLogMeasurement (channel : string) (measured reference err : float).

(** The calls the controlling context makes while a run is in progress. *)
Inductive command := Stop | Pause | Resume.

(** Everything outside the sources of the repository: the two library
    functions, and the inputs of a run in the order the worker asks for
    them.  [ctl n] are the controller calls that land before the worker
    looks at its flags for the [n]-th time; [furnace_io n] and [cropico_io n]
    are the [n]-th exchange with each device (with the value a simulator
    would give); [clock n] is the [n]-th value of [time.time()];
    [collab_raises n] says whether the [n]-th call of a persistence
    collaborator raises. *)
Record world := {
  py_float : string -> float;
  np_sum : list float -> float;
  ctl : nat -> list command;
  furnace_io : nat -> float * Furnace.exchange;
  cropico_io : nat -> float * Cropico.exchange;
  clock : nat -> float;
  collab_raises : nat -> bool
}.

(** The engine object.  Its attributes are grouped: [handles] holds the
    devices and collaborators ([database] and [logger] say whether one is
    attached), [plan] what [configure_channels] and [put_calibration_points]
    set, [flags] the flags shared with the controlling context, [buffers]
    the per-point sample buffers, [position] where the run is, and [cursors]
    how much of each input of the environment has been used.  An attribute
    [self.x] is read with the accessor [x] and written with [put_x];
    [trace] collects, in order, the signals emitted, the commands sent, the
    log records and the collaborator calls.  The ring buffers kept for the
    live plot and the session report ([session_stats]) are written by the
    worker and never read by it; they are left out. *)
Record handles := {
  h_use_simulators : bool;
  h_cropico : Cropico.device;
  h_furnace : Furnace.device;
  h_database : bool;
  h_logger : bool;
  h_session_id : option Z
}.

Record plan := {
  pl_active_channels : list string;
  pl_channel_sensor_types : dict string;
  pl_calibration_points : list float
}.

Record flags := {
  fl_is_running : bool;
  fl_is_paused : bool;
  fl_stop_requested : bool
}.

Record buffers := {
  bf_channel_readings : dict (list float);
  bf_reference_readings : list float;
  bf_last_channel_values : dict float;
  bf_point_stats : dict CalibrationPointStatistics
}.

Record position := {
  ps_current_point_index : nat;
  ps_current_channel_index : nat;
  ps_stability_start_time : option float
}.

Record cursors := {
  cu_n_ctl : nat;
  cu_n_furnace : nat;
  cu_n_cropico : nat;
  cu_n_clock : nat;
  cu_n_collab : nat
}.

Record engine := {
  handles_of : handles;
  plan_of : plan;
  flags_of : flags;
  buffers_of : buffers;
  position_of : position;
  cursors_of : cursors;
  trace : list event
}.

Definition use_simulators (s : engine) : bool := h_use_simulators (handles_of s).
Definition cropico (s : engine) : Cropico.device := h_cropico (handles_of s).
Definition furnace (s : engine) : Furnace.device := h_furnace (handles_of s).
Definition database (s : engine) : bool := h_database (handles_of s).
Definition logger (s : engine) : bool := h_logger (handles_of s).
Definition session_id (s : engine) : option Z := h_session_id (handles_of s).
Definition active_channels (s : engine) : list string := pl_active_channels (plan_of s).
Definition channel_sensor_types (s : engine) : dict string := pl_channel_sensor_types (plan_of s).
Definition calibration_points (s : engine) : list float := pl_calibration_points (plan_of s).
Definition is_running (s : engine) : bool := fl_is_running (flags_of s).
Definition is_paused (s : engine) : bool := fl_is_paused (flags_of s).
Definition _stop_requested (s : engine) : bool := fl_stop_requested (flags_of s).
Definition channel_readings (s : engine) : dict (list float) := bf_channel_readings (buffers_of s).
Definition reference_readings (s : engine) : list float := bf_reference_readings (buffers_of s).
Definition last_channel_values (s : engine) : dict float := bf_last_channel_values (buffers_of s).
Definition point_stats (s : engine) : dict CalibrationPointStatistics := bf_point_stats (buffers_of s).
Definition current_point_index (s : engine) : nat := ps_current_point_index (position_of s).
Definition current_channel_index (s : engine) : nat := ps_current_channel_index (position_of s).
Definition _stability_start_time (s : engine) : option float := ps_stability_start_time (position_of s).
Definition n_ctl (s : engine) : nat := cu_n_ctl (cursors_of s).
Definition n_furnace (s : engine) : nat := cu_n_furnace (cursors_of s).
Definition n_cropico (s : engine) : nat := cu_n_cropico (cursors_of s).
Definition n_clock (s : engine) : nat := cu_n_clock (cursors_of s).
Definition n_collab (s : engine) : nat := cu_n_collab (cursors_of s).

Definition with_plan (g : plan) (s : engine) : engine :=
{| handles_of := handles_of s; plan_of := g; flags_of := flags_of s; buffers_of :=
   buffers_of s; position_of := position_of s; cursors_of := cursors_of s; trace :=
   trace s |}.

Definition with_flags (g : flags) (s : engine) : engine :=
{| handles_of := handles_of s; plan_of := plan_of s; flags_of := g; buffers_of :=
   buffers_of s; position_of := position_of s; cursors_of := cursors_of s; trace :=
   trace s |}.

Definition with_buffers (g : buffers) (s : engine) : engine :=
{| handles_of := handles_of s; plan_of := plan_of s; flags_of := flags_of s; buffers_of
   := g; position_of := position_of s; cursors_of := cursors_of s; trace := trace s |}.

Definition with_position (g : position) (s : engine) : engine :=
{| handles_of := handles_of s; plan_of := plan_of s; flags_of := flags_of s; buffers_of
   := buffers_of s; position_of := g; cursors_of := cursors_of s; trace := trace s |}.

Definition with_cursors (g : cursors) (s : engine) : engine :=
{| handles_of := handles_of s; plan_of := plan_of s; flags_of := flags_of s; buffers_of
   := buffers_of s; position_of := position_of s; cursors_of := g; trace := trace s |}.

Definition put_trace (t : list event) (s : engine) : engine :=
{| handles_of := handles_of s; plan_of := plan_of s; flags_of := flags_of s; buffers_of
   := buffers_of s; position_of := position_of s; cursors_of := cursors_of s; trace := t
   |}.

Definition put_active_channels (v : list string) (s : engine) : engine :=
with_plan {| pl_active_channels := v; pl_channel_sensor_types := channel_sensor_types s;
  pl_calibration_points := calibration_points s |} s.

Definition put_channel_sensor_types (v : dict string) (s : engine) : engine :=
with_plan {| pl_active_channels := active_channels s; pl_channel_sensor_types := v;
  pl_calibration_points := calibration_points s |} s.

Definition put_calibration_points (v : list float) (s : engine) : engine :=
with_plan {| pl_active_channels := active_channels s; pl_channel_sensor_types :=
  channel_sensor_types s; pl_calibration_points := v |} s.

Definition put_is_running (v : bool) (s : engine) : engine :=
with_flags {| fl_is_running := v; fl_is_paused := is_paused s; fl_stop_requested :=
  _stop_requested s |} s.

Definition put_is_paused (v : bool) (s : engine) : engine :=
with_flags {| fl_is_running := is_running s; fl_is_paused := v; fl_stop_requested :=
  _stop_requested s |} s.

Definition put__stop_requested (v : bool) (s : engine) : engine :=
with_flags {| fl_is_running := is_running s; fl_is_paused := is_paused s;
  fl_stop_requested := v |} s.

Definition put_channel_readings (v : dict (list float)) (s : engine) : engine :=
with_buffers {| bf_channel_readings := v; bf_reference_readings := reference_readings s;
  bf_last_channel_values := last_channel_values s; bf_point_stats := point_stats s |} s.

Definition put_reference_readings (v : list float) (s : engine) : engine :=
with_buffers {| bf_channel_readings := channel_readings s; bf_reference_readings := v;
  bf_last_channel_values := last_channel_values s; bf_point_stats := point_stats s |} s.

Definition put_last_channel_values (v : dict float) (s : engine) : engine :=
with_buffers {| bf_channel_readings := channel_readings s; bf_reference_readings :=
  reference_readings s; bf_last_channel_values := v; bf_point_stats := point_stats s |}
  s.

Definition put_point_stats (v : dict CalibrationPointStatistics) (s : engine) : engine :=
with_buffers {| bf_channel_readings := channel_readings s; bf_reference_readings :=
  reference_readings s; bf_last_channel_values := last_channel_values s; bf_point_stats
  := v |} s.

Definition put_current_point_index (v : nat) (s : engine) : engine :=
with_position {| ps_current_point_index := v; ps_current_channel_index :=
  current_channel_index s; ps_stability_start_time := _stability_start_time s |} s.

Definition put_current_channel_index (v : nat) (s : engine) : engine :=
with_position {| ps_current_point_index := current_point_index s;
  ps_current_channel_index := v; ps_stability_start_time := _stability_start_time s |}
  s.

Definition put__stability_start_time (v : option float) (s : engine) : engine :=
with_position {| ps_current_point_index := current_point_index s;
  ps_current_channel_index := current_channel_index s; ps_stability_start_time := v |}
  s.

Definition put_n_ctl (v : nat) (s : engine) : engine :=
with_cursors {| cu_n_ctl := v; cu_n_furnace := n_furnace s; cu_n_cropico := n_cropico s;
  cu_n_clock := n_clock s; cu_n_collab := n_collab s |} s.

Definition put_n_furnace (v : nat) (s : engine) : engine :=
with_cursors {| cu_n_ctl := n_ctl s; cu_n_furnace := v; cu_n_cropico := n_cropico s;
  cu_n_clock := n_clock s; cu_n_collab := n_collab s |} s.

Definition put_n_cropico (v : nat) (s : engine) : engine :=
with_cursors {| cu_n_ctl := n_ctl s; cu_n_furnace := n_furnace s; cu_n_cropico := v;
  cu_n_clock := n_clock s; cu_n_collab := n_collab s |} s.

Definition put_n_clock (v : nat) (s : engine) : engine :=
with_cursors {| cu_n_ctl := n_ctl s; cu_n_furnace := n_furnace s; cu_n_cropico :=
  n_cropico s; cu_n_clock := v; cu_n_collab := n_collab s |} s.

Definition put_n_collab (v : nat) (s : engine) : engine :=
with_cursors {| cu_n_ctl := n_ctl s; cu_n_furnace := n_furnace s; cu_n_cropico :=
  n_cropico s; cu_n_clock := n_clock s; cu_n_collab := v |} s.

(** [CalibrationEngine.__init__]: the devices come from [DeviceFactory],
    not yet connected; no database or logger is attached. *)
Definition __init__ (use_simulators : bool) : engine :=
{| handles_of :=
     {| h_use_simulators := use_simulators;
        h_cropico := {| Cropico.use_simulator := use_simulators; Cropico.connected := false |};
        h_furnace := {| Furnace.use_simulator := use_simulators; Furnace.connected := false;
                        Furnace.has_ser := false; Furnace.slave_id := FURNACE_SLAVE_ID |};
        h_database := false; h_logger := false; h_session_id := None |};
   plan_of := {| pl_active_channels := [REFERENCE_CHANNEL];
                 pl_channel_sensor_types := []; pl_calibration_points := [] |};
   flags_of := {| fl_is_running := false; fl_is_paused := false; fl_stop_requested := false |};
   buffers_of := {| bf_channel_readings := []; bf_reference_readings := [];
                    bf_last_channel_values := []; bf_point_stats := [] |};
   position_of := {| ps_current_point_index := 0; ps_current_channel_index := 0;
                     ps_stability_start_time := None |};
   cursors_of := {| cu_n_ctl := 0; cu_n_furnace := 0; cu_n_cropico := 0; cu_n_clock := 0;
                    cu_n_collab := 0 |};
   trace := [] |}.

(** Appending to the trace. *)
Definition record_event (e : event) (s : engine) : engine := put_trace (trace s ++ [e]) s.

(** [configure_channels]: the reference channel is put first when it is
    not among the channels given; every active channel is then configured
    on the multimeter. *)
Definition configure_channels (channels : list string) (sensor_types : dict string)
  (s : engine) : engine :=
let s := put_active_channels channels s in
let s := put_channel_sensor_types sensor_types s in
let s := if existsb (String.eqb REFERENCE_CHANNEL) (active_channels s) then s
         else put_active_channels (REFERENCE_CHANNEL :: active_channels s) s in
fold_left
  (fun s channel =>
     record_event
       (CropicoConfigureChannel channel
          (dict_get_default channel (channel_sensor_types s) "PT100")) s)
  (active_channels s) s.

Definition set_calibration_points (points : list float) (s : engine) : engine :=
record_event (Log INFO "Calibration points set") (put_calibration_points (sorted points) s).

(** [start_calibration]: [WorkerThreadStarted] stands for
    [self._worker_thread.start()]. *)
Definition start_calibration (s : engine) : engine :=
if is_running s then record_event (Log WARNING "Calibration already running") s
else
  let s := put_is_running true s in
  let s := put_is_paused false s in
  let s := put__stop_requested false s in
  let s := put_current_point_index 0 s in
  let s := put_current_channel_index 0 s in
  let s := put_channel_readings [] s in
  let s := put_reference_readings [] s in
  let s := put_point_stats [] s in
  let s := record_event WorkerThreadStarted s in
  record_event (Log INFO "Calibration started") s.

Definition stop_calibration (s : engine) : engine :=
let s := put__stop_requested true s in
let s := put_is_running false s in
record_event (Log INFO "Calibration stop requested") s.

Definition pause_calibration (s : engine) : engine :=
record_event (Log INFO "Calibration paused") (put_is_paused true s).

Definition resume_calibration (s : engine) : engine :=
record_event (Log INFO "Calibration resumed") (put_is_paused false s).

Definition apply_command (s : engine) (c : command) : engine :=
match c with
| Stop => stop_calibration s
| Pause => pause_calibration s
| Resume => resume_calibration s
end.

(** *** The worker's computations

    A computation of the worker reads and writes the engine object and
    ends in one of three ways: it returns, an exception leaves it, or it is
    still inside one of its waiting loops when the bound on the number of
    iterations is reached. *)
Inductive res (A : Type) : Type :=
| Ok (a : A) (s : engine)
| Raised (s : engine)
| Waiting (s : engine).

Arguments Ok {A} a s.
Arguments Raised {A} s.
Arguments Waiting {A} s.

Definition state_of {A : Type} (r : res A) : engine :=
match r with
| Ok _ s => s
| Raised s => s
| Waiting s => s
end.

Definition M (A : Type) : Type := engine -> res A.

Definition ret {A : Type} (a : A) : M A := fun s => Ok a s.

Definition bind {A B : Type} (m : M A) (k : A -> M B) : M B :=
fun s =>
  match m s with
  | Ok a s' => k a s'
  | Raised s' => Raised s'
  | Waiting s' => Waiting s'
  end.

Notation "x <- m ;; k" := (bind m (fun x => k))
  (at level 61, m at next level, right associativity).
Notation "' pat <- m ;; k" := (bind m (fun x => match x with pat => k end))
  (at level 61, pat pattern, m at next level, right associativity).
Notation "m ;; k" := (bind m (fun _ => k))
  (at level 61, right associativity).

Definition get {A : Type} (f : engine -> A) : M A := fun s => Ok (f s) s.

Definition modify (f : engine -> engine) : M unit := fun s => Ok tt (f s).

Definition emit (e : event) : M unit := modify (record_event e).

Definition raise {A : Type} : M A := fun s => Raised s.

Definition still_waiting {A : Type} : M A := fun s => Waiting s.

Section Worker.

Variable w : world.

(** A look at the flags: the controller calls that landed since the last
    look have taken effect. *)
Definition observe : M unit :=
modify (fun s => put_n_ctl (S (n_ctl s)) (fold_left apply_command (ctl w (n_ctl s)) s)).

Definition furnace_read_temperature : M (bool * float) :=
fun s =>
  let (sim, x) := furnace_io w (n_furnace s) in
  Ok (Furnace.read_temperature (furnace s) sim x) (put_n_furnace (S (n_furnace s)) s).

Definition furnace_read_setpoint : M (bool * float) :=
fun s =>
  let (sim, x) := furnace_io w (n_furnace s) in
  Ok (Furnace.read_setpoint (furnace s) sim x) (put_n_furnace (S (n_furnace s)) s).

Definition cropico_read_temperature : M (bool * float) :=
fun s =>
  let (sim, x) := cropico_io w (n_cropico s) in
  Ok (Cropico.read_temperature (py_float w) (cropico s) sim x)
     (put_n_cropico (S (n_cropico s)) s).

Definition cropico_get_raw_value : M (bool * float) :=
fun s =>
  let (sim, x) := cropico_io w (n_cropico s) in
  Ok (Cropico.get_raw_value (py_float w) (cropico s) sim x)
     (put_n_cropico (S (n_cropico s)) s).

Definition time_time : M float :=
fun s => Ok (clock w (n_clock s)) (put_n_clock (S (n_clock s)) s).

(** A call of a persistence collaborator: it is recorded, or it raises. *)
Definition collaborator_call (e : event) : M unit :=
fun s =>
  let s' := put_n_collab (S (n_collab s)) s in
  if collab_raises w (n_collab s) then Raised s' else Ok tt (record_event e s').

(** [self.database and self.session_id]: the session to write to. *)
Definition open_session (s : engine) : option Z :=
if database s then
  match session_id s with
  | Some sid => if (sid =? 0)%Z then None else Some sid
  | None => None
  end
else None.

(** [while self.is_paused and not self._stop_requested: time.sleep(0.5)]. *)
Fixpoint pause_wait (fuel : nat) : M unit :=
observe ;;
paused <- get is_paused ;;
stop <- get _stop_requested ;;
if paused && negb stop then
  match fuel with
  | O => still_waiting
  | S fuel' => pause_wait fuel'
  end
else ret tt.

(** [_update_status]: two furnace reads and the status signal (its
    payload is a snapshot for display). *)
Definition _update_status : M unit :=
furnace_read_temperature ;;
furnace_read_setpoint ;;
emit StatusUpdated.

(** The loop of [_check_thermal_equilibrium] over the active channels. *)
Fixpoint equilibrium_reads (channels : list string) (temps : dict float) : M (dict float) :=
match channels with
| [] => ret temps
| channel :: rest =>
    types <- get channel_sensor_types ;;
    emit (CropicoConfigureChannel channel (dict_get_default channel types "PT100")) ;;
    ' (success, temp) <- cropico_read_temperature ;;
    if success && negb (temp =? infinity)%float then
      modify (fun s => put_last_channel_values (dict_set channel temp (last_channel_values s)) s) ;;
      equilibrium_reads rest (dict_set channel temp temps)
    else equilibrium_reads rest temps
end.

Definition _check_thermal_equilibrium : M bool :=
channels <- get active_channels ;;
if (List.length channels <? 2)%nat then ret true
else
  temps <- equilibrium_reads channels [] ;;
  if (List.length temps <? 2)%nat then ret true
  else
    let temp_values := map snd temps in
    let max_diff := (py_list_max temp_values - py_list_min temp_values)%float in
    ret (max_diff <=? THERMAL_EQUILIBRIUM_THRESHOLD)%float.

(** The loop of [_wait_for_stability]; [fuel] bounds the number of further
    iterations.  The result is the value returned. *)
Fixpoint wait_loop (fuel : nat) (target_temp : float) : M bool :=
observe ;;
stop <- get _stop_requested ;;
if stop then ret false
else
  pause_wait fuel ;;
  ' (success, furnace_pv) <- furnace_read_temperature ;;
  returned <-
    (if negb success then ret false
     else
       let diff := abs (furnace_pv - target_temp) in
       let is_stable := (diff <=? STABILITY_TOLERANCE)%float in
       returned <-
         (if is_stable then
            started <- get _stability_start_time ;;
            start <-
              match started with
              | None =>
                  now <- time_time ;;
                  modify (put__stability_start_time (Some now)) ;;
                  ret now
              | Some t => ret t
              end ;;
            now <- time_time ;;
            let elapsed := (now - start)%float in
            emit (StabilityChanged true) ;;
            if (STABILITY_TIME_SECONDS <=? elapsed)%float then
              balanced <- _check_thermal_equilibrium ;;
              if balanced then emit (Log INFO "Stability achieved") ;; ret true
              else emit (StabilityChanged false) ;; ret false
            else ret false
          else
            modify (put__stability_start_time None) ;;
            emit (StabilityChanged false) ;;
            ret false) ;;
       if returned then ret true else _update_status ;; ret false) ;;
  if returned then ret true
  else
    match fuel with
    | O => still_waiting
    | S fuel' => wait_loop fuel' target_temp
    end.

Definition _wait_for_stability (fuel : nat) (target_temp : float) : M bool :=
modify (put__stability_start_time None) ;;
wait_loop fuel target_temp.

(** [_save_measurement]. *)
Definition _save_measurement (channel : string) (measured reference raw_value
  calibration_point : float) : M unit :=
s <- get (fun s => s) ;;
match open_session s with
| Some sid =>
    ' (success, furnace_pv) <- furnace_read_temperature ;;
    ' (success_sp, furnace_sp) <- furnace_read_setpoint ;;
    match list_index channel (active_channels s) with
    | Some idx =>
        collaborator_call
          (DbAddMeasurement
             {| dm_session_id := sid;
                dm_channel := idx;
                dm_channel_name := channel;
                dm_measured_temperature := measured;
                dm_reference_temperature := reference;
                dm_furnace_pv := if success then furnace_pv else 0%float;
                dm_furnace_sp := if success_sp then furnace_sp else 0%float;
                dm_raw_value := raw_value;
                dm_absolute_error := (measured - reference)%float;
                dm_calibration_point := calibration_point |})
    | None => raise
    end
| None => ret tt
end ;;
has_logger <- get logger ;;
if has_logger then
  collaborator_call (LoggerLogMeasurement channel measured reference (measured - reference)%float)
else ret tt.

(** The body of the loop over the channels in [_measure_point], after the
    stop check: one visit of [channel]. *)
Definition visit_channel (target_temp : float) (channel : string) : M unit :=
types <- get channel_sensor_types ;;
let sensor_type := dict_get_default channel types "PT100" in
emit (CropicoConfigureChannel channel sensor_type) ;;
emit (ChannelChanged channel) ;;
' (success, temp) <- cropico_read_temperature ;;
' (success_raw, raw_value) <- cropico_get_raw_value ;;
if success && negb (temp =? infinity)%float then
  modify (fun s =>
            put_channel_readings
              (dict_set channel (dict_get_default channel (channel_readings s) [] ++ [temp])%list
                        (channel_readings s)) s) ;;
  modify (fun s => put_last_channel_values (dict_set channel temp (last_channel_values s)) s) ;;
  last <- get last_channel_values ;;
  let ref_temp := dict_get_default REFERENCE_CHANNEL last target_temp in
  ref_temp <-
    (if String.eqb channel REFERENCE_CHANNEL then
       modify (fun s => put_reference_readings (reference_readings s ++ [temp])%list s) ;;
       ret temp
     else ret ref_temp) ;;
  emit (MeasurementTaken channel temp ref_temp) ;;
  stats <- get point_stats ;;
  match dict_get channel stats with
  | Some st =>
      now <- time_time ;;
      modify (fun s =>
                put_point_stats
                  (dict_set channel
                     (add_measurement st temp ref_temp
                        (if success_raw then raw_value else 0%float) now)
                     (point_stats s)) s)
  | None => ret tt
  end ;;
  _save_measurement channel temp ref_temp (if success_raw then raw_value else 0%float)
                    target_temp
else emit (Log WARNING ("Failed to read channel " ++ channel)%string).

(** [for channel_idx, channel in enumerate(self.active_channels)]. *)
Fixpoint visit_channels (target_temp : float) (channels : list string) : M unit :=
match channels with
| [] => ret tt
| channel :: rest =>
    observe ;;
    stop <- get _stop_requested ;;
    if stop then ret tt
    else visit_channel target_temp channel ;; visit_channels target_temp rest
end.

(** [for measurement_num in range(n)]. *)
Fixpoint measurement_rounds (fuel : nat) (target_temp : float) (n : nat) : M unit :=
match n with
| O => ret tt
| S n' =>
    observe ;;
    stop <- get _stop_requested ;;
    if stop then ret tt
    else
      pause_wait fuel ;;
      channels <- get active_channels ;;
      visit_channels target_temp channels ;;
      _update_status ;;
      measurement_rounds fuel target_temp n'
end.

(** One entry of the results of a point. *)
Definition point_result (s : engine) (target_temp ref_mean : float) (channel : string)
  (temps : list float) : PointResult :=
let mean_temp := calculate_mean (np_sum w) temps in
let std := calculate_std (np_sum w) temps default_ddof in
let err := (mean_temp - ref_mean)%float in
let sensor_type := dict_get_default channel (channel_sensor_types s) "PT100" in
let uncertainty := calculate_full_uncertainty std (List.length temps) sensor_type in
let unc_calc := create_uncertainty_calculator sensor_type in
let class := classify_sensor unc_calc (abs err) target_temp in
{| channel := channel;
   point_temperature := target_temp;
   avg_measured_temp := mean_temp;
   avg_reference_temp := ref_mean;
   std_dev := std;
   n_measurements := List.length temps;
   error := err;
   max_absolute_error := py_list_max (map (fun t => abs (t - ref_mean)) temps);
   standard_uncertainty := fst uncertainty;
   expanded_uncertainty := snd uncertainty;
   sensor_class := class;
   is_compliant := negb (String.eqb class OUT_OF_CLASS || String.eqb class "") |}.

(** The reference value of a point: the mean of the reference channel's
    readings, or the target when it has none. *)
Definition reference_mean (s : engine) (target_temp : float) : float :=
match dict_get_default REFERENCE_CHANNEL (channel_readings s) [] with
| [] => target_temp
| ref_temps => calculate_mean (np_sum w) ref_temps
end.

(** [_calculate_point_results]. *)
Definition _calculate_point_results (s : engine) (target_temp : float) : dict PointResult :=
let ref_mean := reference_mean s target_temp in
fold_left
  (fun results channel =>
     match dict_get_default channel (channel_readings s) [] with
     | [] => results
     | temps => dict_set channel (point_result s target_temp ref_mean channel temps) results
     end)
  (active_channels s) [].

(** [_measure_point]. *)
Definition _measure_point (fuel : nat) (target_temp : float) : M (dict PointResult) :=
modify (put_channel_readings []) ;;
modify (put_reference_readings []) ;;
measurement_rounds fuel target_temp MEASUREMENTS_PER_POINT ;;
s <- get (fun s => s) ;;
ret (_calculate_point_results s target_temp).

(** [_save_point_results]. *)
Fixpoint save_each (sid : Z) (items : dict PointResult) : M unit :=
match items with
| [] => ret tt
| (channel, data) :: rest =>
    channels <- get active_channels ;;
    match list_index channel channels with
    | Some idx => collaborator_call (DbAddCalibrationResult sid idx data)
    | None => raise
    end ;;
    save_each sid rest
end.

Definition _save_point_results (results : dict PointResult) : M unit :=
s <- get (fun s => s) ;;
match open_session s with
| Some sid => save_each sid results
| None => ret tt
end.

(** [_finalize_session]. *)
Definition _finalize_session : M unit :=
s <- get (fun s => s) ;;
match open_session s with
| Some sid => collaborator_call (DbUpdateSessionEndTime sid)
| None => ret tt
end ;;
emit CalibrationCompleted ;;
emit (Log INFO "Calibration session completed").

(** The loop of [_calibration_worker] over the points that are left, the
    next one having index [point_idx]. *)
Fixpoint worker_loop (fuel : nat) (point_idx : nat) (points : list float) : M unit :=
match points with
| [] => ret tt
| target_temp :: rest =>
    observe ;;
    stop <- get _stop_requested ;;
    if stop then ret tt
    else
      modify (put_current_point_index point_idx) ;;
      emit (Log INFO "Starting point") ;;
      emit (FurnaceSetSetpoint target_temp) ;;
      stable <- _wait_for_stability fuel target_temp ;;
      if negb stable then
        observe ;;
        stop <- get _stop_requested ;;
        if stop then ret tt else worker_loop fuel (S point_idx) rest
      else
        channels <- get active_channels ;;
        modify (fun s =>
                  put_point_stats
                    (fold_left
                       (fun stats channel =>
                          dict_set channel (new_point_statistics channel target_temp) stats)
                       channels (point_stats s)) s) ;;
        point_results <- _measure_point fuel target_temp ;;
        match point_results with
        | [] => ret tt
        | _ =>
            emit (PointCompleted point_idx target_temp point_results) ;;
            _save_point_results point_results
        end ;;
        worker_loop fuel (S point_idx) rest
end.

(** The [try] block of [_calibration_worker]. *)
Definition worker_body (fuel : nat) : M unit :=
points <- get calibration_points ;;
worker_loop fuel 0 points ;;
observe ;;
stop <- get _stop_requested ;;
if negb stop then
  emit (FurnaceSetSetpoint PARKING_TEMPERATURE) ;;
  _finalize_session
else ret tt.

(** [_calibration_worker]: the [except] and [finally] clauses are run when
    the body has returned or raised; a worker that is still waiting has
    reached neither. *)
Definition _calibration_worker (fuel : nat) (s : engine) : res unit :=
match worker_body fuel s with
| Ok _ s' => Ok tt (put_is_running false s')
| Raised s' =>
    let s' := record_event (Log ERROR "Calibration worker error") s' in
    let s' := record_event ErrorOccurred s' in
    Ok tt (put_is_running false s')
| Waiting s' => Waiting s'
end.

End Worker.

(** The temperatures sent to the furnace, in order, among some events. *)
Fixpoint setpoints (evs : list event) : list float :=
match evs with
| [] => []
| FurnaceSetSetpoint t :: rest => t :: setpoints rest
| _ :: rest => setpoints rest
end.

End Engine.

(* ===================================================================== *)
(** * Part II: the properties *)
(* ===================================================================== *)

Local Open Scope list_scope.
Local Open Scope Z_scope.

(** ** Binary64 order facts *)
(* ===================================================================== *)

(** The comparisons [<=?] and [<?] of [float] are those of Python: every
  comparison with a NaN is false.  The facts below are derived from the
  specification of the primitive operations. *)


Lemma compare_em_le_trans (e1 e2 e3 : Z) (m1 m2 m3 : positive) c12 c23 :
  match e1 ?= e2 with Lt => Lt | Gt => Gt | Eq => Pos.compare_cont Eq m1 m2 end = c12 ->
  match e2 ?= e3 with Lt => Lt | Gt => Gt | Eq => Pos.compare_cont Eq m2 m3 end = c23 ->
  c12 <> Gt -> c23 <> Gt ->
  match e1 ?= e3 with Lt => Lt | Gt => Gt | Eq => Pos.compare_cont Eq m1 m3 end <> Gt.
Proof.
  change (Pos.compare_cont Eq m1 m2) with (m1 ?= m2)%positive.
  change (Pos.compare_cont Eq m2 m3) with (m2 ?= m3)%positive.
  change (Pos.compare_cont Eq m1 m3) with (m1 ?= m3)%positive.
  intros <- <-.
  destruct (Z.compare_spec e1 e2), (Z.compare_spec e2 e3), (Z.compare_spec e1 e3);
    destruct (Pos.compare_spec m1 m2), (Pos.compare_spec m2 m3),
             (Pos.compare_spec m1 m3);
    intros; try congruence; try lia.
Qed.

Lemma compare_em_ge_trans (e1 e2 e3 : Z) (m1 m2 m3 : positive) c12 c23 :
  match e1 ?= e2 with Lt => Lt | Gt => Gt | Eq => Pos.compare_cont Eq m1 m2 end = c12 ->
  match e2 ?= e3 with Lt => Lt | Gt => Gt | Eq => Pos.compare_cont Eq m2 m3 end = c23 ->
  c12 <> Lt -> c23 <> Lt ->
  match e1 ?= e3 with Lt => Lt | Gt => Gt | Eq => Pos.compare_cont Eq m1 m3 end <> Lt.
Proof.
  change (Pos.compare_cont Eq m1 m2) with (m1 ?= m2)%positive.
  change (Pos.compare_cont Eq m2 m3) with (m2 ?= m3)%positive.
  change (Pos.compare_cont Eq m1 m3) with (m1 ?= m3)%positive.
  intros <- <-.
  destruct (Z.compare_spec e1 e2), (Z.compare_spec e2 e3), (Z.compare_spec e1 e3);
    destruct (Pos.compare_spec m1 m2), (Pos.compare_spec m2 m3),
             (Pos.compare_spec m1 m3);
    intros; try congruence; try lia.
Qed.

Lemma SFleb_trans x y z :
  SFleb x y = true -> SFleb y z = true -> SFleb x z = true.
Proof.
  unfold SFleb, SFcompare.
  destruct x as [sx|sx| |sx mx ex], y as [sy|sy| |sy my ey],
           z as [sz|sz| |sz mz ez];
    repeat match goal with s : bool |- _ => destruct s end;
    try reflexivity; try discriminate.
  - intros H1 H2.
    pose proof (@compare_em_ge_trans ex ey ez mx my mz _ _ eq_refl eq_refl) as T.
    destruct (ex ?= ey); destruct (ey ?= ez); destruct (ex ?= ez);
      destruct (Pos.compare_cont Eq mx my); destruct (Pos.compare_cont Eq my mz);
      destruct (Pos.compare_cont Eq mx mz);
      simpl in *; try reflexivity; try discriminate;
      exfalso; apply T; congruence.
  - intros H1 H2.
    pose proof (@compare_em_le_trans ex ey ez mx my mz _ _ eq_refl eq_refl) as T.
    destruct (ex ?= ey); destruct (ey ?= ez); destruct (ex ?= ez);
      destruct (Pos.compare_cont Eq mx my); destruct (Pos.compare_cont Eq my mz);
      destruct (Pos.compare_cont Eq mx mz);
      simpl in *; try reflexivity; try discriminate;
      exfalso; apply T; congruence.
Qed.

(** [<=] on floats is transitive (a NaN makes a hypothesis false). *)
Lemma leb_trans (x y z : float) :
  (x <=? y)%float = true -> (y <=? z)%float = true -> (x <=? z)%float = true.
Proof. rewrite !leb_spec. apply SFleb_trans. Qed.

Lemma SFcompare_antisym (x y : spec_float) :
  SFcompare y x = option_map CompOpp (SFcompare x y).
Proof.
destruct x as [sx|sx| |sx mx ex], y as [sy|sy| |sy my ey];
  repeat match goal with s : bool |- _ => destruct s end; try reflexivity;
  unfold SFcompare; rewrite (Z.compare_antisym ex ey);
  destruct (ex ?= ey); cbn [CompOpp option_map]; try reflexivity;
  change (Pos.compare_cont Eq my mx) with (my ?= mx)%positive;
  change (Pos.compare_cont Eq mx my) with (mx ?= my)%positive;
  rewrite (Pos.compare_antisym mx my); try reflexivity;
  destruct (mx ?= my)%positive; reflexivity.
Qed.

(** [x < y] excludes [y <= x]. *)
Lemma ltb_leb_false (x y : float) :
  (x <? y)%float = true -> (y <=? x)%float = false.
Proof.
rewrite ltb_spec, leb_spec. unfold SFltb, SFleb.
rewrite (SFcompare_antisym (Prim2SF x) (Prim2SF y)).
destruct (SFcompare (Prim2SF x) (Prim2SF y)) as [[| |]|]; simpl; congruence.
Qed.


Lemma ltb_leb (x y : float) : (x <? y)%float = true -> (x <=? y)%float = true.
Proof.
rewrite ltb_spec, leb_spec. unfold SFltb, SFleb.
destruct (SFcompare (Prim2SF x) (Prim2SF y)) as [[| |]|]; congruence.
Qed.

Lemma not_nan_spec (x : float) : is_nan x = false -> Prim2SF x <> S754_nan.
Proof.
unfold is_nan. rewrite eqb_spec. intros H E. rewrite E in H. discriminate.
Qed.

Lemma SFcompare_defined (x y : spec_float) :
  x <> S754_nan -> y <> S754_nan -> SFcompare x y <> None.
Proof.
destruct x, y; simpl; congruence.
Qed.

(** Without NaN the order is total: what is not below is above or equal. *)
Lemma not_ltb_leb (x y : float) :
  is_nan x = false -> is_nan y = false ->
  (x <? y)%float = false -> (y <=? x)%float = true.
Proof.
intros Nx Ny. rewrite ltb_spec, leb_spec. unfold SFltb, SFleb.
rewrite (SFcompare_antisym (Prim2SF x) (Prim2SF y)).
pose proof (SFcompare_defined _ _ (not_nan_spec x Nx) (not_nan_spec y Ny)) as D.
destruct (SFcompare (Prim2SF x) (Prim2SF y)) as [[| |]|]; simpl; congruence.
Qed.

(* --------------------------------------------------------------------- *)
(** ** Sorting the calibration points *)
(* --------------------------------------------------------------------- *)

Lemma insert_sorted_no_nan (x : float) (l : list float) :
  is_nan x = false -> no_nan l -> no_nan (insert_sorted x l).
Proof.
intros Nx. unfold no_nan. induction l as [|y l IH]; intros H; simpl.
- auto.
- inversion H; subst. destruct (x <? y)%float; auto.
Qed.

Lemma insert_sorted_head (a x : float) (l : list float) :
  (a <=? x)%float = true ->
  HdRel (fun a b => (a <=? b)%float = true) a l ->
  HdRel (fun a b => (a <=? b)%float = true) a (insert_sorted x l).
Proof.
intros Hax H. destruct l as [|y l]; simpl; [auto|].
inversion H; subst. destruct (x <? y)%float; auto.
Qed.

Lemma insert_sorted_ascending (x : float) (l : list float) :
  is_nan x = false -> no_nan l -> ascending l -> ascending (insert_sorted x l).
Proof.
intros Nx. unfold ascending, no_nan.
induction l as [|y l IH]; intros Nl Hl; simpl.
- auto.
- inversion Nl; subst. inversion Hl; subst.
  destruct (x <? y)%float eqn:E.
  + constructor; [exact Hl|]. constructor. now apply ltb_leb.
  + constructor; [now apply IH|].
    apply insert_sorted_head; [|assumption]. now apply not_ltb_leb.
Qed.

Lemma insert_sorted_permutation (x : float) (l : list float) :
  Permutation (insert_sorted x l) (x :: l).
Proof.
induction l as [|y l IH]; simpl; [reflexivity|].
destruct (x <? y)%float; [reflexivity|].
rewrite IH. apply perm_swap.
Qed.

Lemma sorted_fold (l acc : list float) :
  no_nan l -> no_nan acc -> ascending acc ->
  let r := fold_left (fun acc x => insert_sorted x acc) l acc in
  ascending r /\ no_nan r /\ Permutation r (l ++ acc).
Proof.
revert acc. induction l as [|x l IH]; intros acc Nl Na Ha; simpl.
- auto.
- inversion Nl; subst.
  destruct (IH (insert_sorted x acc)) as (A & N & P); auto.
  + now apply insert_sorted_no_nan.
  + now apply insert_sorted_ascending.
  + repeat split; auto. rewrite P.
    rewrite insert_sorted_permutation. symmetry. apply Permutation_middle.
Qed.

(** On a list without NaN, [sorted] returns its elements, each once, in
    ascending order. *)
Lemma sorted_ascending (l : list float) :
  no_nan l -> ascending (sorted l) /\ Permutation (sorted l) l.
Proof.
intros N. destruct (sorted_fold l [] N) as (A & _ & P).
- constructor.
- constructor.
- split; [exact A|]. now rewrite app_nil_r in P.
Qed.

Lemma ascending_firstn (k : nat) (l : list float) : ascending l -> ascending (firstn k l).
Proof.
unfold ascending. revert k. induction l as [|x l IH]; intros k H.
- now rewrite firstn_nil.
- destruct k as [|k]; simpl; [constructor|].
  inversion H; subst. constructor; [now apply IH|].
  destruct l as [|y l]; destruct k; simpl; constructor.
  now inversion H3.
Qed.

(* --------------------------------------------------------------------- *)
(** ** The furnace client: CRC and reply validation *)
(* --------------------------------------------------------------------- *)

Lemma byte_val_range (b : byte) : 0 <= byte_val b < 256.
Proof.
unfold byte_val. pose proof (Byte.to_N_bounded b). lia.
Qed.

Lemma byte_val_inj (b1 b2 : byte) : byte_val b1 = byte_val b2 -> b1 = b2.
Proof.
unfold byte_val. intros H.
assert (E : Byte.to_N b1 = Byte.to_N b2) by lia.
pose proof (Byte.of_to_N b1) as H1. pose proof (Byte.of_to_N b2) as H2.
rewrite E in H1. congruence.
Qed.

Lemma lxor_range (n a b : Z) :
  0 <= n -> 0 <= a < 2 ^ n -> 0 <= b < 2 ^ n -> 0 <= Z.lxor a b < 2 ^ n.
Proof.
intros Hn Ha Hb.
assert (H0 : 0 <= Z.lxor a b) by (apply Z.lxor_nonneg; lia).
split; [exact H0|].
destruct (Z.eq_dec (Z.lxor a b) 0) as [E|E].
- rewrite E. apply Z.pow_pos_nonneg; lia.
- apply Z.log2_lt_pow2; [lia|].
  pose proof (Z.log2_lxor a b (proj1 Ha) (proj1 Hb)) as L.
  assert (La : a = 0 \/ Z.log2 a < n).
  { destruct (Z.eq_dec a 0); [now left|right]. apply Z.log2_lt_pow2; lia. }
  assert (Lb : b = 0 \/ Z.log2 b < n).
  { destruct (Z.eq_dec b 0); [now left|right]. apply Z.log2_lt_pow2; lia. }
  assert (Ln : 0 < n).
  { destruct (Z.eq_dec n 0) as [->|]; [|lia]. rewrite Z.pow_0_r in Ha, Hb.
    assert (a = 0) by lia. assert (b = 0) by lia. subst. now rewrite Z.lxor_0_l in E. }
  destruct La as [->|La].
  + rewrite Z.lxor_0_l in *. destruct Lb as [->|Lb]; [congruence|lia].
  + destruct Lb as [->|Lb]; [rewrite Z.lxor_0_r; lia|lia].
Qed.

Lemma lxor_cancel_r (a b k : Z) : Z.lxor a k = Z.lxor b k -> a = b.
Proof.
intros H.
assert (K : forall x, Z.lxor (Z.lxor x k) k = x).
{ intros x. now rewrite Z.lxor_assoc, Z.lxor_nilpotent, Z.lxor_0_r. }
rewrite <- (K a), H. apply K.
Qed.

Lemma lxor_cancel_l (a b k : Z) : Z.lxor k a = Z.lxor k b -> a = b.
Proof. rewrite !(Z.lxor_comm k). apply lxor_cancel_r. Qed.

Lemma bit15_small (q : Z) : 0 <= q < 32768 -> Z.testbit q 15 = false.
Proof.
intros H. apply Z.testbit_false; [lia|].
change (2 ^ 15) with 32768. rewrite Z.div_small; [reflexivity|lia].
Qed.

(** The inner loop step seen arithmetically. *)
Lemma crc_shift_eq (c : Z) :
  Furnace.crc_shift c =
  if c mod 2 =? 0 then c / 2 else Z.lxor (c / 2) 40961.
Proof.
unfold Furnace.crc_shift.
change 1 with (Z.ones 1) at 1. rewrite Z.land_ones by lia.
rewrite Z.shiftr_div_pow2 by lia.
change (2 ^ 1) with 2.
destruct (c mod 2 =? 0); reflexivity.
Qed.

Lemma crc_shift_range (c : Z) :
  0 <= c < 65536 -> 0 <= Furnace.crc_shift c < 65536.
Proof.
intros H. rewrite crc_shift_eq.
assert (Q : 0 <= c / 2 < 32768).
{ split; [apply Z.div_pos; lia | apply Z.div_lt_upper_bound; lia]. }
destruct (c mod 2 =? 0); [lia|].
change 65536 with (2 ^ 16). apply lxor_range; [lia| |]; change (2 ^ 16) with 65536; lia.
Qed.

Lemma crc_shift_inj (c1 c2 : Z) :
  0 <= c1 < 65536 -> 0 <= c2 < 65536 ->
  Furnace.crc_shift c1 = Furnace.crc_shift c2 -> c1 = c2.
Proof.
intros H1 H2. rewrite !crc_shift_eq.
assert (Q1 : 0 <= c1 / 2 < 32768).
{ split; [apply Z.div_pos; lia | apply Z.div_lt_upper_bound; lia]. }
assert (Q2 : 0 <= c2 / 2 < 32768).
{ split; [apply Z.div_pos; lia | apply Z.div_lt_upper_bound; lia]. }
pose proof (Z.div_mod c1 2 ltac:(lia)) as D1.
pose proof (Z.div_mod c2 2 ltac:(lia)) as D2.
pose proof (Z.mod_pos_bound c1 2 ltac:(lia)) as M1.
pose proof (Z.mod_pos_bound c2 2 ltac:(lia)) as M2.
assert (T : forall q, 0 <= q < 32768 -> Z.testbit (Z.lxor q 40961) 15 = true).
{ intros q Hq. rewrite Z.lxor_spec, (bit15_small q Hq). reflexivity. }
destruct (Z.eqb_spec (c1 mod 2) 0) as [E1|E1], (Z.eqb_spec (c2 mod 2) 0) as [E2|E2]; intros E.
- lia.
- pose proof (T _ Q2) as B. rewrite <- E, (bit15_small _ Q1) in B. discriminate.
- pose proof (T _ Q1) as B. rewrite E, (bit15_small _ Q2) in B. discriminate.
- apply lxor_cancel_r in E. lia.
Qed.

Lemma crc_shifts_range (n : nat) (c : Z) :
  0 <= c < 65536 -> 0 <= Nat.iter n Furnace.crc_shift c < 65536.
Proof.
intros H. induction n as [|n IH]; simpl; [exact H|].
now apply crc_shift_range.
Qed.

Lemma crc_shifts_inj (n : nat) (c1 c2 : Z) :
  0 <= c1 < 65536 -> 0 <= c2 < 65536 ->
  Nat.iter n Furnace.crc_shift c1 = Nat.iter n Furnace.crc_shift c2 -> c1 = c2.
Proof.
intros H1 H2. induction n as [|n IH]; simpl; [tauto|].
intros E. apply IH. apply crc_shift_inj; auto using crc_shifts_range.
Qed.

Lemma xor_byte_range (c : Z) (b : byte) :
  0 <= c < 65536 -> 0 <= Z.lxor c (byte_val b) < 65536.
Proof.
intros H. pose proof (byte_val_range b).
change 65536 with (2 ^ 16). apply lxor_range; change (2 ^ 16) with 65536; lia.
Qed.

Lemma crc_byte_range (c : Z) (b : byte) :
  0 <= c < 65536 -> 0 <= Furnace.crc_byte c b < 65536.
Proof.
intros H. unfold Furnace.crc_byte. apply crc_shifts_range. now apply xor_byte_range.
Qed.

(** The state after a byte determines the state before it... *)
Lemma crc_byte_inj_state (c1 c2 : Z) (b : byte) :
  0 <= c1 < 65536 -> 0 <= c2 < 65536 ->
  Furnace.crc_byte c1 b = Furnace.crc_byte c2 b -> c1 = c2.
Proof.
intros H1 H2 E. unfold Furnace.crc_byte in E.
apply crc_shifts_inj in E; auto using xor_byte_range.
now apply lxor_cancel_r in E.
Qed.

(** ... and, from a given state, the byte. *)
Lemma crc_byte_inj_byte (c : Z) (b1 b2 : byte) :
  0 <= c < 65536 ->
  Furnace.crc_byte c b1 = Furnace.crc_byte c b2 -> b1 = b2.
Proof.
intros H E. unfold Furnace.crc_byte in E.
apply crc_shifts_inj in E; auto using xor_byte_range.
apply lxor_cancel_l in E. now apply byte_val_inj.
Qed.

Lemma crc_fold_range (data : list byte) (c : Z) :
  0 <= c < 65536 -> 0 <= fold_left Furnace.crc_byte data c < 65536.
Proof.
revert c. induction data as [|b data IH]; intros c H; simpl; [exact H|].
apply IH. now apply crc_byte_range.
Qed.

Lemma crc_fold_inj (data : list byte) (c1 c2 : Z) :
  0 <= c1 < 65536 -> 0 <= c2 < 65536 ->
  fold_left Furnace.crc_byte data c1 = fold_left Furnace.crc_byte data c2 -> c1 = c2.
Proof.
revert c1 c2. induction data as [|b data IH]; intros c1 c2 H1 H2; simpl; [tauto|].
intros E. apply IH in E; auto using crc_byte_range.
eapply crc_byte_inj_state; eauto.
Qed.

Lemma calculate_crc_range (data : list byte) : 0 <= Furnace._calculate_crc data < 65536.
Proof. unfold Furnace._calculate_crc. apply crc_fold_range. lia. Qed.

(** Two payloads that differ in exactly one byte have different checksums. *)
Lemma calculate_crc_one_byte (pre post : list byte) (b b' : byte) :
  b <> b' ->
  Furnace._calculate_crc (pre ++ b :: post) <> Furnace._calculate_crc (pre ++ b' :: post).
Proof.
intros Hne E. unfold Furnace._calculate_crc in E.
rewrite !fold_left_app in E. simpl in E.
assert (R : 0 <= fold_left Furnace.crc_byte pre 65535 < 65536)
  by (apply crc_fold_range; lia).
apply crc_fold_inj in E; auto using crc_byte_range.
apply crc_byte_inj_byte in E; auto.
Qed.

Lemma crc_mismatch_rejected (d : Furnace.device) (response : list byte) :
  Furnace.crc_matches response = false -> Furnace._parse_float_response d response = None.
Proof.
intros H. unfold Furnace._parse_float_response. rewrite H. simpl.
repeat match goal with |- (if ?c then _ else _) = _ => destruct c; try reflexivity end.
Qed.

Lemma parsed_crc_matches (d : Furnace.device) (response : list byte) (v : float) :
  Furnace._parse_float_response d response = Some v -> Furnace.crc_matches response = true.
Proof.
intros H. destruct (Furnace.crc_matches response) eqn:E; [reflexivity|].
rewrite (crc_mismatch_rejected d _ E) in H. discriminate.
Qed.

Lemma trailer_inj_lo (lo lo' hi : byte) :
  lo <> lo' -> byte_val lo + 256 * byte_val hi <> byte_val lo' + 256 * byte_val hi.
Proof. intros N E. apply N, byte_val_inj. lia. Qed.

Lemma trailer_inj_hi (lo hi hi' : byte) :
  hi <> hi' -> byte_val lo + 256 * byte_val hi <> byte_val lo + 256 * byte_val hi'.
Proof. intros N E. apply N, byte_val_inj. lia. Qed.

(** Case analysis on an index known to be below a literal bound. *)
Ltac cases_below i :=
  destruct i as [|i]; [ | first [ exfalso; lia | cases_below i ] ].

(** A nine-byte reply whose CRC matches stops matching when one byte changes. *)
Lemma corrupted_crc_mismatch (response : list byte) (i : nat) (b' : byte) :
  List.length response = 9%nat -> (i < 9)%nat -> nth i response Byte.x00 <> b' ->
  Furnace.crc_matches response = true ->
  Furnace.crc_matches (Furnace.corrupt i b' response) = false.
Proof.
intros L Hi Hne Hm.
do 9 (destruct response as [|? response]; [discriminate L|]).
destruct response; [|discriminate L]. clear L.
unfold Furnace.crc_matches in *. cbn [slice skipn firstn Nat.sub unpack_H_le] in Hm.
apply Z.eqb_eq in Hm.
cases_below i;
  cbn [Furnace.corrupt slice skipn firstn Nat.sub unpack_H_le nth] in *;
  apply Z.eqb_neq.
- rewrite Hm. apply (@calculate_crc_one_byte [] _ _ _ Hne).
- rewrite Hm. apply (@calculate_crc_one_byte [_] _ _ _ Hne).
- rewrite Hm. apply (@calculate_crc_one_byte [_; _] _ _ _ Hne).
- rewrite Hm. apply (@calculate_crc_one_byte [_; _; _] _ _ _ Hne).
- rewrite Hm. apply (@calculate_crc_one_byte [_; _; _; _] _ _ _ Hne).
- rewrite Hm. apply (@calculate_crc_one_byte [_; _; _; _; _] _ _ _ Hne).
- rewrite Hm. apply (@calculate_crc_one_byte [_; _; _; _; _; _] _ _ _ Hne).
- rewrite <- Hm. intros E. symmetry in E. revert E. now apply trailer_inj_lo.
- rewrite <- Hm. intros E. symmetry in E. revert E. now apply trailer_inj_hi.
Qed.

(** A real transport, connected, with the configured slave id. *)
Definition serial_furnace : Furnace.device :=
{| Furnace.use_simulator := false; Furnace.connected := true; Furnace.has_ser := true;
   Furnace.slave_id := Config.FURNACE_SLAVE_ID |}.

(** The reply to a read of the process value holding 100.0. *)
Definition reply_100 : list byte :=
[Byte.x01; Byte.x03; Byte.x04; Byte.x42; Byte.xc8; Byte.x00; Byte.x00; Byte.x6f; Byte.xb5].

(** The same registers under function code 0x84, with the CRC of that frame. *)
Definition reply_100_fc84 : list byte :=
[Byte.x01; Byte.x84; Byte.x04; Byte.x42; Byte.xc8; Byte.x00; Byte.x00; Byte.x71; Byte.xc2].

Example parse_reply_100 :
  Furnace._parse_float_response serial_furnace reply_100 = Some 100%float.
Proof. vm_compute. reflexivity. Qed.

Example parse_exception_reply :
  Furnace._parse_float_response serial_furnace
    [Byte.x01; Byte.x83; Byte.x02; Byte.x00; Byte.x00; Byte.x00; Byte.x00; Byte.x00; Byte.x00]
  = None.
Proof. vm_compute. reflexivity. Qed.

(** C6. The CRC-16/Modbus of [_calculate_crc] (polynomial 0xA001, seed
    0xFFFF, one byte at a time) gives the reference checksums of known
    payloads (0x4B37 for the ASCII digits 1 to 9, 0xCDC5 for the request
    01 03 00 00 00 0A), and the read request carries it low byte first.  A
    nine-byte reply that the client accepts is rejected as soon as any one
    of its bytes is replaced by a different one: the CRC comparison fails,
    [_parse_float_response] returns [None] and [read_temperature] returns
    [(False, 0.0)]. *)
Theorem crc16_reference_and_single_byte_corruption :
  (Furnace._calculate_crc
     [Byte.x31; Byte.x32; Byte.x33; Byte.x34; Byte.x35; Byte.x36; Byte.x37; Byte.x38; Byte.x39]
   = 0x4B37 /\
   Furnace._calculate_crc [Byte.x01; Byte.x03; Byte.x00; Byte.x00; Byte.x00; Byte.x0a]
   = 0xCDC5 /\
   Furnace._build_read_request serial_furnace Config.FURNACE_PV_ADDRESS 2
   = Some [Byte.x01; Byte.x03; Byte.x80; Byte.x02; Byte.x00; Byte.x02; Byte.x4c; Byte.x0b]) /\
  (forall (d : Furnace.device) (response : list byte) (v : float) (i : nat) (b' : byte)
          (sim : float),
     Furnace.use_simulator d = false ->
     Furnace._parse_float_response d response = Some v ->
     List.length response = 9%nat -> (i < 9)%nat -> nth i response Byte.x00 <> b' ->
     Furnace.crc_matches (Furnace.corrupt i b' response) = false /\
     Furnace._parse_float_response d (Furnace.corrupt i b' response) = None /\
     Furnace.read_temperature d sim (Furnace.Reply (Furnace.corrupt i b' response))
     = (false, 0%float)).
Proof.
split.
- repeat split; vm_compute; reflexivity.
- intros d response v i b' sim Hsim Hp L Hi Hne.
  pose proof (corrupted_crc_mismatch response i b' L Hi Hne (parsed_crc_matches d _ _ Hp)) as C.
  pose proof (crc_mismatch_rejected d _ C) as P.
  repeat split; [exact C | exact P |].
  unfold Furnace.read_temperature. rewrite Hsim, P.
  destruct (negb (Furnace.connected d) && negb (Furnace.has_ser d));
    destruct (negb (Furnace.has_ser d)); reflexivity.
Qed.

Lemma crc16_single_byte_corruption_witness :
  Furnace.crc_matches (Furnace.corrupt 4 Byte.xc9 reply_100) = false /\
  Furnace._parse_float_response serial_furnace (Furnace.corrupt 4 Byte.xc9 reply_100) = None /\
  Furnace.read_temperature serial_furnace 0%float
    (Furnace.Reply (Furnace.corrupt 4 Byte.xc9 reply_100)) = (false, 0%float).
Proof.
apply (proj2 crc16_reference_and_single_byte_corruption
         serial_furnace reply_100 100%float 4%nat Byte.xc9 0%float).
- reflexivity.
- vm_compute. reflexivity.
- reflexivity.
- lia.
- simpl. discriminate.
Defined.

(** C5 (as amended). On a real transport with an open port, the read
    operations decode a reply exactly when it has at least nine bytes, its
    first byte is the slave id, its function code is not the read exception
    code 0x83 (0x03 with bit 0x80 set), its byte count is 4 and its last
    two of the nine bytes are the CRC of the first seven, low byte first;
    the value is then the binary32 float whose bits are the two big-endian
    registers, high register first.  In every other case the result is
    [(False, 0.0)].  [read_setpoint] asks for [connected] as well. *)
Theorem read_reply_validated (d : Furnace.device) (sim : float) (response : list byte) :
  Furnace.use_simulator d = false -> Furnace.has_ser d = true ->
  let b := fun i => byte_val (nth i response Byte.x00) in
  let valid :=
    (9 <=? List.length response)%nat && (b 0%nat =? Furnace.slave_id d) &&
    negb (b 1%nat =? 0x83) && (b 2%nat =? 4) &&
    (b 7%nat + 256 * b 8%nat =? Furnace._calculate_crc (firstn 7 response)) in
  let reg_high := 256 * b 3%nat + b 4%nat in
  let reg_low := 256 * b 5%nat + b 6%nat in
  let value := float_of_bits32 (reg_high * 65536 + reg_low) in
  Furnace._parse_float_response d response = (if valid then Some value else None) /\
  Furnace.read_temperature d sim (Furnace.Reply response)
  = (if valid then (true, value) else (false, 0%float)) /\
  Furnace.read_setpoint d sim (Furnace.Reply response)
  = (if valid && Furnace.connected d then (true, value) else (false, 0%float)).
Proof.
intros Hsim Hser b valid reg_high reg_low value.
assert (P : Furnace._parse_float_response d response = if valid then Some value else None).
{ subst valid value reg_high reg_low b. unfold Furnace._parse_float_response.
  destruct (Nat.ltb_spec (List.length response) 9) as [Hl|Hl].
  - apply Nat.leb_gt in Hl. rewrite Hl. reflexivity.
  - do 9 (destruct response as [|? response]; [simpl in Hl; lia|]).
    unfold Furnace.crc_matches.
    cbn [slice skipn firstn Nat.sub unpack_H_le unpack_f_be nth List.length Nat.leb].
    change (Z.lor Config.MODBUS_READ_HOLDING 128) with 131.
    repeat match goal with
           | |- context [?x =? ?y] =>
               lazymatch goal with
               | |- context [if negb (x =? y) then _ else _] =>
                   destruct (x =? y); cbn [negb andb]
               | |- context [if x =? y then _ else _] =>
                   destruct (x =? y); cbn [negb andb]
               end
           end; try reflexivity.
    do 2 f_equal. lia. }
split; [exact P|].
unfold Furnace.read_temperature, Furnace.read_setpoint.
rewrite Hsim, Hser, P. simpl. rewrite andb_false_r.
destruct valid; simpl; destruct (Furnace.connected d); auto.
Qed.

Lemma read_reply_validated_witness :
  Furnace.read_temperature serial_furnace 0%float (Furnace.Reply reply_100)
  = (true, 100%float).
Proof.
exact (proj1 (proj2 (@read_reply_validated serial_furnace 0%float reply_100
                       eq_refl eq_refl))).
Defined.

(** C5, the claim as stated: the function code of this reply has the
    exception bit 0x80 set, every other check passes, and the reply is
    decoded with [ok = True]. *)
Lemma exception_bit_reply_accepted :
  Z.land (byte_val (nth 1 reply_100_fc84 Byte.x00)) 0x80 = 0x80 /\
  Furnace._parse_float_response serial_furnace reply_100_fc84 = Some 100%float /\
  Furnace.read_temperature serial_furnace 0%float (Furnace.Reply reply_100_fc84)
  = (true, 100%float).
Proof. repeat split; vm_compute; reflexivity. Qed.

(* --------------------------------------------------------------------- *)
(** ** Statistics *)
(* --------------------------------------------------------------------- *)

Example calculate_std_example :
  Statistics.calculate_std Statistics.seq_sum [2; 4; 4; 4; 5; 5; 7]%float
                           Statistics.default_ddof
  = 1.5118578920369088%float.
Proof. vm_compute. reflexivity. Qed.

Example calculate_std_single :
  Statistics.calculate_std Statistics.seq_sum [21.5]%float Statistics.default_ddof = 0%float.
Proof. vm_compute. reflexivity. Qed.

(** C9. For every list of floats, [calculate_std] (with its default
    [ddof = 1]) returns 0 when the list has fewer than two elements, and
    for two or more elements the Bessel-corrected sample standard
    deviation: the square root of the sum of squared deviations from the
    mean over [n - 1].  Below two elements the result is 0 whatever
    [ddof] is. *)
Theorem calculate_std_bessel (np_sum : list float -> float) (values : list float) :
  Statistics.calculate_std np_sum values Statistics.default_ddof
  = (if (List.length values <? 2)%nat then 0%float
     else Statistics.bessel_std np_sum values) /\
  (forall ddof : Z,
     Statistics.calculate_std np_sum values ddof
     = (if (List.length values <? 2)%nat then 0%float
        else Statistics.np_std np_sum values ddof)).
Proof.
split; [|reflexivity].
unfold Statistics.calculate_std.
destruct (Nat.ltb_spec (List.length values) 2) as [H|H]; [reflexivity|].
unfold Statistics.np_std, Statistics.bessel_std, Statistics.np_mean,
  Statistics.default_ddof, float_of_nat, float_of_Z.
rewrite map_map.
replace (Z.max (Z.of_nat (List.length values) - 1) 0)
  with (Z.of_nat (List.length values - 1)) by lia.
reflexivity.
Qed.

(* --------------------------------------------------------------------- *)
(** ** Classification *)
(* --------------------------------------------------------------------- *)

Example classify_pt100_examples :
  Uncertainty.classify_sensor Uncertainty.PT100UncertaintyCalculator 0.27 100 = "AA"%string /\
  Uncertainty.classify_sensor Uncertainty.PT100UncertaintyCalculator (-0.28) 100 = "A"%string /\
  Uncertainty.classify_sensor Uncertainty.PT100UncertaintyCalculator 0.8 100 = "B"%string /\
  Uncertainty.classify_sensor Uncertainty.PT100UncertaintyCalculator 1.6 100 = "C"%string /\
  Uncertainty.classify_sensor Uncertainty.PT100UncertaintyCalculator 1.7 100
  = Uncertainty.OUT_OF_CLASS.
Proof. repeat split; vm_compute; reflexivity. Qed.

Example classify_thermocouple_examples :
  Uncertainty.classify_sensor (Uncertainty.create_uncertainty_calculator "TC_K") 1.5 25
  = "Klasa 1"%string /\
  Uncertainty.classify_sensor (Uncertainty.create_uncertainty_calculator "TC_s") 1.2 1300
  = "Klasa 2"%string /\
  Uncertainty.classify_sensor (Uncertainty.create_uncertainty_calculator "TC_J") 3 0
  = Uncertainty.OUT_OF_CLASS.
Proof. repeat split; vm_compute; reflexivity. Qed.

(** C7. For every calculator (sensor type), temperature and pair of errors
    with [|e1| <= |e2|], the class given to [e2] is never stricter than
    the class given to [e1]; and an error whose magnitude exceeds every
    threshold of the calculator's tolerance table at that temperature is
    out of class. *)
Theorem classification_monotone (c : Uncertainty.calculator) (t : float) :
  (forall e1 e2 : float,
     (abs e1 <=? abs e2)%float = true ->
     (Uncertainty.strictness (Uncertainty.classify_sensor c e1 t)
      <= Uncertainty.strictness (Uncertainty.classify_sensor c e2 t))%nat) /\
  (forall e : float,
     (forall th, In th (Uncertainty.tolerance_table c t) -> (th <? abs e)%float = true) ->
     Uncertainty.classify_sensor c e t = Uncertainty.OUT_OF_CLASS).
Proof.
split.
- intros e1 e2 H. unfold Uncertainty.classify_sensor.
  destruct c as [|tc].
  + repeat match goal with
           | |- context [(abs e2 <=? ?T)%float] =>
               let E1 := fresh "E1" in
               let E2 := fresh "E2" in
               destruct (abs e2 <=? T)%float eqn:E2;
               [ try rewrite (leb_trans _ _ _ H E2)
               | destruct (abs e1 <=? T)%float eqn:E1 ]
           end;
      repeat match goal with
             | |- context [(abs e1 <=? ?T)%float] => destruct (abs e1 <=? T)%float
             end; vm_compute; lia.
  + destruct (String.eqb tc "K"); [|destruct (String.eqb tc "S")];
      repeat match goal with
             | |- context [(abs e2 <=? ?T)%float] =>
                 let E1 := fresh "E1" in
                 let E2 := fresh "E2" in
                 destruct (abs e2 <=? T)%float eqn:E2;
                 [ try rewrite (leb_trans _ _ _ H E2)
                 | destruct (abs e1 <=? T)%float eqn:E1 ]
             end;
      repeat match goal with
             | |- context [(abs e1 <=? ?T)%float] => destruct (abs e1 <=? T)%float
             end; vm_compute; lia.
- intros e H. unfold Uncertainty.classify_sensor.
  unfold Uncertainty.tolerance_table in H.
  destruct c as [|tc]; [|destruct (String.eqb tc "K"); [|destruct (String.eqb tc "S")]];
    repeat match goal with
           | |- context [(abs e <=? ?T)%float] =>
               rewrite (ltb_leb_false T (abs e)) by (apply H; simpl; tauto)
           end; reflexivity.
Qed.

Lemma classification_monotone_witness :
  (Uncertainty.strictness
     (Uncertainty.classify_sensor Uncertainty.PT100UncertaintyCalculator 0.2 100)
   <= Uncertainty.strictness
        (Uncertainty.classify_sensor Uncertainty.PT100UncertaintyCalculator (-0.5) 100))%nat /\
  Uncertainty.classify_sensor (Uncertainty.ThermocoupleUncertaintyCalculator "K") (-4) 200
  = Uncertainty.OUT_OF_CLASS.
Proof.
split.
- apply (proj1 (classification_monotone Uncertainty.PT100UncertaintyCalculator 100)).
  vm_compute. reflexivity.
- apply (proj2 (classification_monotone (Uncertainty.ThermocoupleUncertaintyCalculator "K") 200)).
  intros th [<-|[<-|[]]]; vm_compute; reflexivity.
Defined.

(* --------------------------------------------------------------------- *)
(** ** The multimeter client: overflow *)
(* --------------------------------------------------------------------- *)

Lemma number_at_no_digit (c : ascii) (s : string) :
  is_digit c = false -> number_at (String c s) = None.
Proof. intros H. unfold number_at. simpl. rewrite H. reflexivity. Qed.

Lemma number_at_empty : number_at EmptyString = None.
Proof. reflexivity. Qed.

Lemma match_at_no_digit (s : string) : has_digit s = false -> match_at s = None.
Proof.
destruct s as [|c s]; [reflexivity|].
simpl. intros H. apply orb_false_elim in H. destruct H as [Hc Hs].
assert (N : number_at s = None).
{ destruct s as [|c' s']; [reflexivity|].
  simpl in Hs. apply orb_false_elim in Hs. now apply number_at_no_digit. }
rewrite N, (number_at_no_digit c s Hc). now destruct (is_sign c).
Qed.

(** Text without a digit has no match of the numeric pattern. *)
Lemma re_search_no_digit (s : string) : has_digit s = false -> re_search s = None.
Proof.
induction s as [|c s IH]; [reflexivity|].
intros H. cbn [re_search]. rewrite (match_at_no_digit _ H).
simpl in H. apply orb_false_elim in H. now apply IH.
Qed.

Lemma overflow_marker_nonempty (response : string) :
  Cropico.overflow_marker response = true -> Cropico.truthy (Some response) = Some response.
Proof. destruct response; [discriminate|reflexivity]. Qed.

(** The client on a reply that carries the overflow marker and no digit. *)
Lemma read_temperature_overflow (py_float : string -> float) (d : Cropico.device)
  (sim : float) (response : string) :
  Cropico.use_simulator d = false -> Cropico.connected d = true ->
  Cropico.overflow_marker response = true -> has_digit response = false ->
  Cropico.read_temperature py_float d sim (Cropico.Response (Some response))
  = (false, infinity).
Proof.
intros Hs Hc Hm Hd. unfold Cropico.read_temperature.
rewrite Hs, Hc, (overflow_marker_nonempty _ Hm), (re_search_no_digit _ Hd), Hm.
reflexivity.
Qed.

(** A multimeter on a real, connected transport. *)
Definition serial_cropico : Cropico.device :=
{| Cropico.use_simulator := false; Cropico.connected := true |}.

Example read_temperature_examples :
  Cropico.read_temperature decimal_float serial_cropico 0%float
    (Cropico.Response (Some "+0100.0234 C"%string)) = (true, 100.0234%float) /\
  Cropico.read_temperature decimal_float serial_cropico 0%float
    (Cropico.Response (Some "OVF"%string)) = (false, infinity) /\
  Cropico.read_temperature decimal_float serial_cropico 0%float
    (Cropico.Response (Some "Overflow"%string)) = (false, infinity) /\
  Cropico.read_temperature decimal_float serial_cropico 0%float
    (Cropico.Response (Some "2500"%string)) = (false, 0%float) /\
  Cropico.read_temperature decimal_float serial_cropico 0%float
    (Cropico.Response (Some "ERR"%string)) = (false, 0%float) /\
  Cropico.read_temperature decimal_float serial_cropico 0%float
    (Cropico.Response None) = (false, 0%float).
Proof. repeat split; vm_compute; reflexivity. Qed.

(* --------------------------------------------------------------------- *)
(** ** Dictionaries *)
(* --------------------------------------------------------------------- *)

Lemma dict_get_set_eq {V : Type} (k : string) (v : V) (d : dict V) :
  dict_get k (dict_set k v d) = Some v.
Proof.
induction d as [|[k' v'] d IH]; simpl.
- now rewrite String.eqb_refl.
- destruct (String.eqb k' k) eqn:E; simpl; rewrite E; [reflexivity|exact IH].
Qed.

Lemma dict_get_set_ne {V : Type} (k k' : string) (v : V) (d : dict V) :
  k <> k' -> dict_get k' (dict_set k v d) = dict_get k' d.
Proof.
intros N. induction d as [|[k0 v0] d IH]; simpl.
- destruct (String.eqb_spec k k'); [contradiction|reflexivity].
- destruct (String.eqb_spec k0 k) as [->|E]; simpl.
  + destruct (String.eqb_spec k k'); [contradiction|reflexivity].
  + destruct (String.eqb k0 k'); [reflexivity|exact IH].
Qed.

Lemma dict_get_default_set_eq {V : Type} (k : string) (v dflt : V) (d : dict V) :
  dict_get_default k (dict_set k v d) dflt = v.
Proof. unfold dict_get_default. now rewrite dict_get_set_eq. Qed.

Lemma dict_get_default_set_ne {V : Type} (k k' : string) (v dflt : V) (d : dict V) :
  k <> k' -> dict_get_default k' (dict_set k v d) dflt = dict_get_default k' d dflt.
Proof. intros N. unfold dict_get_default. now rewrite dict_get_set_ne. Qed.

(* --------------------------------------------------------------------- *)
(** ** The engine: one visit of a channel *)
(* --------------------------------------------------------------------- *)

Import Engine.

(** Attribute reads, unfolded to the fields of the groups. *)
Ltac accessors :=
  unfold use_simulators, cropico, furnace, database, logger, session_id,
    active_channels, channel_sensor_types, calibration_points,
    is_running, is_paused, _stop_requested,
    channel_readings, reference_readings, last_channel_values, point_stats,
    current_point_index, current_channel_index, _stability_start_time,
    n_ctl, n_furnace, n_cropico, n_clock, n_collab in *.

(** A visit whose temperature read fails, or gives the overflow sentinel,
    leaves the buffers alone and logs a warning. *)
Lemma visit_channel_excluded (w : world) (target_temp : float) (channel : string)
  (s : engine) (sim : float) (x : Cropico.exchange) (ok : bool) (temp : float) :
  cropico_io w (n_cropico s) = (sim, x) ->
  Cropico.read_temperature (py_float w) (cropico s) sim x = (ok, temp) ->
  ok && negb (temp =? infinity)%float = false ->
  exists s',
    visit_channel w target_temp channel s = Ok tt s' /\
    buffers_of s' = buffers_of s /\ plan_of s' = plan_of s /\
    handles_of s' = handles_of s /\
    trace s' =
      trace s ++
      [CropicoConfigureChannel channel
         (dict_get_default channel (channel_sensor_types s) "PT100");
       ChannelChanged channel;
       Log WARNING ("Failed to read channel " ++ channel)%string].
Proof.
intros Hio Hr Hc.
unfold visit_channel, bind, get, emit, modify, cropico_read_temperature,
  cropico_get_raw_value.
accessors. cbn in *. rewrite Hio, Hr. cbn.
destruct (cropico_io w (S (cu_n_cropico (cursors_of s)))) as [sim2 x2].
destruct (Cropico.get_raw_value _ _ sim2 x2) as [ok2 raw].
rewrite Hc. eexists. split; [reflexivity|]. cbn.
rewrite <- !app_assoc. auto.
Qed.

(** C3 (as amended). For every multimeter response that carries the
    overflow marker ("OVF" or "OVERFLOW", in any case) and no decimal
    digit, the connected client's [read_temperature] returns
    [(False, +infinity)]; the orchestrator's visit of the channel then
    leaves every sample buffer as it was and adds to the trace the channel
    configuration, the channel-changed signal and one WARNING log record:
    no measurement signal, no error signal, no ERROR record. *)
Theorem overflow_reply_excluded (w : world) (s : engine) (target_temp sim : float)
  (channel response : string) :
  Cropico.use_simulator (cropico s) = false ->
  Cropico.connected (cropico s) = true ->
  Cropico.overflow_marker response = true ->
  has_digit response = false ->
  cropico_io w (n_cropico s) = (sim, Cropico.Response (Some response)) ->
  Cropico.read_temperature (py_float w) (cropico s) sim (Cropico.Response (Some response))
  = (false, infinity) /\
  exists s',
    visit_channel w target_temp channel s = Ok tt s' /\
    channel_readings s' = channel_readings s /\
    reference_readings s' = reference_readings s /\
    point_stats s' = point_stats s /\
    trace s' =
      trace s ++
      [CropicoConfigureChannel channel
         (dict_get_default channel (channel_sensor_types s) "PT100");
       ChannelChanged channel;
       Log WARNING ("Failed to read channel " ++ channel)%string].
Proof.
intros Hs Hc Hm Hd Hio.
pose proof (read_temperature_overflow (py_float w) (cropico s) sim response Hs Hc Hm Hd) as R.
split; [exact R|].
destruct (visit_channel_excluded w target_temp channel s sim _ false infinity Hio R eq_refl)
  as (s' & E & B & _ & _ & T).
exists s'. unfold channel_readings, reference_readings, point_stats.
rewrite B. auto.
Qed.

(* --------------------------------------------------------------------- *)
(** ** Frames: what the computations of the worker leave alone *)
(* --------------------------------------------------------------------- *)

(** Unfolding equations of the loops that are bounded by [fuel]. *)
Lemma pause_wait_eq (w : world) (fuel : nat) :
  pause_wait w fuel =
  (observe w ;;
   paused <- get is_paused ;;
   stop <- get _stop_requested ;;
   if paused && negb stop then
     match fuel with
     | O => still_waiting
     | S fuel' => pause_wait w fuel'
     end
   else ret tt).
Proof. destruct fuel; reflexivity. Qed.

Lemma wait_loop_eq (w : world) (fuel : nat) (target_temp : float) :
  wait_loop w fuel target_temp =
  (observe w ;;
   stop <- get _stop_requested ;;
   if stop then ret false
   else
     pause_wait w fuel ;;
     ' (success, furnace_pv) <- furnace_read_temperature w ;;
     returned <-
       (if negb success then ret false
        else
          let diff := abs (furnace_pv - target_temp) in
          let is_stable := (diff <=? Config.STABILITY_TOLERANCE)%float in
          returned <-
            (if is_stable then
               started <- get _stability_start_time ;;
               start <-
                 match started with
                 | None =>
                     now <- time_time w ;;
                     modify (put__stability_start_time (Some now)) ;;
                     ret now
                 | Some t => ret t
                 end ;;
               now <- time_time w ;;
               let elapsed := (now - start)%float in
               emit (StabilityChanged true) ;;
               if (Config.STABILITY_TIME_SECONDS <=? elapsed)%float then
                 balanced <- _check_thermal_equilibrium w ;;
                 if balanced then emit (Log INFO "Stability achieved") ;; ret true
                 else emit (StabilityChanged false) ;; ret false
               else ret false
             else
               modify (put__stability_start_time None) ;;
               emit (StabilityChanged false) ;;
               ret false) ;;
          if returned then ret true else _update_status w ;; ret false) ;;
     if returned then ret true
     else
       match fuel with
       | O => still_waiting
       | S fuel' => wait_loop w fuel' target_temp
       end).
Proof. destruct fuel; reflexivity. Qed.

Section Frames.

Variable w : world.

(** [keep s s'] says which attributes [s'] has kept from [s]; [quiet e]
    says which events may have been added. *)
Variable keep : engine -> engine -> Prop.
Variable quiet : event -> Prop.

Hypothesis keep_refl : forall s, keep s s.
Hypothesis keep_trans : forall a b c, keep a b -> keep b c -> keep a c.
Hypothesis keep_trace : forall s t, keep s (put_trace t s).
Hypothesis keep_cursors : forall s c, keep s (with_cursors c s).
Hypothesis keep_position : forall s p, keep s (with_position p s).
Hypothesis keep_command : forall s c, keep s (apply_command s c).
Hypothesis keep_last : forall s v, keep s (put_last_channel_values v s).

Hypothesis quiet_log : forall l m, quiet (Log l m).
Hypothesis quiet_status : quiet StatusUpdated.
Hypothesis quiet_stability : forall b, quiet (StabilityChanged b).
Hypothesis quiet_configure : forall c t, quiet (CropicoConfigureChannel c t).
Hypothesis quiet_db_measurement : forall m, quiet (DbAddMeasurement m).
Hypothesis quiet_logger : forall c a b e, quiet (LoggerLogMeasurement c a b e).

(** [s'] is [s] with the kept attributes kept and quiet events added. *)
Definition framed (s s' : engine) : Prop :=
keep s s' /\ exists evs, trace s' = trace s ++ evs /\ Forall quiet evs.

(** A computation that frames every state it is run from. *)
Definition frames {A : Type} (m : M A) : Prop := forall s, framed s (state_of (m s)).

Lemma framed_refl (s : engine) : framed s s.
Proof. split; [apply keep_refl|]. exists []. now rewrite app_nil_r. Qed.

Lemma framed_trans (a b c : engine) : framed a b -> framed b c -> framed a c.
Proof.
intros [K1 (e1 & T1 & Q1)] [K2 (e2 & T2 & Q2)]. split; [eauto|].
exists (e1 ++ e2). rewrite T2, T1, app_assoc. split; [reflexivity|].
apply Forall_app. auto.
Qed.

Lemma frames_ret {A : Type} (a : A) : frames (ret a).
Proof. intros s. apply framed_refl. Qed.

Lemma frames_get {A : Type} (f : engine -> A) : frames (get f).
Proof. intros s. apply framed_refl. Qed.

Lemma frames_raise {A : Type} : frames (@raise A).
Proof. intros s. apply framed_refl. Qed.

Lemma frames_still_waiting {A : Type} : frames (@still_waiting A).
Proof. intros s. apply framed_refl. Qed.

Lemma frames_bind {A B : Type} (m : M A) (k : A -> M B) :
  frames m -> (forall a, frames (k a)) -> frames (bind m k).
Proof.
intros Hm Hk s. unfold bind. specialize (Hm s).
destruct (m s) as [a s1|s1|s1]; simpl in *; auto.
eapply framed_trans; [exact Hm|apply Hk].
Qed.

Lemma frames_modify (f : engine -> engine) :
  (forall s, keep s (f s) /\ trace (f s) = trace s) -> frames (modify f).
Proof.
intros H s. destruct (H s) as [K T]. split; [exact K|].
exists []. simpl. now rewrite T, app_nil_r.
Qed.

Lemma framed_event (e : event) (s : engine) : quiet e -> framed s (record_event e s).
Proof.
intros Q. split; [apply keep_trace|]. exists [e]. split; [reflexivity|]. auto.
Qed.

Lemma frames_emit (e : event) : quiet e -> frames (emit e).
Proof. intros Q s. now apply framed_event. Qed.

Lemma framed_cursors (c : cursors) (s : engine) : framed s (with_cursors c s).
Proof. split; [apply keep_cursors|]. exists []. simpl. now rewrite app_nil_r. Qed.

Lemma framed_command (s : engine) (c : command) : framed s (apply_command s c).
Proof.
split; [apply keep_command|].
destruct c; eexists; (split; [reflexivity|]); auto.
Qed.

Lemma framed_commands (l : list command) (s : engine) :
  framed s (fold_left apply_command l s).
Proof.
revert s. induction l as [|c l IH]; intros s; simpl; [apply framed_refl|].
eapply framed_trans; [apply framed_command|apply IH].
Qed.

Lemma frames_observe : frames (observe w).
Proof.
intros s. unfold observe, modify. simpl.
eapply framed_trans; [apply framed_commands|]. apply framed_cursors.
Qed.

Lemma frames_furnace_read_temperature : frames (furnace_read_temperature w).
Proof.
intros s. unfold furnace_read_temperature.
destruct (furnace_io w (n_furnace s)). apply framed_cursors.
Qed.

Lemma frames_furnace_read_setpoint : frames (furnace_read_setpoint w).
Proof.
intros s. unfold furnace_read_setpoint.
destruct (furnace_io w (n_furnace s)). apply framed_cursors.
Qed.

Lemma frames_cropico_read_temperature : frames (cropico_read_temperature w).
Proof.
intros s. unfold cropico_read_temperature.
destruct (cropico_io w (n_cropico s)). apply framed_cursors.
Qed.

Lemma frames_cropico_get_raw_value : frames (cropico_get_raw_value w).
Proof.
intros s. unfold cropico_get_raw_value.
destruct (cropico_io w (n_cropico s)). apply framed_cursors.
Qed.

Lemma frames_time_time : frames (time_time w).
Proof. intros s. apply framed_cursors. Qed.

Lemma frames_collaborator_call (e : event) : quiet e -> frames (collaborator_call w e).
Proof.
intros Q s. unfold collaborator_call.
destruct (collab_raises w (n_collab s)); simpl.
- apply framed_cursors.
- eapply framed_trans; [apply framed_cursors|now apply framed_event].
Qed.

(** Decomposition of a computation along its syntax; [known] is tried
    first, for the computations whose frame has been proved already. *)
Ltac frames_step known :=
  first
    [ known
    | assumption
    | apply frames_ret | apply frames_get | apply frames_raise
    | apply frames_still_waiting
    | apply frames_observe
    | apply frames_furnace_read_temperature | apply frames_furnace_read_setpoint
    | apply frames_cropico_read_temperature | apply frames_cropico_get_raw_value
    | apply frames_time_time
    | apply frames_collaborator_call; solve [auto]
    | apply frames_emit; solve [auto]
    | apply frames_modify; intros; split;
      [ first [ apply keep_position | apply keep_cursors | apply keep_last
              | apply keep_trace ]
      | reflexivity ]
    | apply frames_bind; [|intros]
    | match goal with
      | |- frames (if ?c then _ else _) => destruct c
      | |- frames (match ?x with _ => _ end) => destruct x
      | |- frames (let (_, _) := ?x in _) => destruct x
      end ].

Ltac frames_with known := cbv zeta; repeat frames_step known.

Ltac frames_auto := frames_with fail.

Lemma frames_pause_wait (fuel : nat) : frames (pause_wait w fuel).
Proof.
induction fuel as [|fuel IH]; rewrite pause_wait_eq; frames_auto.
Qed.

Lemma frames_update_status : frames (_update_status w).
Proof. unfold _update_status. frames_auto. Qed.

Lemma frames_equilibrium_reads (channels : list string) (temps : dict float) :
  frames (equilibrium_reads w channels temps).
Proof.
revert temps. induction channels as [|channel rest IH]; intros temps;
  cbn [equilibrium_reads]; frames_with ltac:(apply IH).
Qed.

Lemma frames_check_thermal_equilibrium : frames (_check_thermal_equilibrium w).
Proof.
unfold _check_thermal_equilibrium.
frames_with ltac:(apply frames_equilibrium_reads).
Qed.

Lemma frames_wait_loop (fuel : nat) (target_temp : float) :
  frames (wait_loop w fuel target_temp).
Proof.
induction fuel as [|fuel IH]; rewrite wait_loop_eq;
  frames_with ltac:(first [ apply frames_pause_wait | apply frames_update_status
                          | apply frames_check_thermal_equilibrium ]).
Qed.

Lemma frames_wait_for_stability (fuel : nat) (target_temp : float) :
  frames (_wait_for_stability w fuel target_temp).
Proof. unfold _wait_for_stability. frames_with ltac:(apply frames_wait_loop). Qed.

Lemma frames_save_measurement (channel : string) (a b c d : float) :
  frames (_save_measurement w channel a b c d).
Proof. unfold _save_measurement. frames_auto. Qed.

(** The computations that fill the sample buffers and report a point
    frame the state too, when the buffers are not among what is kept and
    the events of a measurement are quiet. *)
Section Sampling.

Hypothesis keep_buffers : forall s b, keep s (with_buffers b s).

Hypothesis quiet_changed : forall c, quiet (ChannelChanged c).
Hypothesis quiet_taken : forall c a b, quiet (MeasurementTaken c a b).
Hypothesis quiet_completed : forall i t r, quiet (PointCompleted i t r).
Hypothesis quiet_db_result : forall s i r, quiet (DbAddCalibrationResult s i r).
Hypothesis quiet_db_end : forall s, quiet (DbUpdateSessionEndTime s).
Hypothesis quiet_done : quiet CalibrationCompleted.

Lemma frames_put_buffers (f : engine -> buffers) :
  frames (modify (fun s => with_buffers (f s) s)).
Proof. apply frames_modify. intros s. split; [apply keep_buffers|reflexivity]. Qed.

Lemma frames_visit_channel (target_temp : float) (channel : string) :
  frames (visit_channel w target_temp channel).
Proof.
unfold visit_channel.
frames_with ltac:(first [ apply frames_save_measurement | apply (frames_put_buffers _) ]).
Qed.

Lemma frames_visit_channels (target_temp : float) (channels : list string) :
  frames (visit_channels w target_temp channels).
Proof.
induction channels as [|channel rest IH]; cbn [visit_channels];
  frames_with ltac:(apply frames_visit_channel).
Qed.

Lemma frames_measurement_rounds (fuel : nat) (target_temp : float) (n : nat) :
  frames (measurement_rounds w fuel target_temp n).
Proof.
induction n as [|n IH]; cbn [measurement_rounds];
  frames_with ltac:(first [ apply frames_pause_wait | apply frames_update_status
                          | apply frames_visit_channels ]).
Qed.

Lemma frames_measure_point (fuel : nat) (target_temp : float) :
  frames (_measure_point w fuel target_temp).
Proof.
unfold _measure_point.
frames_with ltac:(first [ apply frames_measurement_rounds
                        | apply (frames_put_buffers _) ]).
Qed.

Lemma frames_save_each (sid : Z) (items : dict PointResult) :
  frames (save_each w sid items).
Proof.
induction items as [|[channel data] rest IH]; cbn [save_each]; frames_auto.
Qed.

Lemma frames_save_point_results (results : dict PointResult) :
  frames (_save_point_results w results).
Proof. unfold _save_point_results. frames_with ltac:(apply frames_save_each). Qed.

Lemma frames_finalize_session : frames (_finalize_session w).
Proof. unfold _finalize_session. frames_auto. Qed.

End Sampling.

End Frames.

(** A visit whose temperature read succeeds with a value other than the
    overflow sentinel: the sample is stored and signalled, and the visit
    ends with the call of [_save_measurement]. *)
Lemma visit_channel_sampled (w : world) (target_temp : float) (channel : string)
  (s : engine) (sim sim2 temp raw : float) (x x2 : Cropico.exchange) (ok_raw : bool) :
  cropico_io w (n_cropico s) = (sim, x) ->
  cropico_io w (S (n_cropico s)) = (sim2, x2) ->
  Cropico.read_temperature (py_float w) (cropico s) sim x = (true, temp) ->
  (temp =? infinity)%float = false ->
  Cropico.get_raw_value (py_float w) (cropico s) sim2 x2 = (ok_raw, raw) ->
  exists ref_temp s1,
    visit_channel w target_temp channel s
    = _save_measurement w channel temp ref_temp (if ok_raw then raw else 0%float)
                        target_temp s1 /\
    handles_of s1 = handles_of s /\ plan_of s1 = plan_of s /\ flags_of s1 = flags_of s /\
    n_collab s1 = n_collab s /\
    channel_readings s1
    = dict_set channel (dict_get_default channel (channel_readings s) [] ++ [temp])
               (channel_readings s) /\
    point_stats s1
    = match dict_get channel (point_stats s) with
      | Some st =>
          dict_set channel
            (Statistics.add_measurement st temp ref_temp (if ok_raw then raw else 0%float)
                                        (clock w (n_clock s)))
            (point_stats s)
      | None => point_stats s
      end /\
    trace s1 =
      trace s ++
      [CropicoConfigureChannel channel
         (dict_get_default channel (channel_sensor_types s) "PT100");
       ChannelChanged channel;
       MeasurementTaken channel temp ref_temp].
Proof.
intros Hio Hio2 Hr Hinf Hraw.
unfold visit_channel, bind, get, emit, modify, cropico_read_temperature,
  cropico_get_raw_value, time_time, ret.
accessors. cbn -[_save_measurement] in *.
rewrite Hio, Hr. cbn -[_save_measurement]. rewrite Hio2, Hraw, Hinf.
cbn -[_save_measurement].
destruct (String.eqb channel Config.REFERENCE_CHANNEL);
  accessors; cbn -[_save_measurement]; accessors; cbn -[_save_measurement];
  destruct (dict_get channel (bf_point_stats (buffers_of s))) as [st|];
  cbn -[_save_measurement];
  do 2 eexists; (split; [reflexivity|]); cbn;
  rewrite <- ?app_assoc; repeat split; reflexivity.
Qed.

(** *** Two frames

    [keep_samples]: the plan, the handles and the sample buffers are
    kept, and no measurement is signalled.  [keep_run]: the plan is kept, a
    stop request stays, and no setpoint is sent to the furnace. *)
Definition keep_samples (s s' : engine) : Prop :=
plan_of s' = plan_of s /\ handles_of s' = handles_of s /\
channel_readings s' = channel_readings s /\
reference_readings s' = reference_readings s /\
point_stats s' = point_stats s.

Definition not_measurement (e : event) : Prop :=
match e with
| MeasurementTaken _ _ _ => False
| _ => True
end.

Definition keep_run (s s' : engine) : Prop :=
plan_of s' = plan_of s /\ handles_of s' = handles_of s /\
(_stop_requested s = true -> _stop_requested s' = true).

Definition not_setpoint (e : event) : Prop :=
match e with
| FurnaceSetSetpoint _ => False
| _ => True
end.

(** [keep_flags]: the plan and the three flags are kept (no look at the
    flags happens). *)
Definition keep_flags (s s' : engine) : Prop :=
plan_of s' = plan_of s /\ flags_of s' = flags_of s.

(** The side conditions of a frame lemma at one of these two frames. *)
Ltac frame_sides :=
  first
    [ exact I
    | intros; exact I
    | unfold keep_samples, keep_run, keep_flags; intros;
      repeat match goal with c : command |- _ => destruct c end;
      accessors; cbn in *; intuition congruence ].

Lemma samples_observe (w : world) : frames keep_samples not_measurement (observe w).
Proof. apply frames_observe; frame_sides. Qed.

Lemma samples_pause_wait (w : world) (fuel : nat) :
  frames keep_samples not_measurement (pause_wait w fuel).
Proof. apply frames_pause_wait; frame_sides. Qed.

Lemma samples_update_status (w : world) :
  frames keep_samples not_measurement (_update_status w).
Proof. apply frames_update_status; frame_sides. Qed.

Lemma samples_save_measurement (w : world) (channel : string) (a b c d : float) :
  frames keep_samples not_measurement (_save_measurement w channel a b c d).
Proof. apply frames_save_measurement; frame_sides. Qed.

(** With an open session and a collaborator that does not raise,
    [_save_measurement] writes the row it was given. *)
Lemma save_measurement_row (w : world) (channel : string)
  (measured reference raw_value point : float) (s : engine) (sid : Z) (idx : nat) :
  open_session s = Some sid ->
  list_index channel (active_channels s) = Some idx ->
  collab_raises w (n_collab s) = false ->
  exists m after,
    trace (state_of (_save_measurement w channel measured reference raw_value point s))
    = trace s ++ DbAddMeasurement m :: after /\
    dm_raw_value m = raw_value /\ dm_measured_temperature m = measured /\
    dm_reference_temperature m = reference /\
    dm_channel_name m = channel /\ dm_channel m = idx /\ dm_session_id m = sid.
Proof.
intros Ho Hi Hc.
unfold _save_measurement, bind, get, ret, furnace_read_temperature, furnace_read_setpoint,
  collaborator_call.
rewrite Ho. accessors. cbn in *.
destruct (furnace_io w (cu_n_furnace (cursors_of s))) as [sim1 x1].
destruct (Furnace.read_temperature _ sim1 x1) as [ok1 pv]. cbn.
destruct (furnace_io w (S (cu_n_furnace (cursors_of s)))) as [sim2 x2].
destruct (Furnace.read_setpoint _ sim2 x2) as [ok2 sp]. cbn.
rewrite Hi. cbn. accessors. rewrite Hc. cbn. accessors. cbn.
destruct (h_logger (handles_of s)); cbn; accessors; cbn;
  [destruct (collab_raises w (S (cu_n_collab (cursors_of s)))); cbn|];
  do 2 eexists; (split; [rewrite <- ?app_assoc; reflexivity|]); cbn;
  repeat split; reflexivity.
Qed.

(* --------------------------------------------------------------------- *)
(** ** Concrete runs *)
(* --------------------------------------------------------------------- *)

(** An engine on real transports, both connected, with channels A0 and B0
    active, two points, a database session and a data logger, about to
    measure its second point. *)
Definition bench : engine :=
{| handles_of :=
     {| h_use_simulators := false;
        h_cropico := serial_cropico;
        h_furnace := serial_furnace;
        h_database := true; h_logger := true; h_session_id := Some 1 |};
   plan_of := {| pl_active_channels := ["A0"; "B0"]%string;
                 pl_channel_sensor_types := [("A0", "PT100"); ("B0", "PT100")]%string;
                 pl_calibration_points := [50; 100]%float |};
   flags_of := {| fl_is_running := true; fl_is_paused := false; fl_stop_requested := false |};
   buffers_of := {| bf_channel_readings := []; bf_reference_readings := [];
                    bf_last_channel_values := [];
                    bf_point_stats :=
                      [("A0", Statistics.new_point_statistics "A0" 100);
                       ("B0", Statistics.new_point_statistics "B0" 100)]%string |};
   position_of := {| ps_current_point_index := 1; ps_current_channel_index := 0;
                     ps_stability_start_time := None |};
   cursors_of := {| cu_n_ctl := 0; cu_n_furnace := 0; cu_n_cropico := 0; cu_n_clock := 0;
                    cu_n_collab := 0 |};
   trace := [] |}.

(** A world in which the multimeter answers its [n]-th exchange with
    [replies n], the furnace always replies 100.0, the clock advances by
    100 s per reading, the controller calls [commands n] land before the
    [n]-th look at the flags, and no collaborator raises. *)
Definition lab (replies : nat -> option string) (commands : nat -> list command) : world :=
{| py_float := decimal_float;
   np_sum := Statistics.seq_sum;
   ctl := commands;
   furnace_io := fun _ => (100%float, Furnace.Reply reply_100);
   cropico_io := fun n => (0%float, Cropico.Response (replies n));
   clock := fun n => float_of_nat (100 * n);
   collab_raises := fun _ => false |}.

Definition no_commands : nat -> list command := fun _ => [].

Lemma overflow_reply_excluded_witness :
  Cropico.read_temperature decimal_float serial_cropico 0%float
    (Cropico.Response (Some "OVF"%string)) = (false, infinity) /\
  exists s',
    visit_channel (lab (fun _ => Some "OVF"%string) no_commands) 100%float "B0" bench
    = Ok tt s' /\
    channel_readings s' = [] /\
    reference_readings s' = [] /\
    point_stats s' = point_stats bench /\
    trace s' =
      [CropicoConfigureChannel "B0" "PT100"; ChannelChanged "B0";
       Log WARNING "Failed to read channel B0"].
Proof.
apply (overflow_reply_excluded (lab (fun _ => Some "OVF"%string) no_commands) bench
         100%float 0%float "B0"%string "OVF"%string); reflexivity.
Defined.

(** C3, the claim as stated: this response carries the overflow marker,
    and the client returns the number in front of it as a valid reading,
    which the orchestrator then records as a sample of the channel. *)
Lemma overflow_reply_with_digits_sampled :
  Cropico.overflow_marker "+9.9E37 OVERFLOW" = true /\
  Cropico.read_temperature decimal_float serial_cropico 0%float
    (Cropico.Response (Some "+9.9E37 OVERFLOW"%string)) = (true, 9.9%float) /\
  dict_get "B0"
    (channel_readings
       (state_of (visit_channel (lab (fun _ => Some "+9.9E37 OVERFLOW"%string) no_commands)
                                100%float "B0" bench)))
  = Some [9.9%float].
Proof. repeat split; vm_compute; reflexivity. Qed.

(** C10. In a visit of a channel where the temperature read succeeds with
    a value other than the overflow sentinel and the raw-value read fails,
    the sample is appended to the channel's buffer, the measurement signal
    is emitted, the point statistics of the channel get the sample with raw
    value 0, and [_save_measurement] is called with raw value 0: with an
    open database session (and a database call that does not raise) the
    measurement row written has raw value 0. *)
Theorem raw_read_failure_keeps_sample (w : world) (s : engine) (target_temp : float)
  (channel : string) (sim sim2 temp raw : float) (x x2 : Cropico.exchange) :
  cropico_io w (n_cropico s) = (sim, x) ->
  cropico_io w (S (n_cropico s)) = (sim2, x2) ->
  Cropico.read_temperature (py_float w) (cropico s) sim x = (true, temp) ->
  (temp =? infinity)%float = false ->
  Cropico.get_raw_value (py_float w) (cropico s) sim2 x2 = (false, raw) ->
  let s' := state_of (visit_channel w target_temp channel s) in
  exists ref_temp,
    dict_get channel (channel_readings s')
    = Some (dict_get_default channel (channel_readings s) [] ++ [temp]) /\
    (exists after,
       trace s' =
         trace s ++
         [CropicoConfigureChannel channel
            (dict_get_default channel (channel_sensor_types s) "PT100");
          ChannelChanged channel;
          MeasurementTaken channel temp ref_temp] ++ after) /\
    (forall st, dict_get channel (point_stats s) = Some st ->
       dict_get channel (point_stats s')
       = Some (Statistics.add_measurement st temp ref_temp 0%float (clock w (n_clock s)))) /\
    (forall sid idx,
       open_session s = Some sid ->
       list_index channel (active_channels s) = Some idx ->
       collab_raises w (n_collab s) = false ->
       exists m before after,
         trace s' = before ++ DbAddMeasurement m :: after /\
         dm_raw_value m = 0%float /\ dm_measured_temperature m = temp /\
         dm_reference_temperature m = ref_temp /\
         dm_channel_name m = channel /\ dm_channel m = idx /\ dm_session_id m = sid).
Proof.
intros Hio Hio2 Hr Hinf Hraw s'. subst s'.
destruct (visit_channel_sampled w target_temp channel s sim sim2 temp raw x x2 false
            Hio Hio2 Hr Hinf Hraw)
  as (ref_temp & s1 & E & Hh & Hp & Hf & Hn & Hcr & Hps & Ht).
rewrite E. exists ref_temp.
destruct (samples_save_measurement w channel temp ref_temp 0%float target_temp s1)
  as [(Kp & Kh & Kr & Krr & Ks) (evs & Te & _)].
repeat split.
- rewrite Kr, Hcr. apply dict_get_set_eq.
- exists evs. rewrite Te, Ht. now rewrite <- app_assoc.
- intros st Hst. rewrite Ks, Hps, Hst. apply dict_get_set_eq.
- intros sid idx Ho Hi Hc.
  assert (Ho1 : open_session s1 = Some sid).
  { unfold open_session, database, session_id in *. now rewrite Hh. }
  assert (Hi1 : list_index channel (active_channels s1) = Some idx).
  { unfold active_channels in *. now rewrite Hp. }
  assert (Hc1 : collab_raises w (n_collab s1) = false) by now rewrite Hn.
  destruct (save_measurement_row w channel temp ref_temp 0%float target_temp s1 sid idx
              Ho1 Hi1 Hc1) as (m & after & Tm & F).
  exists m, (trace s1), after. split; [exact Tm|exact F].
Qed.

Lemma raw_read_failure_keeps_sample_witness :
  let w := lab (fun n => match n with O => Some "+100.25"%string | _ => Some "ERR"%string end)
               no_commands in
  let s' := state_of (visit_channel w 100%float "B0" bench) in
  exists ref_temp,
    dict_get "B0" (channel_readings s') = Some ([] ++ [100.25%float]) /\
    (exists after,
       trace s' =
         [] ++
         [CropicoConfigureChannel "B0" "PT100"; ChannelChanged "B0";
          MeasurementTaken "B0" 100.25 ref_temp] ++ after) /\
    (forall st, dict_get "B0" (point_stats bench) = Some st ->
       dict_get "B0" (point_stats s')
       = Some (Statistics.add_measurement st 100.25 ref_temp 0%float 0%float)) /\
    (forall sid idx,
       open_session bench = Some sid ->
       list_index "B0" (active_channels bench) = Some idx ->
       collab_raises w 0 = false ->
       exists m before after,
         trace s' = before ++ DbAddMeasurement m :: after /\
         dm_raw_value m = 0%float /\ dm_measured_temperature m = 100.25%float /\
         dm_reference_temperature m = ref_temp /\
         dm_channel_name m = "B0"%string /\ dm_channel m = idx /\ dm_session_id m = sid).
Proof.
apply (raw_read_failure_keeps_sample
         (lab (fun n => match n with O => Some "+100.25"%string | _ => Some "ERR"%string end)
              no_commands)
         bench 100%float "B0"%string 0%float 0%float 100.25%float 0%float
         (Cropico.Response (Some "+100.25"%string)) (Cropico.Response (Some "ERR"%string)));
  reflexivity.
Defined.

Example raw_read_failure_row :
  let w := lab (fun n => match n with O => Some "+100.25"%string | _ => Some "ERR"%string end)
               no_commands in
  trace (state_of (visit_channel w 100%float "B0" bench)) =
  [CropicoConfigureChannel "B0" "PT100"; ChannelChanged "B0";
   MeasurementTaken "B0" 100.25 100;
   DbAddMeasurement
     {| dm_session_id := 1; dm_channel := 1; dm_channel_name := "B0";
        dm_measured_temperature := 100.25; dm_reference_temperature := 100;
        dm_furnace_pv := 100; dm_furnace_sp := 100; dm_raw_value := 0;
        dm_absolute_error := 0.25; dm_calibration_point := 100 |};
   LoggerLogMeasurement "B0" 100.25 100 0.25].
Proof. vm_compute. reflexivity. Qed.

(* --------------------------------------------------------------------- *)
(** ** Point aggregation *)
(* --------------------------------------------------------------------- *)

Lemma calculate_fold_lookup (w : world) (s : engine) (target_temp ref_mean : float)
  (ch : string) (l : list string) (acc : dict PointResult) :
  dict_get ch
    (fold_left
       (fun results channel =>
          match dict_get_default channel (channel_readings s) [] with
          | [] => results
          | temps => dict_set channel (point_result w s target_temp ref_mean channel temps)
                              results
          end) l acc)
  = match dict_get_default ch (channel_readings s) [] with
    | [] => dict_get ch acc
    | temps =>
        if existsb (String.eqb ch) l
        then Some (point_result w s target_temp ref_mean ch temps)
        else dict_get ch acc
    end.
Proof.
revert acc. induction l as [|c l IH]; intros acc; simpl.
- now destruct (dict_get_default ch (channel_readings s) []).
- rewrite IH. clear IH.
  destruct (String.eqb_spec ch c) as [->|N]; simpl.
  + destruct (dict_get_default c (channel_readings s) []) as [|t ts] eqn:E; [reflexivity|].
    destruct (existsb (String.eqb c) l); [reflexivity|]. apply dict_get_set_eq.
  + destruct (dict_get_default ch (channel_readings s) []) as [|t ts]; simpl;
      destruct (dict_get_default c (channel_readings s) []) as [|t' ts']; try reflexivity;
      destruct (existsb (String.eqb ch) l); try reflexivity;
      apply dict_get_set_ne; congruence.
Qed.

(** The entry of a channel in the results of a point. *)
Lemma calculate_point_results_lookup (w : world) (s : engine) (target_temp : float)
  (ch : string) :
  dict_get ch (_calculate_point_results w s target_temp)
  = match dict_get_default ch (channel_readings s) [] with
    | [] => None
    | temps =>
        if existsb (String.eqb ch) (active_channels s)
        then Some (point_result w s target_temp (reference_mean w s target_temp) ch temps)
        else None
    end.
Proof.
unfold _calculate_point_results. rewrite calculate_fold_lookup.
now destruct (dict_get_default ch (channel_readings s) []).
Qed.

(** The readings of [bench] after a burst in which A0 read 100.0 and 100.2
    and B0 read 100.5 and 100.7. *)
Definition bench_sampled : engine :=
put_channel_readings [("A0", [100; 100.2]); ("B0", [100.5; 100.7])]%string%float bench.

(** C2 (as amended). For every channel with an entry in the results of a
    point, the entry's reference value is the mean of the reference
    channel's samples of the point when there is at least one, and the
    target temperature of the point when there is none; the entry's mean
    is the mean of the channel's samples, and its error is that mean minus
    the reference value. *)
Theorem point_reference_and_error (w : world) (s : engine) (target_temp : float)
  (ch : string) (r : PointResult) :
  dict_get ch (_calculate_point_results w s target_temp) = Some r ->
  let ref_temps := dict_get_default Config.REFERENCE_CHANNEL (channel_readings s) [] in
  let temps := dict_get_default ch (channel_readings s) [] in
  avg_reference_temp r
  = match ref_temps with
    | [] => target_temp
    | _ => Statistics.calculate_mean (np_sum w) ref_temps
    end /\
  avg_measured_temp r = Statistics.calculate_mean (np_sum w) temps /\
  error r = (avg_measured_temp r - avg_reference_temp r)%float.
Proof.
intros H ref_temps temps. subst ref_temps temps.
rewrite calculate_point_results_lookup in H.
destruct (dict_get_default ch (channel_readings s) []) as [|t ts] eqn:E; [discriminate|].
destruct (existsb (String.eqb ch) (active_channels s)); [|discriminate].
injection H as <-. cbn [avg_reference_temp avg_measured_temp error point_result].
unfold reference_mean.
now destruct (dict_get_default Config.REFERENCE_CHANNEL (channel_readings s) []).
Qed.

Lemma point_reference_and_error_witness :
  let w := lab (fun _ => None) no_commands in
  let r := point_result w bench_sampled 100 (reference_mean w bench_sampled 100) "B0"
                        [100.5; 100.7]%float in
  avg_reference_temp r = Statistics.calculate_mean Statistics.seq_sum [100; 100.2]%float /\
  avg_measured_temp r = Statistics.calculate_mean Statistics.seq_sum [100.5; 100.7]%float /\
  error r = (avg_measured_temp r - avg_reference_temp r)%float.
Proof.
exact (point_reference_and_error (lab (fun _ => None) no_commands) bench_sampled 100%float
         "B0"%string _ eq_refl).
Defined.

(** The multimeter of a burst in which the reference channel A0 is open
    (overflow on every temperature read) and B0 reads 100.5: the exchanges
    go A0 temperature, A0 raw value, B0 temperature, B0 raw value. *)
Definition reference_open (n : nat) : option string :=
match Nat.modulo n 4 with
| O => Some "OVF"%string
| 2%nat => Some "+100.5"%string
| _ => Some "138.5"%string
end.

(** C2, the claim as stated: after this burst the reference channel has no
    sample (the mean of its samples is [calculate_mean] of the empty list,
    0.0), B0 has its entry, and the reference value of that entry is the
    target, 100.0. *)
Lemma reference_value_without_reference_samples :
  exists results s' r,
    _measure_point (lab reference_open no_commands) 5 100%float bench = Ok results s' /\
    dict_get_default Config.REFERENCE_CHANNEL (channel_readings s') [] = [] /\
    dict_get "B0" results = Some r /\
    n_measurements r = 10%nat /\
    avg_reference_temp r = 100%float /\
    Statistics.calculate_mean Statistics.seq_sum
      (dict_get_default Config.REFERENCE_CHANNEL (channel_readings s') []) = 0%float /\
    error r = 0.5%float.
Proof.
do 3 eexists. split; [vm_compute; reflexivity|].
repeat split; vm_compute; reflexivity.
Qed.

(* --------------------------------------------------------------------- *)
(** ** The measurement burst: results and samples *)
(* --------------------------------------------------------------------- *)

(** A computation that keeps a property of the state, however it ends. *)
Definition preserves {A : Type} (P : engine -> Prop) (m : M A) : Prop :=
forall s, P s -> P (state_of (m s)).

Lemma preserves_ret {A : Type} (P : engine -> Prop) (a : A) : preserves P (ret a).
Proof. intros s H. exact H. Qed.

Lemma preserves_bind {A B : Type} (P : engine -> Prop) (m : M A) (k : A -> M B) :
  preserves P m -> (forall a, preserves P (k a)) -> preserves P (bind m k).
Proof.
intros Hm Hk s H. unfold bind. specialize (Hm s H).
destruct (m s) as [a s1|s1|s1]; simpl in *; auto. now apply Hk.
Qed.

Lemma preserves_bind_get {A B : Type} (P : engine -> Prop) (f : engine -> A)
  (k : A -> M B) :
  (forall s, P s -> P (state_of (k (f s) s))) -> preserves P (bind (get f) k).
Proof. intros H s Hs. unfold bind, get. now apply H. Qed.

Lemma frames_preserves {A : Type} (keep : engine -> engine -> Prop) (quiet : event -> Prop)
  (P : engine -> Prop) (m : M A) :
  (forall s s', framed keep quiet s s' -> P s -> P s') ->
  frames keep quiet m -> preserves P m.
Proof. intros H F s Hs. exact (H _ _ (F s) Hs). Qed.

(** What holds during the burst that started in [s0]: the plan is the one
    of [s0], and a channel has a sample in its buffer exactly when a
    measurement of it has been signalled since; only active channels are
    measured. *)
Definition sampled_since (s0 s : engine) : Prop :=
plan_of s = plan_of s0 /\
exists evs,
  trace s = trace s0 ++ evs /\
  (forall ch, dict_get_default ch (channel_readings s) [] <> [] <->
              exists t r, In (MeasurementTaken ch t r) evs) /\
  (forall ch t r, In (MeasurementTaken ch t r) evs -> In ch (active_channels s0)).

Lemma no_measurement_in (evs : list event) (ch : string) (t r : float) :
  Forall not_measurement evs -> ~ In (MeasurementTaken ch t r) evs.
Proof.
intros F H. rewrite Forall_forall in F. exact (F _ H).
Qed.

Lemma sampled_since_framed (s0 s s' : engine) :
  framed keep_samples not_measurement s s' -> sampled_since s0 s -> sampled_since s0 s'.
Proof.
intros [(Kp & _ & Kr & _) (e' & T' & Q)] [Hp (evs & T & Hs & Ha)].
split; [congruence|].
exists (evs ++ e'). rewrite T', T, app_assoc. split; [reflexivity|].
split.
- intros ch. rewrite Kr, Hs. split.
  + intros (t & r & H). exists t, r. apply in_or_app. now left.
  + intros (t & r & H). apply in_app_or in H. destruct H as [H|H]; [eauto|].
    now apply no_measurement_in in H.
- intros ch t r H. apply in_app_or in H. destruct H as [H|H]; [eauto|].
  now apply no_measurement_in in H.
Qed.

Lemma sampled_since_visit (w : world) (s0 : engine) (target_temp : float) (channel : string) :
  In channel (active_channels s0) ->
  preserves (sampled_since s0) (visit_channel w target_temp channel).
Proof.
intros Hin s I.
destruct (cropico_io w (n_cropico s)) as [sim x] eqn:Hio.
destruct (Cropico.read_temperature (py_float w) (cropico s) sim x) as [ok temp] eqn:Hr.
destruct (ok && negb (temp =? infinity)%float) eqn:Hc.
- apply andb_prop in Hc. destruct Hc as [-> Hinf]. apply negb_true_iff in Hinf.
  destruct (cropico_io w (S (n_cropico s))) as [sim2 x2] eqn:Hio2.
  destruct (Cropico.get_raw_value (py_float w) (cropico s) sim2 x2) as [ok_raw raw] eqn:Hraw.
  destruct (visit_channel_sampled w target_temp channel s sim sim2 temp raw x x2 ok_raw
              Hio Hio2 Hr Hinf Hraw)
    as (ref_temp & s1 & E & Hh & Hp & Hf & Hn & Hcr & Hps & Ht).
  rewrite E.
  apply (sampled_since_framed s0 s1); [apply samples_save_measurement|].
  destruct I as [Ip (evs & T & Hs & Ha)]. split; [congruence|].
  exists (evs ++ [CropicoConfigureChannel channel
                    (dict_get_default channel (channel_sensor_types s) "PT100");
                  ChannelChanged channel; MeasurementTaken channel temp ref_temp]).
  rewrite Ht, T, app_assoc. split; [reflexivity|]. split.
  + intros ch. rewrite Hcr. destruct (String.eqb_spec channel ch) as [<-|N].
    * rewrite dict_get_default_set_eq. split.
      -- intros _. exists temp, ref_temp. apply in_or_app. right. simpl. auto.
      -- intros _. now destruct (dict_get_default channel (channel_readings s) []).
    * rewrite dict_get_default_set_ne by exact N. rewrite Hs. split.
      -- intros (t & r & H). exists t, r. apply in_or_app. now left.
      -- intros (t & r & H). apply in_app_or in H. destruct H as [H|H]; [eauto|].
         simpl in H. destruct H as [H|[H|[H|[]]]]; try discriminate.
         injection H as -> _ _. contradiction.
  + intros ch t r H. apply in_app_or in H. destruct H as [H|H]; [eauto|].
    simpl in H. destruct H as [H|[H|[H|[]]]]; try discriminate.
    injection H as <- _ _. exact Hin.
- destruct (visit_channel_excluded w target_temp channel s sim x ok temp Hio Hr Hc)
    as (s' & E & B & Hp & Hh & T).
  rewrite E. cbn [state_of].
  apply (sampled_since_framed s0 s); [|exact I].
  split.
  + unfold keep_samples, channel_readings, reference_readings, point_stats.
    rewrite B. auto.
  + eexists. split; [exact T|]. repeat constructor.
Qed.

Lemma sampled_since_visit_channels (w : world) (s0 : engine) (target_temp : float)
  (channels : list string) :
  incl channels (active_channels s0) ->
  preserves (sampled_since s0) (visit_channels w target_temp channels).
Proof.
induction channels as [|channel rest IH]; intros Hin; cbn [visit_channels].
- apply preserves_ret.
- apply preserves_bind.
  + apply (frames_preserves keep_samples not_measurement);
      [intros; eapply sampled_since_framed; eauto|apply samples_observe].
  + intros _. apply preserves_bind_get. intros s I.
    destruct (_stop_requested s); [exact I|].
    apply preserves_bind; [| |exact I].
    * apply sampled_since_visit. apply Hin. now left.
    * intros _. apply IH. intros c Hc. apply Hin. now right.
Qed.

Lemma sampled_since_rounds (w : world) (s0 : engine) (fuel : nat) (target_temp : float)
  (n : nat) :
  preserves (sampled_since s0) (measurement_rounds w fuel target_temp n).
Proof.
assert (F : forall (A : Type) (m : M A),
          frames keep_samples not_measurement m -> preserves (sampled_since s0) m).
{ intros A m. apply frames_preserves. intros; eapply sampled_since_framed; eauto. }
induction n as [|n IH]; cbn [measurement_rounds].
- apply preserves_ret.
- apply preserves_bind; [apply F, samples_observe|].
  intros _. apply preserves_bind_get. intros s I.
  destruct (_stop_requested s); [exact I|].
  apply preserves_bind; [apply F, samples_pause_wait| |exact I].
  intros _. apply preserves_bind_get. intros s1 I1.
  apply preserves_bind; [| |exact I1].
  + apply sampled_since_visit_channels.
    destruct I1 as [Hp _]. unfold active_channels. rewrite Hp. apply incl_refl.
  + intros _. apply preserves_bind; [apply F, samples_update_status|].
    intros _. exact IH.
Qed.

Lemma existsb_eqb_In (ch : string) (l : list string) :
  existsb (String.eqb ch) l = true <-> In ch l.
Proof.
rewrite existsb_exists. split.
- intros (x & Hx & E). apply String.eqb_eq in E. now subst.
- intros H. exists ch. split; [exact H|apply String.eqb_refl].
Qed.

(** C4. When [_measure_point] returns the results of a point, a channel
    has an entry in them if and only if at least one measurement of that
    channel was taken (signalled) during the burst; an entry counts at
    least one measurement, so a channel without a successful read has no
    entry at all, zeroed or otherwise. *)
Theorem results_iff_measured (w : world) (fuel : nat) (target_temp : float) (s s' : engine)
  (results : dict PointResult) :
  _measure_point w fuel target_temp s = Ok results s' ->
  exists evs,
    trace s' = trace s ++ evs /\
    forall ch,
      (dict_mem ch results = true <-> exists t r, In (MeasurementTaken ch t r) evs) /\
      (forall r, dict_get ch results = Some r -> (0 < n_measurements r)%nat).
Proof.
intros H.
set (s0 := put_reference_readings [] (put_channel_readings [] s)).
assert (I0 : sampled_since s0 s0).
{ split; [reflexivity|]. exists []. rewrite app_nil_r. split; [reflexivity|].
  split.
  - intros ch. split; [intros N; now contradiction N|intros (t & r & [])].
  - intros ch t r []. }
pose proof (sampled_since_rounds w s0 fuel target_temp Config.MEASUREMENTS_PER_POINT s0 I0)
  as I.
unfold _measure_point, bind, modify, get, ret in H. fold s0 in H.
destruct (measurement_rounds w fuel target_temp Config.MEASUREMENTS_PER_POINT s0)
  as [[] sf|sf|sf]; [|discriminate|discriminate].
injection H as <- <-. cbn [state_of] in I.
destruct I as [Hp (evs & T & Hs & Ha)].
exists evs. split; [exact T|].
intros ch. unfold dict_mem. rewrite calculate_point_results_lookup.
specialize (Hs ch).
destruct (dict_get_default ch (channel_readings sf) []) as [|t ts] eqn:E.
- split; [|discriminate]. split; [discriminate|].
  intros M. apply Hs in M. now contradiction M.
- assert (M : exists t0 r, In (MeasurementTaken ch t0 r) evs) by (apply Hs; discriminate).
  assert (A : existsb (String.eqb ch) (active_channels sf) = true).
  { apply existsb_eqb_In. destruct M as (t0 & r & M). apply Ha in M.
    unfold active_channels in *. now rewrite Hp. }
  rewrite A. split; [tauto|].
  intros r R. injection R as <-. cbn. lia.
Qed.

(** The multimeter of a burst in which B0 is open (overflow on every
    temperature read) and the reference channel A0 reads 100.0. *)
Definition b0_open (n : nat) : option string :=
match Nat.modulo n 4 with
| 2%nat => Some "OVF"%string
| O => Some "+100.0"%string
| _ => Some "138.5"%string
end.

Lemma results_iff_measured_witness :
  exists results s',
    _measure_point (lab b0_open no_commands) 5 100%float bench = Ok results s' /\
    exists evs,
      trace s' = trace bench ++ evs /\
      forall ch,
        (dict_mem ch results = true <-> exists t r, In (MeasurementTaken ch t r) evs) /\
        (forall r, dict_get ch results = Some r -> (0 < n_measurements r)%nat).
Proof.
do 2 eexists. split; [vm_compute; reflexivity|].
eapply (results_iff_measured (lab b0_open no_commands) 5 100%float bench).
vm_compute. reflexivity.
Defined.

(** The scenario of the specification: a channel that overflows through a
    whole burst is absent from the results, the other channel has its ten
    measurements, and no error is signalled. *)
Example overflowing_channel_absent :
  exists results s',
    _measure_point (lab b0_open no_commands) 5 100%float bench = Ok results s' /\
    map fst results = ["A0"%string] /\
    dict_get "B0" results = None /\
    option_map n_measurements (dict_get "A0" results) = Some 10%nat /\
    existsb (fun e => match e with ErrorOccurred => true | _ => false end) (trace s') = false.
Proof.
do 2 eexists. split; [vm_compute; reflexivity|].
repeat split; vm_compute; reflexivity.
Qed.

(* --------------------------------------------------------------------- *)
(** ** Starting a run *)
(* --------------------------------------------------------------------- *)

Lemma configure_events_plan (f : engine -> string -> event) (l : list string) (s : engine) :
  plan_of (fold_left (fun s channel => record_event (f s channel) s) l s) = plan_of s.
Proof.
revert s. induction l as [|c l IH]; intros s; simpl; [reflexivity|].
now rewrite IH.
Qed.

Lemma configure_channels_reference (channels : list string) (sensor_types : dict string)
  (s : engine) :
  In Config.REFERENCE_CHANNEL (active_channels (configure_channels channels sensor_types s)).
Proof.
unfold configure_channels, active_channels.
rewrite (configure_events_plan
           (fun s channel =>
              CropicoConfigureChannel channel
                (dict_get_default channel (channel_sensor_types s) "PT100"))).
cbn -[String.eqb existsb Config.REFERENCE_CHANNEL].
destruct (existsb (String.eqb Config.REFERENCE_CHANNEL) channels) eqn:E;
  cbn -[String.eqb existsb Config.REFERENCE_CHANNEL].
- now apply existsb_eqb_In.
- now left.
Qed.

(** C1 (as amended). [start_calibration] begins a run exactly when no run
    is in progress: on a running engine it only logs a warning; on an idle
    one it sets the run flag, clears the pause and stop flags, leaves the
    point list and the channels as they are and starts the worker, whether
    or not there are points and whatever the number of active channels.
    What holds of the plan comes from its setters: [configure_channels]
    always leaves the reference channel among the active channels, and
    [set_calibration_points] stores the points, each once, in ascending
    order (for points without NaN). *)
Theorem start_calibration_requires_idle_only (s : engine) :
  (is_running s = true ->
   start_calibration s = record_event (Log WARNING "Calibration already running") s) /\
  (is_running s = false ->
   is_running (start_calibration s) = true /\
   is_paused (start_calibration s) = false /\
   _stop_requested (start_calibration s) = false /\
   plan_of (start_calibration s) = plan_of s /\
   trace (start_calibration s)
   = trace s ++ [WorkerThreadStarted; Log INFO "Calibration started"]) /\
  (forall channels sensor_types,
     In Config.REFERENCE_CHANNEL
        (active_channels (configure_channels channels sensor_types s))) /\
  (forall points,
     no_nan points ->
     ascending (calibration_points (set_calibration_points points s)) /\
     Permutation (calibration_points (set_calibration_points points s)) points).
Proof.
split; [|split; [|split]].
- intros H. unfold start_calibration. now rewrite H.
- intros H. unfold start_calibration. rewrite H. cbn.
  rewrite <- app_assoc. repeat split; reflexivity.
- intros channels sensor_types. apply configure_channels_reference.
- intros points H. apply (sorted_ascending points H).
Qed.

(** C1, the claim as stated: a fresh engine has no calibration point and
    one active channel; starting it sets the run flag and starts the
    worker, which visits nothing, parks the furnace and reports the
    session as completed. *)
Lemma start_without_points_begins_run :
  calibration_points (__init__ true) = [] /\
  active_channels (__init__ true) = ["A0"%string] /\
  is_running (start_calibration (__init__ true)) = true /\
  trace (start_calibration (__init__ true))
  = [WorkerThreadStarted; Log INFO "Calibration started"] /\
  trace (state_of (_calibration_worker (lab (fun _ => None) no_commands) 5
                                       (start_calibration (__init__ true))))
  = [WorkerThreadStarted; Log INFO "Calibration started";
     FurnaceSetSetpoint Config.PARKING_TEMPERATURE; CalibrationCompleted;
     Log INFO "Calibration session completed"].
Proof. repeat split; vm_compute; reflexivity. Qed.

(* --------------------------------------------------------------------- *)
(** ** The worker: order of the points and parking *)
(* --------------------------------------------------------------------- *)

Lemma setpoints_app (a b : list event) : setpoints (a ++ b) = setpoints a ++ setpoints b.
Proof.
induction a as [|e a IH]; simpl; [reflexivity|].
destruct e; simpl; now rewrite IH.
Qed.

Lemma setpoints_quiet (evs : list event) : Forall not_setpoint evs -> setpoints evs = [].
Proof.
induction 1 as [|e evs He _ IH]; simpl; [reflexivity|].
destruct e; simpl in *; [contradiction|exact IH..].
Qed.

Lemma run_observe (w : world) : frames keep_run not_setpoint (observe w).
Proof. apply frames_observe; frame_sides. Qed.

Lemma run_wait_for_stability (w : world) (fuel : nat) (target_temp : float) :
  frames keep_run not_setpoint (_wait_for_stability w fuel target_temp).
Proof. apply frames_wait_for_stability; frame_sides. Qed.

Lemma run_measure_point (w : world) (fuel : nat) (target_temp : float) :
  frames keep_run not_setpoint (_measure_point w fuel target_temp).
Proof. apply frames_measure_point; frame_sides. Qed.

Lemma run_save_point_results (w : world) (results : dict PointResult) :
  frames keep_run not_setpoint (_save_point_results w results).
Proof. apply frames_save_point_results; frame_sides. Qed.

Lemma run_emit (e : event) : not_setpoint e -> frames keep_run not_setpoint (emit e).
Proof. intros Q. apply frames_emit; first [exact Q | frame_sides]. Qed.

Lemma run_modify (f : engine -> engine) :
  (forall s, keep_run s (f s) /\ trace (f s) = trace s) ->
  frames keep_run not_setpoint (modify f).
Proof. intros H. apply frames_modify; first [exact H | frame_sides]. Qed.

Lemma flags_finalize_session (w : world) :
  frames keep_flags not_setpoint (_finalize_session w).
Proof. apply frames_finalize_session; frame_sides. Qed.

(** What a stretch of the worker's loop over [points] has done when it is
    left in [r], from [s]: the furnace was sent the first [k] of the points,
    in order, and nothing else; and if the stretch returned and no stop is
    requested, it went through all of them. *)
Definition visits (points : list float) (s : engine) (r : res unit) : Prop :=
keep_run s (state_of r) /\
exists evs k,
  trace (state_of r) = trace s ++ evs /\
  (k <= List.length points)%nat /\
  setpoints evs = firstn k points /\
  (forall u s', r = Ok u s' -> _stop_requested s' = false -> k = List.length points).

Lemma keep_run_refl (s : engine) : keep_run s s.
Proof. unfold keep_run. auto. Qed.

Lemma keep_run_trans (a b c : engine) : keep_run a b -> keep_run b c -> keep_run a c.
Proof. unfold keep_run. intuition congruence. Qed.

(** Leaving the loop on a stop request. *)
Lemma visits_break (points : list float) (s : engine) :
  _stop_requested s = true -> visits points s (ret tt s).
Proof.
intros St. split; [apply keep_run_refl|].
exists [], 0%nat. cbn. rewrite app_nil_r. repeat split; auto with arith.
intros u s' E. injection E as _ <-. congruence.
Qed.

Lemma visits_done (s : engine) : visits [] s (ret tt s).
Proof.
split; [apply keep_run_refl|].
exists [], 0%nat. cbn. rewrite app_nil_r. repeat split; auto.
Qed.

(** A framed computation in front of a stretch. *)
Lemma visits_frame {A : Type} (m : M A) (k : A -> M unit) (points : list float) :
  frames keep_run not_setpoint m ->
  (forall a s1, visits points s1 (k a s1)) ->
  forall s, visits points s (bind m k s).
Proof.
intros F K s. unfold bind. destruct (F s) as [Kp (e1 & T1 & Q1)].
destruct (m s) as [a s1|s1|s1]; cbn [state_of] in *.
- destruct (K a s1) as [Kp2 (e2 & n & T2 & Hn & Hs & Hd)].
  split; [eapply keep_run_trans; eauto|].
  exists (e1 ++ e2), n. rewrite T2, T1, app_assoc, setpoints_app, (setpoints_quiet e1 Q1).
  auto.
- split; [exact Kp|]. exists e1, 0%nat. rewrite (setpoints_quiet e1 Q1).
  repeat split; auto with arith. discriminate.
- split; [exact Kp|]. exists e1, 0%nat. rewrite (setpoints_quiet e1 Q1).
  repeat split; auto with arith. discriminate.
Qed.

Lemma visits_get {A : Type} (f : engine -> A) (k : A -> M unit) (points : list float)
  (s : engine) :
  visits points s (k (f s) s) -> visits points s (bind (get f) k s).
Proof. intros H. exact H. Qed.

(** Sending the furnace to the next point. *)
Lemma visits_setpoint (t : float) (points : list float) (k : M unit) :
  (forall s1, visits points s1 (k s1)) ->
  forall s, visits (t :: points) s (bind (emit (FurnaceSetSetpoint t)) (fun _ => k) s).
Proof.
intros K s. unfold bind, emit, modify.
destruct (K (record_event (FurnaceSetSetpoint t) s)) as [Kp (e & n & T & Hn & Hs & Hd)].
split.
- eapply keep_run_trans; [|exact Kp]. unfold keep_run. auto.
- exists (FurnaceSetSetpoint t :: e), (S n). rewrite T. cbn.
  rewrite <- app_assoc, Hs. repeat split; auto with arith.
  intros u s' E St. now rewrite (Hd u s' E St).
Qed.

Lemma worker_loop_visits (w : world) (fuel : nat) (points : list float) :
  forall point_idx s, visits points s (worker_loop w fuel point_idx points s).
Proof.
induction points as [|t rest IH]; intros point_idx s; cbn [worker_loop].
- apply visits_done.
- apply visits_frame; [apply run_observe|]. clear s. intros _ s.
  apply visits_get. destruct (_stop_requested s) eqn:St; [now apply visits_break|].
  apply visits_frame; [apply run_modify; intros; split; [frame_sides|reflexivity]|].
  clear s St. intros _ s.
  apply visits_frame; [apply run_emit; exact I|]. clear s. intros _ s.
  apply visits_setpoint. clear s. intros s.
  apply visits_frame; [apply run_wait_for_stability|]. clear s. intros stable s.
  destruct stable; cbn [negb].
  + apply visits_get.
    apply visits_frame; [apply run_modify; intros; split; [frame_sides|reflexivity]|].
    clear s. intros _ s.
    apply visits_frame; [apply run_measure_point|]. clear s. intros results s.
    apply visits_frame; [|intros; apply IH].
    destruct results as [|item results]; [apply frames_ret; frame_sides|].
    apply frames_bind; [frame_sides|apply run_emit; exact I|].
    intros _. apply run_save_point_results.
  + apply visits_frame; [apply run_observe|]. clear s. intros _ s.
    apply visits_get. destruct (_stop_requested s) eqn:St; [now apply visits_break|].
    apply IH.
Qed.

Lemma observe_returns (w : world) (s : engine) : exists s1, observe w s = Ok tt s1.
Proof. eexists. reflexivity. Qed.

(** The [try] block of the worker. *)
Lemma worker_body_visits (w : world) (fuel : nat) (s : engine) :
  let points := calibration_points s in
  let r := worker_body w fuel s in
  exists (evs : list event) (k : nat) (parked : bool),
    trace (state_of r) = trace s ++ evs /\
    (k <= List.length points)%nat /\
    setpoints evs
    = firstn k points ++ (if parked then [Config.PARKING_TEMPERATURE] else []) /\
    (parked = true -> k = List.length points /\ _stop_requested (state_of r) = false) /\
    (forall s1, r = Ok tt s1 -> _stop_requested s1 = false -> parked = true).
Proof.
intros points r.
assert (Er : r = worker_body w fuel s) by reflexivity. clearbody r.
unfold worker_body, bind, get, emit, modify, ret in Er. fold points in Er.
destruct (worker_loop_visits w fuel points 0 s) as [Kp (e1 & k & T1 & Hk & Hs & Hd)].
destruct (worker_loop w fuel 0 points s) as [[] s1|s1|s1]; cbn [state_of] in *.
- destruct (run_observe w s1) as [Kp2 (e2 & T2 & Q2)].
  destruct (observe_returns w s1) as (s2 & E2). rewrite E2 in *. cbn [state_of] in *.
  destruct (_stop_requested s2) eqn:St; cbn [negb] in Er.
  + subst r. exists (e1 ++ e2), k, false.
    cbn [state_of].
    rewrite T2, T1, app_assoc, setpoints_app, (setpoints_quiet e2 Q2), Hs, !app_nil_r.
    repeat split; auto; try discriminate.
    intros s' E. injection E as <-. congruence.
  + assert (St1 : _stop_requested s1 = false).
    { destruct Kp2 as (_ & _ & M). destruct (_stop_requested s1); [|reflexivity].
      now rewrite M in St. }
    pose proof (Hd tt s1 eq_refl St1) as ->.
    destruct (flags_finalize_session w (record_event (FurnaceSetSetpoint
                                                        Config.PARKING_TEMPERATURE) s2))
      as [(_ & Kf) (e3 & T3 & Q3)].
    rewrite <- Er in *.
    exists (e1 ++ e2 ++ FurnaceSetSetpoint Config.PARKING_TEMPERATURE :: e3),
      (List.length points), true.
    rewrite T3. cbn [trace record_event put_trace]. rewrite T2, T1.
    rewrite !setpoints_app, (setpoints_quiet e2 Q2). cbn [setpoints app].
    rewrite (setpoints_quiet e3 Q3), Hs, <- !app_assoc.
    repeat split; auto.
    unfold _stop_requested in *. rewrite Kf. exact St.
- subst r. exists e1, k, false. cbn [state_of]. rewrite Hs, app_nil_r.
  repeat split; auto; discriminate.
- subst r. exists e1, k, false. cbn [state_of]. rewrite Hs, app_nil_r.
  repeat split; auto; discriminate.
Qed.

(** C8. In every run of the worker the furnace is sent, in the order of
    the point list, the first [k] points of the list, each once, followed
    by the parking temperature exactly when [parked]; with a point list in
    ascending order the points visited are in ascending order.  Parking
    implies that every point was visited and that no stop is requested; a
    requested stop implies no parking (and the points after the first [k]
    are left alone); and when the [try] block of the worker runs to its end
    with no stop requested, the furnace is parked.  The [except] and
    [finally] clauses send nothing to the furnace. *)
Theorem worker_visits_in_order_and_parks (w : world) (fuel : nat) (s : engine) :
  let points := calibration_points s in
  let s' := state_of (_calibration_worker w fuel s) in
  exists (evs : list event) (k : nat) (parked : bool),
    trace s' = trace s ++ evs /\
    (k <= List.length points)%nat /\
    setpoints evs
    = firstn k points ++ (if parked then [Config.PARKING_TEMPERATURE] else []) /\
    (ascending points -> ascending (firstn k points)) /\
    (parked = true -> k = List.length points /\ _stop_requested s' = false) /\
    (_stop_requested s' = true -> parked = false) /\
    (forall s1, worker_body w fuel s = Ok tt s1 -> _stop_requested s1 = false ->
                parked = true).
Proof.
intros points s'. subst s'.
destruct (worker_body_visits w fuel s) as (evs & k & parked & T & Hk & Hs & Hp & Hc).
fold points in Hk, Hs, Hp.
assert (St : forall s1 : engine,
          state_of (worker_body w fuel s) = s1 ->
          (parked = true -> k = List.length points /\ _stop_requested s1 = false) /\
          (_stop_requested s1 = true -> parked = false)).
{ intros s1 <-. split; [exact Hp|].
  intros St. destruct parked; [|reflexivity]. destruct (Hp eq_refl). congruence. }
unfold _calibration_worker.
destruct (worker_body w fuel s) as [[] s1|s1|s1]; cbn [state_of] in *;
  destruct (St s1 eq_refl) as [P1 P2].
- exists evs, k, parked.
  split; [exact T|]. split; [exact Hk|]. split; [exact Hs|].
  split; [intros A; now apply ascending_firstn|].
  split; [exact P1|]. split; [exact P2|]. exact Hc.
- exists (evs ++ [Log ERROR "Calibration worker error"; ErrorOccurred]), k, parked.
  split; [cbn; rewrite T; now rewrite <- !app_assoc|]. split; [exact Hk|].
  split; [rewrite setpoints_app; cbn; now rewrite app_nil_r|].
  split; [intros A; now apply ascending_firstn|].
  split; [exact P1|]. split; [exact P2|]. discriminate.
- exists evs, k, parked.
  split; [exact T|]. split; [exact Hk|]. split; [exact Hs|].
  split; [intros A; now apply ascending_firstn|].
  split; [exact P1|]. split; [exact P2|]. discriminate.
Qed.

(** The reply to a read of the process value holding 50.0. *)
Definition reply_50 : list byte :=
[Byte.x01; Byte.x03; Byte.x04; Byte.x42; Byte.x48; Byte.x00; Byte.x00; Byte.x6e; Byte.x5d].

(** A world in which the furnace holds 50.0 for its first 61 exchanges (the
    first point of [bench], with its ten rounds over two channels) and 100.0
    afterwards, and every channel of the multimeter reads 100.0. *)
Definition rig (commands : nat -> list command) : world :=
{| py_float := decimal_float;
   np_sum := Statistics.seq_sum;
   ctl := commands;
   furnace_io := fun n => if (n <? 61)%nat then (50%float, Furnace.Reply reply_50)
                          else (100%float, Furnace.Reply reply_100);
   cropico_io := fun _ => (0%float, Cropico.Response (Some "+100.0"%string));
   clock := fun n => float_of_nat (100 * n);
   collab_raises := fun _ => false |}.

(** [stop_calibration] called before the [k]-th look at the flags. *)
Definition stop_at (k n : nat) : list command := if (n =? k)%nat then [Stop] else [].

(** [bench], started afresh. *)
Definition ready : engine := start_calibration (put_is_running false bench).

Example parse_reply_50 :
  Furnace._parse_float_response serial_furnace reply_50 = Some 50%float.
Proof. vm_compute. reflexivity. Qed.

(** A run left alone goes through both points, in order, and parks. *)
Example complete_run_parks :
  exists s',
    _calibration_worker (rig no_commands) 5 ready = Ok tt s' /\
    setpoints (trace s') = [50; 100; Config.PARKING_TEMPERATURE]%float /\
    _stop_requested s' = false /\ is_running s' = false /\
    existsb (fun e => match e with CalibrationCompleted => true | _ => false end) (trace s')
    = true.
Proof. eexists. split; [vm_compute; reflexivity|]. repeat split; vm_compute; reflexivity. Qed.

(** A stop during the first point: the second point is not visited and the
    furnace is not parked. *)
Example stopped_run_skips_parking :
  exists s',
    _calibration_worker (rig (stop_at 20)) 5 ready = Ok tt s' /\
    setpoints (trace s') = [50]%float /\
    _stop_requested s' = true /\ is_running s' = false /\
    existsb (fun e => match e with CalibrationCompleted => true | _ => false end) (trace s')
    = false.
Proof. eexists. split; [vm_compute; reflexivity|]. repeat split; vm_compute; reflexivity. Qed.

(** A stop after the last point and before the parking test: both points
    were visited, and the furnace is not parked. *)
Example late_stop_skips_parking :
  exists s',
    _calibration_worker (rig (stop_at 86)) 5 ready = Ok tt s' /\
    setpoints (trace s') = [50; 100]%float /\
    _stop_requested s' = true.
Proof. eexists. split; [vm_compute; reflexivity|]. repeat split; vm_compute; reflexivity. Qed.
(* ===================================================================== *)
(** * Part III: the rest of the clients, the statistics and the engine *)
(* ===================================================================== *)

(* --------------------------------------------------------------------- *)
(** ** The furnace client: request frames *)
(* --------------------------------------------------------------------- *)

Lemma pack_B_byte (z : Z) :
  0 <= z < 256 -> exists b, pack_B z = Some [b] /\ byte_val b = z.
Proof.
intros H. unfold pack_B.
replace ((0 <=? z) && (z <? 256)) with true by (symmetry; apply andb_true_iff; lia).
destruct (Byte.of_N (Z.to_N z)) as [b|] eqn:E.
- exists b. split; [reflexivity|]. unfold byte_val.
  rewrite (@Byte.to_of_N _ _ E). lia.
- apply Byte.of_N_None_iff in E. lia.
Qed.

Lemma pack_B_none (z : Z) : ~ 0 <= z < 256 -> pack_B z = None.
Proof.
intros H. unfold pack_B.
replace ((0 <=? z) && (z <? 256)) with false; [reflexivity|].
symmetry. apply andb_false_iff. lia.
Qed.

Lemma pack_H_be_bytes (z : Z) :
  0 <= z < 65536 ->
  exists hi lo, pack_H_be z = Some [hi; lo] /\ byte_val hi = z / 256 /\ byte_val lo = z mod 256.
Proof.
intros H. unfold pack_H_be.
replace ((0 <=? z) && (z <? 65536)) with true by (symmetry; apply andb_true_iff; lia).
rewrite Z.shiftr_div_pow2 by lia. change (2 ^ 8) with 256.
change 255 with (Z.ones 8). rewrite Z.land_ones by lia. change (2 ^ 8) with 256.
destruct (pack_B_byte (z / 256)) as (hi & -> & Hhi).
{ split; [apply Z.div_pos; lia|apply Z.div_lt_upper_bound; lia]. }
destruct (pack_B_byte (z mod 256)) as (lo & -> & Hlo).
{ apply Z.mod_pos_bound. lia. }
exists hi, lo. auto.
Qed.

Lemma pack_H_le_bytes (z : Z) :
  0 <= z < 65536 ->
  exists lo hi, pack_H_le z = Some [lo; hi] /\ byte_val lo = z mod 256 /\ byte_val hi = z / 256.
Proof.
intros H. unfold pack_H_le.
replace ((0 <=? z) && (z <? 65536)) with true by (symmetry; apply andb_true_iff; lia).
rewrite Z.shiftr_div_pow2 by lia. change (2 ^ 8) with 256.
change 255 with (Z.ones 8). rewrite Z.land_ones by lia. change (2 ^ 8) with 256.
destruct (pack_B_byte (z mod 256)) as (lo & -> & Hlo).
{ apply Z.mod_pos_bound. lia. }
destruct (pack_B_byte (z / 256)) as (hi & -> & Hhi).
{ split; [apply Z.div_pos; lia|apply Z.div_lt_upper_bound; lia]. }
exists lo, hi. auto.
Qed.

Lemma pack_H_be_none (z : Z) : ~ 0 <= z < 65536 -> pack_H_be z = None.
Proof.
intros H. unfold pack_H_be.
replace ((0 <=? z) && (z <? 65536)) with false; [reflexivity|].
symmetry. apply andb_false_iff. lia.
Qed.

(** While the low bits of the register are clear, a pass of the inner
    loop is a plain shift. *)
Lemma crc_shifts_clear (k : nat) (x : Z) :
  0 <= x -> x mod 2 ^ Z.of_nat k = 0 ->
  Nat.iter k Furnace.crc_shift x = x / 2 ^ Z.of_nat k.
Proof.
intros Hx. induction k as [|k IH]; intros Hm.
- simpl. now rewrite Z.div_1_r.
- assert (P : 0 < 2 ^ Z.of_nat k) by (apply Z.pow_pos_nonneg; lia).
  assert (E : 2 ^ Z.of_nat (S k) = 2 ^ Z.of_nat k * 2).
  { rewrite Nat2Z.inj_succ, Z.pow_succ_r by lia. lia. }
  rewrite E in Hm.
  assert (Hk : x mod 2 ^ Z.of_nat k = 0).
  { apply Z.mod_divide; [lia|]. apply Z.mod_divide in Hm; [|lia].
    destruct Hm as [q Hq]. exists (q * 2). lia. }
  change (Nat.iter (S k) Furnace.crc_shift x)
    with (Furnace.crc_shift (Nat.iter k Furnace.crc_shift x)).
  rewrite (IH Hk), crc_shift_eq.
  assert (H2 : (x / 2 ^ Z.of_nat k) mod 2 = 0).
  { rewrite Z.rem_mul_r in Hm by lia. rewrite Hk in Hm. nia. }
  rewrite H2. cbn [Z.eqb]. rewrite E, Z.div_div by lia. reflexivity.
Qed.

(** Feeding the register its own low byte, then its own high byte, clears
    it. *)
Lemma crc_own_bytes (c : Z) (lo hi : byte) :
  0 <= c < 65536 -> byte_val lo = c mod 256 -> byte_val hi = c / 256 ->
  Furnace.crc_byte (Furnace.crc_byte c lo) hi = 0.
Proof.
intros Hc Hlo Hhi.
assert (L : Z.lxor c (c mod 256) = 256 * (c / 256)).
{ change 256 with (2 ^ 8). rewrite <- Z.land_ones, <- Z.shiftr_div_pow2, Z.mul_comm,
    <- Z.shiftl_mul_pow2 by lia.
  apply Z.bits_inj'. intros n Hn.
  rewrite Z.lxor_spec, Z.land_spec, Z.testbit_ones_nonneg by lia.
  destruct (Z.ltb_spec n 8).
  - rewrite Z.shiftl_spec_low by lia. rewrite andb_true_r. apply xorb_nilpotent.
  - rewrite Z.shiftl_spec_high, Z.shiftr_spec by lia.
    rewrite andb_false_r, xorb_false_r. f_equal. lia. }
assert (S1 : Furnace.crc_byte c lo = c / 256).
{ unfold Furnace.crc_byte. rewrite Hlo, L.
  rewrite (crc_shifts_clear 8); change (2 ^ Z.of_nat 8) with 256.
  - rewrite Z.mul_comm, Z.div_mul; lia.
  - apply Z.mul_nonneg_nonneg; [lia|apply Z.div_pos; lia].
  - rewrite Z.mul_comm. apply Z.mod_mul. lia. }
rewrite S1. unfold Furnace.crc_byte. rewrite Hhi, Z.lxor_nilpotent. reflexivity.
Qed.

Lemma low_high_bytes (a b : Z) :
  0 <= a < 256 -> (a + 256 * b) mod 256 = a /\ (a + 256 * b) / 256 = b.
Proof.
intros H. rewrite (Z.mul_comm 256 b), Z.mod_add, Z.div_add by lia.
rewrite Z.mod_small, Z.div_small by lia. split; lia.
Qed.

(** X1.  The checksum appended the way the request builders append it
    (low byte first) makes the checksum of the whole frame zero: for every
    payload the trailer exists, has two bytes, and the register ends at 0
    after it. *)
Theorem crc_of_frame_with_trailer_is_zero (data : list byte) :
  exists trailer,
    pack_H_le (Furnace._calculate_crc data) = Some trailer /\
    List.length trailer = 2%nat /\
    unpack_H_le trailer = Some (Furnace._calculate_crc data) /\
    Furnace._calculate_crc (data ++ trailer) = 0.
Proof.
pose proof (calculate_crc_range data) as R.
destruct (pack_H_le_bytes _ R) as (lo & hi & E & Hlo & Hhi).
exists [lo; hi]. split; [exact E|]. split; [reflexivity|]. split.
- cbn [unpack_H_le]. rewrite Hlo, Hhi. f_equal.
  pose proof (Z.div_mod (Furnace._calculate_crc data) 256 ltac:(lia)). lia.
- unfold Furnace._calculate_crc in *. rewrite fold_left_app. cbn [fold_left].
  now apply crc_own_bytes.
Qed.

Lemma trailer_matches_iff_residue_zero (payload : list byte) (lo hi : byte) :
  byte_val lo + 256 * byte_val hi = Furnace._calculate_crc payload <->
  Furnace._calculate_crc (payload ++ [lo; hi]) = 0.
Proof.
pose proof (calculate_crc_range payload) as R.
pose proof (byte_val_range lo) as Rl. pose proof (byte_val_range hi) as Rh.
destruct (low_high_bytes (byte_val lo) (byte_val hi) Rl) as [Lo Hi].
unfold Furnace._calculate_crc in *. rewrite fold_left_app. cbn [fold_left].
generalize dependent (fold_left Furnace.crc_byte payload 65535). intros c R.
split.
- intros E. apply crc_own_bytes; [exact R| |]; rewrite <- E; auto.
- intros E.
  assert (R' : 0 <= byte_val lo + 256 * byte_val hi < 65536) by lia.
  pose proof (crc_own_bytes _ lo hi R' (eq_sym Lo) (eq_sym Hi)) as Z'.
  pose proof (eq_trans E (eq_sym Z')) as E'.
  apply crc_byte_inj_state in E'; auto using crc_byte_range.
  apply crc_byte_inj_state in E'; auto.
Qed.

(** X2.  A valid reply, seen from the other side: the checksum comparison
    of [_parse_float_response] succeeds exactly when the checksum of the
    nine bytes together is zero. *)
Theorem crc_matches_iff_residue_zero (response : list byte) :
  List.length response = 9%nat ->
  (Furnace.crc_matches response = true <-> Furnace._calculate_crc response = 0).
Proof.
intros L.
do 9 (destruct response as [|? response]; [discriminate L|]).
destruct response; [|discriminate L]. clear L.
unfold Furnace.crc_matches.
change (slice 7 9 [b; b0; b1; b2; b3; b4; b5; b6; b7]) with [b6; b7].
change (slice 0 7 [b; b0; b1; b2; b3; b4; b5; b6; b7]) with [b; b0; b1; b2; b3; b4; b5].
cbn [unpack_H_le]. rewrite Z.eqb_eq.
apply (trailer_matches_iff_residue_zero [b; b0; b1; b2; b3; b4; b5] b6 b7).
Qed.

Lemma crc_matches_iff_residue_zero_witness :
  Furnace.crc_matches reply_100 = true <-> Furnace._calculate_crc reply_100 = 0.
Proof. apply (crc_matches_iff_residue_zero reply_100). reflexivity. Defined.

(* --------------------------------------------------------------------- *)
(** ** The furnace client: writing the setpoint *)
(* --------------------------------------------------------------------- *)

(** [struct.pack('>H', l)] read back: [struct.unpack('>H', l)[0]]. *)
Definition unpack_H_be (l : list byte) : option Z :=
match l with
| [hi; lo] => Some (256 * byte_val hi + byte_val lo)
| _ => None
end.

(** The binary32 nearest to a binary64 (ties to even), as the C cast
    [(float)x] that [struct.pack] makes computes it. *)
Definition binary32_of (x : float) : spec_float :=
match Prim2SF x with
| S754_finite s m e => binary_round 24 128 s m e
| sf => sf
end.

(** The bit pattern of [struct.pack('>f', x)]; [None] is [OverflowError]
    (a finite [x] whose binary32 is an infinity).  NaN is packed as the
    quiet NaN with a clear sign bit. *)
Definition bits32_of_float (x : float) : option Z :=
let sign (s : bool) := if s then 2147483648 else 0 in
match Prim2SF x, binary32_of x with
| S754_finite _ _ _, S754_infinity _ => None
| _, S754_zero s => Some (sign s)
| _, S754_infinity s => Some (sign s + 2139095040)
| _, S754_nan => Some 2143289344
| _, S754_finite s m e =>
    Some (sign s +
          (if Z.pos m <? 8388608 then Z.pos m
           else (e + 150) * 8388608 + (Z.pos m - 8388608)))
end.

(** [struct.pack('>f', x)]. *)
Definition pack_f_be (x : float) : option (list byte) :=
match bits32_of_float x with
| Some w =>
    match pack_H_be (w / 65536), pack_H_be (w mod 65536) with
    | Some hi, Some lo => Some (hi ++ lo)
    | _, _ => None
    end
| None => None
end.

Module FurnaceWrite.
Import Config Furnace.

(** [_build_write_request]; [None] is an exception of [struct.pack]. *)
Definition _build_write_request (d : device) (address : Z) (value : float)
  : option (list byte) :=
match pack_f_be value with
| Some float_bytes =>
    match unpack_H_be (slice 0 2 float_bytes), unpack_H_be (slice 2 4 float_bytes) with
    | Some reg_high, Some reg_low =>
        match pack_B (slave_id d), pack_B MODBUS_WRITE_MULTIPLE, pack_H_be address,
              pack_H_be 2, pack_B 4, pack_H_be reg_high, pack_H_be reg_low with
        | Some a, Some b, Some c, Some n, Some k, Some h, Some l =>
            let frame := a ++ b ++ c ++ n ++ k ++ h ++ l in
            match pack_H_le (_calculate_crc frame) with
            | Some trailer => Some (frame ++ trailer)
            | None => None
            end
        | _, _, _, _, _, _, _ => None
        end
    | _, _ => None
    end
| None => None
end.

(** What [set_setpoint] writes to the port, if it gets that far: the
    request is built first, and [self.ser.reset_input_buffer()] raises
    when there is no port object. *)
Definition written (d : device) (temperature : float) : option (list byte) :=
if use_simulator d then None
else if negb (connected d) then None
else match _build_write_request d FURNACE_SP_ADDRESS temperature with
     | Some request => if has_ser d then Some request else None
     | None => None
     end.

(** [set_setpoint].  [x] is the serial exchange ([ser.read(8)], or an
    exception of the port), looked at only when a request was written. *)
Definition set_setpoint (d : device) (temperature : float) (x : exchange) : bool :=
if use_simulator d then true
else if negb (connected d) then false
else match written d temperature with
     | None => false
     | Some _ =>
         match x with
         | PortError => false
         | Reply response =>
             if (8 <=? List.length response)%nat then
               byte_val (nth 1 response Byte.x00) =? MODBUS_WRITE_MULTIPLE
             else false
         end
     end.

End FurnaceWrite.

Example pack_100 :
  pack_f_be 100%float = Some [Byte.x42; Byte.xc8; Byte.x00; Byte.x00] /\
  pack_f_be (-0.5)%float = Some [Byte.xbf; Byte.x00; Byte.x00; Byte.x00] /\
  pack_f_be 1e39%float = None /\
  pack_f_be infinity = Some [Byte.x7f; Byte.x80; Byte.x00; Byte.x00] /\
  pack_f_be 1e-45%float = Some [Byte.x00; Byte.x00; Byte.x00; Byte.x01] /\
  pack_f_be 0.1%float = Some [Byte.x3d; Byte.xcc; Byte.xcc; Byte.xcd].
Proof. repeat split; vm_compute; reflexivity. Qed.

Example write_request_100 :
  FurnaceWrite._build_write_request serial_furnace Config.FURNACE_SP_ADDRESS 100%float
  = Some [Byte.x01; Byte.x10; Byte.x80; Byte.x04; Byte.x00; Byte.x02; Byte.x04;
          Byte.x42; Byte.xc8; Byte.x00; Byte.x00; Byte.x06; Byte.x1c].
Proof. vm_compute. reflexivity. Qed.

Lemma pack_H_be_some (z : Z) (l : list byte) :
  pack_H_be z = Some l ->
  exists hi lo, l = [hi; lo] /\ z = 256 * byte_val hi + byte_val lo /\ 0 <= z < 65536.
Proof.
intros E.
destruct (Z_lt_dec z 0) as [N|N]; [rewrite pack_H_be_none in E by lia; discriminate|].
destruct (Z_lt_dec z 65536) as [U|U]; [|rewrite pack_H_be_none in E by lia; discriminate].
destruct (pack_H_be_bytes z ltac:(lia)) as (hi & lo & E' & Hhi & Hlo).
rewrite E' in E. injection E as <-. exists hi, lo.
pose proof (Z.div_mod z 256 ltac:(lia)). repeat split; lia.
Qed.

Lemma pack_unpack_H_be (hi lo : byte) :
  pack_H_be (256 * byte_val hi + byte_val lo) = Some [hi; lo].
Proof.
pose proof (byte_val_range hi) as Rh. pose proof (byte_val_range lo) as Rl.
destruct (pack_H_be_bytes (256 * byte_val hi + byte_val lo) ltac:(lia))
  as (hi' & lo' & E & Hhi & Hlo).
rewrite E. rewrite Z.add_comm in Hhi, Hlo.
destruct (low_high_bytes (byte_val lo) (byte_val hi) Rl) as [Lo Hi].
rewrite Hi in Hhi. rewrite Lo in Hlo.
now rewrite (byte_val_inj _ _ Hhi), (byte_val_inj _ _ Hlo).
Qed.

Lemma pack_f_be_four (x : float) (l : list byte) :
  pack_f_be x = Some l -> exists b0 b1 b2 b3, l = [b0; b1; b2; b3].
Proof.
unfold pack_f_be. destruct (bits32_of_float x) as [w|]; [|discriminate].
destruct (pack_H_be (w / 65536)) as [hi|] eqn:Eh; [|discriminate].
destruct (pack_H_be (w mod 65536)) as [lo|] eqn:El; [|discriminate].
intros E. injection E as <-.
destruct (pack_H_be_some _ _ Eh) as (b0 & b1 & -> & _).
destruct (pack_H_be_some _ _ El) as (b2 & b3 & -> & _).
now exists b0, b1, b2, b3.
Qed.

(** The frame of a read request for a slave id and operands that fit
    their fields; shared by the properties of [_build_read_request]. *)
Lemma build_read_request_bytes (d : Furnace.device) (address count : Z) :
  0 <= Furnace.slave_id d < 256 -> 0 <= address < 65536 -> 0 <= count < 65536 ->
  exists s f a1 a0 c1 c0 lo hi,
    Furnace._build_read_request d address count = Some [s; f; a1; a0; c1; c0; lo; hi] /\
    map byte_val [s; f; a1; a0; c1; c0]
    = [Furnace.slave_id d; Config.MODBUS_READ_HOLDING; address / 256; address mod 256;
       count / 256; count mod 256] /\
    byte_val lo + 256 * byte_val hi = Furnace._calculate_crc [s; f; a1; a0; c1; c0].
Proof.
intros Hs Ha Hc. unfold Furnace._build_read_request.
destruct (pack_B_byte _ Hs) as (s & -> & Es).
destruct (pack_B_byte Config.MODBUS_READ_HOLDING ltac:(unfold Config.MODBUS_READ_HOLDING; lia))
  as (f & -> & Ef).
destruct (pack_H_be_bytes _ Ha) as (a1 & a0 & -> & Ea1 & Ea0).
destruct (pack_H_be_bytes _ Hc) as (c1 & c0 & -> & Ec1 & Ec0).
cbn [app].
pose proof (calculate_crc_range [s; f; a1; a0; c1; c0]) as R.
destruct (pack_H_le_bytes _ R) as (lo & hi & -> & Hlo & Hhi).
exists s, f, a1, a0, c1, c0, lo, hi. split; [reflexivity|]. split.
- cbn [map]. now rewrite Es, Ef, Ea1, Ea0, Ec1, Ec0.
- rewrite Hlo, Hhi.
  pose proof (Z.div_mod (Furnace._calculate_crc [s; f; a1; a0; c1; c0]) 256 ltac:(lia)). lia.
Qed.

(** X3.  [_build_read_request] builds a Modbus frame exactly when the
    slave id fits a byte and the address and the count fit sixteen bits
    (otherwise [struct.pack] raises): eight bytes, namely the slave id, the
    function code 0x03, the address and the count high byte first, and the
    checksum of these six bytes low byte first, so that the checksum of the
    whole frame is zero. *)
Theorem build_read_request_frame (d : Furnace.device) (address count : Z) :
  (0 <= Furnace.slave_id d < 256 /\ 0 <= address < 65536 /\ 0 <= count < 65536 ->
   exists frame,
     Furnace._build_read_request d address count = Some frame /\
     List.length frame = 8%nat /\
     map byte_val (firstn 6 frame)
     = [Furnace.slave_id d; 3; address / 256; address mod 256; count / 256; count mod 256] /\
     unpack_H_le (skipn 6 frame) = Some (Furnace._calculate_crc (firstn 6 frame)) /\
     Furnace._calculate_crc frame = 0) /\
  (~ (0 <= Furnace.slave_id d < 256 /\ 0 <= address < 65536 /\ 0 <= count < 65536) ->
   Furnace._build_read_request d address count = None).
Proof.
split.
- intros (Hs & Ha & Hc).
  destruct (build_read_request_bytes d address count Hs Ha Hc)
    as (s & f & a1 & a0 & c1 & c0 & lo & hi & E & Hm & Ht).
  exists [s; f; a1; a0; c1; c0; lo; hi]. split; [exact E|]. split; [reflexivity|].
  split; [exact Hm|]. split.
  + cbn [skipn firstn unpack_H_le]. now rewrite Ht.
  + now apply (trailer_matches_iff_residue_zero [s; f; a1; a0; c1; c0] lo hi).
- intros N. unfold Furnace._build_read_request.
  destruct (Z_lt_dec (Furnace.slave_id d) 0);
    [rewrite (pack_B_none (Furnace.slave_id d)) by lia; reflexivity|].
  destruct (Z_lt_dec (Furnace.slave_id d) 256);
    [|rewrite (pack_B_none (Furnace.slave_id d)) by lia; reflexivity].
  destruct (pack_B (Furnace.slave_id d)); [|reflexivity].
  destruct (pack_B Config.MODBUS_READ_HOLDING); [|reflexivity].
  destruct (Z_lt_dec address 0);
    [rewrite (pack_H_be_none address) by lia; reflexivity|].
  destruct (Z_lt_dec address 65536);
    [|rewrite (pack_H_be_none address) by lia; reflexivity].
  destruct (pack_H_be address); [|reflexivity].
  rewrite (pack_H_be_none count) by lia. reflexivity.
Qed.

Example read_request_pv :
  Furnace._build_read_request serial_furnace Config.FURNACE_PV_ADDRESS 2
  = Some [Byte.x01; Byte.x03; Byte.x80; Byte.x02; Byte.x00; Byte.x02; Byte.x4c; Byte.x0b].
Proof. vm_compute. reflexivity. Qed.

(** X4.  For a slave id and an address that fit their fields and a value
    [struct.pack] can pack, [_build_write_request] builds the thirteen-byte
    frame of "write multiple registers": slave id, function code 0x10, the
    address, a register count of 2 and a byte count of 4, then the four
    bytes of the binary32 value, then the checksum low byte first (the
    checksum of the whole frame is zero). *)
Theorem build_write_request_frame (d : Furnace.device) (address : Z) (value : float)
  (regs : list byte) :
  0 <= Furnace.slave_id d < 256 -> 0 <= address < 65536 ->
  pack_f_be value = Some regs ->
  exists frame,
    FurnaceWrite._build_write_request d address value = Some frame /\
    List.length frame = 13%nat /\
    map byte_val (firstn 7 frame)
    = [Furnace.slave_id d; 16; address / 256; address mod 256; 0; 2; 4] /\
    slice 7 11 frame = regs /\
    unpack_H_le (skipn 11 frame) = Some (Furnace._calculate_crc (firstn 11 frame)) /\
    Furnace._calculate_crc frame = 0.
Proof.
intros Hs Ha Hp. unfold FurnaceWrite._build_write_request. rewrite Hp.
destruct (pack_f_be_four _ _ Hp) as (b0 & b1 & b2 & b3 & ->).
cbn [slice skipn firstn Nat.sub unpack_H_be].
rewrite !pack_unpack_H_be.
destruct (pack_B_byte _ Hs) as (s & -> & Es).
destruct (pack_B_byte Config.MODBUS_WRITE_MULTIPLE
            ltac:(unfold Config.MODBUS_WRITE_MULTIPLE; lia)) as (f & -> & Ef).
destruct (pack_H_be_bytes _ Ha) as (a1 & a0 & -> & Ea1 & Ea0).
destruct (pack_H_be_bytes 2 ltac:(lia)) as (n1 & n0 & -> & En1 & En0).
destruct (pack_B_byte 4 ltac:(lia)) as (k & -> & Ek).
cbn [app].
set (body := [s; f; a1; a0; n1; n0; k; b0; b1; b2; b3]).
pose proof (calculate_crc_range body) as R.
destruct (pack_H_le_bytes _ R) as (lo & hi & -> & Hlo & Hhi).
assert (Ht : byte_val lo + 256 * byte_val hi = Furnace._calculate_crc body).
{ rewrite Hlo, Hhi. pose proof (Z.div_mod (Furnace._calculate_crc body) 256 ltac:(lia)). lia. }
exists (body ++ [lo; hi]). split; [reflexivity|]. split; [reflexivity|]. split.
- cbn [body app firstn map]. now rewrite Es, Ef, Ea1, Ea0, En1, En0, Ek.
- split; [reflexivity|]. split.
  + subst body. cbn [app skipn firstn unpack_H_le]. now rewrite Ht.
  + now apply (trailer_matches_iff_residue_zero body lo hi).
Qed.

Lemma build_write_request_frame_witness :
  exists frame,
    FurnaceWrite._build_write_request serial_furnace Config.FURNACE_SP_ADDRESS 100%float
    = Some frame /\
    List.length frame = 13%nat /\
    map byte_val (firstn 7 frame) = [1; 16; 32772 / 256; 32772 mod 256; 0; 2; 4] /\
    slice 7 11 frame = [Byte.x42; Byte.xc8; Byte.x00; Byte.x00] /\
    unpack_H_le (skipn 11 frame) = Some (Furnace._calculate_crc (firstn 11 frame)) /\
    Furnace._calculate_crc frame = 0.
Proof.
apply (build_write_request_frame serial_furnace Config.FURNACE_SP_ADDRESS 100%float
         [Byte.x42; Byte.xc8; Byte.x00; Byte.x00]).
- vm_compute. split; [discriminate|reflexivity].
- vm_compute. split; [discriminate|reflexivity].
- vm_compute. reflexivity.
Defined.

Lemma corrupt_length (i : nat) (b' : byte) (response : list byte) :
  List.length (Furnace.corrupt i b' response) = List.length response.
Proof.
revert i. induction response as [|b rest IH]; intros [|i]; simpl; auto.
Qed.

Lemma corrupt_nth_other (i j : nat) (b' : byte) (response : list byte) :
  i <> j -> nth j (Furnace.corrupt i b' response) Byte.x00 = nth j response Byte.x00.
Proof.
revert i j. induction response as [|b rest IH]; intros [|i] [|j] N; simpl; auto.
- congruence.
Qed.

(** X5.  [set_setpoint] looks at the length of the reply and at its
    function code only: neither the slave id nor the checksum of a write
    reply is validated, so the outcome is the same when any byte other
    than the function code arrives corrupted. *)
Theorem set_setpoint_reply_unvalidated (d : Furnace.device) (temperature : float)
  (response : list byte) (i : nat) (b' : byte) :
  i <> 1%nat ->
  FurnaceWrite.set_setpoint d temperature (Furnace.Reply (Furnace.corrupt i b' response))
  = FurnaceWrite.set_setpoint d temperature (Furnace.Reply response).
Proof.
intros N. unfold FurnaceWrite.set_setpoint.
now rewrite corrupt_length, (corrupt_nth_other i 1 b' response N).
Qed.

(** The reply to the write of the setpoint 100.0, and the same with a
    wrong checksum and the id of another slave. *)
Definition write_reply : list byte :=
[Byte.x01; Byte.x10; Byte.x80; Byte.x04; Byte.x00; Byte.x02; Byte.x29; Byte.xc9].

Lemma set_setpoint_reply_unvalidated_witness :
  FurnaceWrite.set_setpoint serial_furnace 100%float
    (Furnace.Reply (Furnace.corrupt 7 Byte.x00 write_reply))
  = FurnaceWrite.set_setpoint serial_furnace 100%float (Furnace.Reply write_reply).
Proof.
apply (set_setpoint_reply_unvalidated serial_furnace 100%float write_reply 7 Byte.x00).
discriminate.
Defined.

Example set_setpoint_examples :
  FurnaceWrite.set_setpoint serial_furnace 100%float (Furnace.Reply write_reply) = true /\
  FurnaceWrite.set_setpoint serial_furnace 100%float
    (Furnace.Reply [Byte.x07; Byte.x10; Byte.x00; Byte.x00; Byte.x00; Byte.x00; Byte.x00;
                    Byte.x00]) = true /\
  FurnaceWrite.set_setpoint serial_furnace 100%float
    (Furnace.Reply [Byte.x01; Byte.x90; Byte.x02; Byte.xcd; Byte.xc1]) = false /\
  FurnaceWrite.set_setpoint serial_furnace 100%float (Furnace.Reply []) = false /\
  FurnaceWrite.set_setpoint serial_furnace 100%float Furnace.PortError = false.
Proof. repeat split; vm_compute; reflexivity. Qed.

(** X6.  A setpoint that [struct.pack] cannot pack as a binary32 (a finite
    value that rounds to an infinity) makes [_build_write_request] raise:
    the client on a serial port then writes nothing and reports failure,
    whatever the port would have answered. *)
Theorem set_setpoint_unpackable (d : Furnace.device) (temperature : float)
  (x : Furnace.exchange) :
  pack_f_be temperature = None ->
  FurnaceWrite._build_write_request d Config.FURNACE_SP_ADDRESS temperature = None /\
  FurnaceWrite.written d temperature = None /\
  FurnaceWrite.set_setpoint d temperature x = Furnace.use_simulator d.
Proof.
intros H.
assert (B : FurnaceWrite._build_write_request d Config.FURNACE_SP_ADDRESS temperature = None).
{ unfold FurnaceWrite._build_write_request. now rewrite H. }
assert (W : FurnaceWrite.written d temperature = None).
{ unfold FurnaceWrite.written. rewrite B.
  destruct (Furnace.use_simulator d), (Furnace.connected d); reflexivity. }
split; [exact B|]. split; [exact W|].
unfold FurnaceWrite.set_setpoint. rewrite W.
destruct (Furnace.use_simulator d), (Furnace.connected d); reflexivity.
Qed.

Lemma set_setpoint_unpackable_witness :
  FurnaceWrite._build_write_request serial_furnace Config.FURNACE_SP_ADDRESS 1e39%float
  = None /\
  FurnaceWrite.written serial_furnace 1e39%float = None /\
  FurnaceWrite.set_setpoint serial_furnace 1e39%float (Furnace.Reply write_reply)
  = Furnace.use_simulator serial_furnace.
Proof.
apply (set_setpoint_unpackable serial_furnace 1e39%float (Furnace.Reply write_reply)).
vm_compute. reflexivity.
Defined.

(** Whether the setpoint [t], written and then reported back by the
    furnace in a read reply carrying the registers of the write request,
    is read as [t]. *)
Definition reads_back (d : Furnace.device) (t : float) : bool :=
match FurnaceWrite._build_write_request d Config.FURNACE_SP_ADDRESS t with
| Some frame =>
    let body := [Byte.x01; Byte.x03; Byte.x04] ++ slice 7 11 frame in
    match pack_H_le (Furnace._calculate_crc body) with
    | Some trailer =>
        match Furnace.read_setpoint d 0%float (Furnace.Reply (body ++ trailer)) with
        | (true, v) => PrimFloat.Leibniz.eqb v t
        | (false, _) => false
        end
    | None => false
    end
| None => false
end.

(** The setpoints of the rig: every quarter of a degree from 0 to 2000. *)
Definition quarter_degrees (n : Z) : float := (float_of_Z n / 4)%float.

Lemma quarter_degrees_read_back :
  forallb (fun n => reads_back serial_furnace (quarter_degrees (Z.of_nat n)))
          (seq 0 (Z.to_nat 8001)) = true.
Proof. vm_compute. reflexivity. Qed.

(** X7.  Round trip of the setpoint through the two frame formats: for
    every setpoint that is a whole number of quarter degrees between 0 and
    2000, the registers [set_setpoint] writes, sent back by the furnace in
    a read reply, are decoded by [read_setpoint] to the very value written. *)
Theorem setpoint_round_trip (n : Z) :
  0 <= n <= 8000 ->
  exists frame trailer,
    FurnaceWrite.written serial_furnace (quarter_degrees n) = Some frame /\
    pack_H_le (Furnace._calculate_crc ([Byte.x01; Byte.x03; Byte.x04] ++ slice 7 11 frame))
    = Some trailer /\
    Furnace.read_setpoint serial_furnace 0%float
      (Furnace.Reply ([Byte.x01; Byte.x03; Byte.x04] ++ slice 7 11 frame ++ trailer))
    = (true, quarter_degrees n).
Proof.
intros H.
pose proof (proj1 (forallb_forall _ _) quarter_degrees_read_back (Z.to_nat n)) as R.
cbv beta in R. rewrite Z2Nat.id in R by lia. specialize (R ltac:(apply in_seq; lia)).
unfold reads_back in R. unfold FurnaceWrite.written.
change (Furnace.use_simulator serial_furnace) with false.
change (Furnace.connected serial_furnace) with true.
change (Furnace.has_ser serial_furnace) with true.
cbn [negb].
destruct (FurnaceWrite._build_write_request serial_furnace Config.FURNACE_SP_ADDRESS
            (quarter_degrees n)) as [frame|]; [|discriminate].
destruct (pack_H_le _) as [trailer|] eqn:E; [|discriminate].
exists frame, trailer. split; [reflexivity|]. split; [exact E|].
rewrite <- app_assoc in R.
destruct (Furnace.read_setpoint _ _ _) as [[|] v]; [|discriminate].
apply FloatAxioms.Leibniz.eqb_spec in R. now subst v.
Qed.

Lemma setpoint_round_trip_witness :
  exists frame trailer,
    FurnaceWrite.written serial_furnace (quarter_degrees 401) = Some frame /\
    pack_H_le (Furnace._calculate_crc ([Byte.x01; Byte.x03; Byte.x04] ++ slice 7 11 frame))
    = Some trailer /\
    Furnace.read_setpoint serial_furnace 0%float
      (Furnace.Reply ([Byte.x01; Byte.x03; Byte.x04] ++ slice 7 11 frame ++ trailer))
    = (true, quarter_degrees 401).
Proof. apply (setpoint_round_trip 401). lia. Defined.

(* --------------------------------------------------------------------- *)
(** ** The multimeter client: what the numeric pattern matches *)
(* --------------------------------------------------------------------- *)

Local Open Scope string_scope.

Fixpoint all_digits (s : string) : bool :=
match s with
| String c s' => is_digit c && all_digits s'
| EmptyString => true
end.

(** Whether [s] starts with a decimal digit. *)
Definition digit_first (s : string) : bool :=
match s with
| String c _ => is_digit c
| EmptyString => false
end.

(** The texts Python's [float] reads as a plain decimal literal: an
    optional sign, one digit or more, and optionally a point followed by
    any number of digits. *)
Definition decimal_literal (tok : string) : Prop :=
exists sign ds frac,
  tok = sign ++ ds ++ frac /\
  (sign = "" \/ sign = "+" \/ sign = "-") /\
  ds <> "" /\ all_digits ds = true /\
  (frac = "" \/ exists fs, frac = "." ++ fs /\ all_digits fs = true).

Lemma string_app_assoc (a b c : string) : (a ++ b) ++ c = a ++ b ++ c.
Proof. induction a as [|x a IH]; simpl; [reflexivity|now rewrite IH]. Qed.

Lemma string_app_nil_r (a : string) : a ++ "" = a.
Proof. induction a as [|x a IH]; simpl; [reflexivity|now rewrite IH]. Qed.

Lemma take_digits_split (s : string) :
  s = fst (take_digits s) ++ snd (take_digits s) /\
  all_digits (fst (take_digits s)) = true /\
  digit_first (snd (take_digits s)) = false /\
  (fst (take_digits s) = "" <-> digit_first s = false).
Proof.
induction s as [|c s (IH1 & IH2 & IH3 & IH4)]; simpl.
- repeat split; auto.
- destruct (is_digit c) eqn:D.
  + destruct (take_digits s) as [ds rest]. simpl in *.
    rewrite D. repeat split; auto; try congruence; discriminate.
  + simpl. rewrite D. repeat split; auto.
Qed.

Lemma take_digits_app (ds rest : string) :
  all_digits ds = true -> digit_first rest = false -> take_digits (ds ++ rest) = (ds, rest).
Proof.
intros H R. induction ds as [|c ds IH]; simpl.
- destruct rest as [|c r]; [reflexivity|]. simpl in *. now rewrite R.
- simpl in H. apply andb_true_iff in H. destruct H as [Hc Hd].
  rewrite Hc, (IH Hd). reflexivity.
Qed.

(** The unsigned part of the pattern at the start of a text. *)
Lemma number_at_some (s tok : string) :
  number_at s = Some tok ->
  exists ds frac rest,
    s = ds ++ frac ++ rest /\ tok = ds ++ frac /\ ds <> "" /\ all_digits ds = true /\
    (frac = "" \/ exists fs, frac = "." ++ fs /\ all_digits fs = true).
Proof.
unfold number_at.
destruct (take_digits_split s) as (S1 & S2 & S3 & S4).
destruct (take_digits s) as [ds rest]. cbn [fst snd] in *.
destruct ds as [|d ds]; [discriminate|].
assert (N : String d ds <> "") by discriminate.
assert (Plain : Some (String d ds) = Some tok ->
        exists ds0 frac rest0,
          s = ds0 ++ frac ++ rest0 /\ tok = ds0 ++ frac /\ ds0 <> "" /\
          all_digits ds0 = true /\
          (frac = "" \/ exists fs, frac = "." ++ fs /\ all_digits fs = true)).
{ intros E. injection E as <-. exists (String d ds), "", rest.
  split; [exact S1|]. split; [now rewrite string_app_nil_r|]. auto. }
destruct rest as [|c rest]; [exact Plain|].
destruct (Ascii.eqb_spec c ".") as [->|Nc].
- destruct (take_digits_split rest) as (F1 & F2 & _ & _).
  destruct (take_digits rest) as [fs rest']. cbn [fst snd] in *.
  intros E. injection E as <-.
  exists (String d ds), ("." ++ fs), rest'.
  split; [|split; [reflexivity|split; [exact N|split; [exact S2|]]]].
  + rewrite S1, F1. cbn [append]. reflexivity.
  + right. now exists fs.
- destruct c as [[] [] [] [] [] [] [] []]; try exact Plain.
  now contradiction Nc.
Qed.

Lemma number_at_digit (c : ascii) (s : string) :
  is_digit c = true -> number_at (String c s) <> None.
Proof.
intros D. unfold number_at. simpl. rewrite D.
destruct (take_digits s) as [ds rest].
destruct rest as [|x rest]; [discriminate|].
destruct x as [[] [] [] [] [] [] [] []]; try discriminate.
now destruct (take_digits rest).
Qed.

Lemma match_at_some (s tok : string) :
  match_at s = Some tok -> decimal_literal tok /\ exists post, s = tok ++ post.
Proof.
assert (U : forall t sign rest0,
          (sign = "" \/ sign = "+" \/ sign = "-") ->
          number_at rest0 = Some t ->
          decimal_literal (sign ++ t) /\ exists post, sign ++ rest0 = (sign ++ t) ++ post).
{ intros t sign rest0 Hs E.
  destruct (number_at_some _ _ E) as (ds & frac & rest & -> & -> & N & D & F).
  split.
  - exists sign, ds, frac. auto.
  - exists rest. now rewrite !string_app_assoc. }
destruct s as [|c s]; [discriminate|]. cbn [match_at].
destruct (is_sign c) eqn:Sg.
- destruct (number_at s) as [t|] eqn:E.
  + intros E'. injection E' as <-.
    assert (Hs : String c "" = "" \/ String c "" = "+" \/ String c "" = "-").
    { unfold is_sign in Sg. apply orb_true_iff in Sg.
      destruct Sg as [Sg|Sg]; apply Ascii.eqb_eq in Sg; subst; auto. }
    apply (U t (String c "") s Hs E).
  + intros E'. apply (U tok "" (String c s) (or_introl eq_refl) E').
- intros E'. apply (U tok "" (String c s) (or_introl eq_refl) E').
Qed.

Lemma sign_not_digit (c : ascii) : is_sign c = true -> is_digit c = false.
Proof.
unfold is_sign. intros H. apply orb_true_iff in H.
destruct H as [H|H]; apply Ascii.eqb_eq in H; subst; reflexivity.
Qed.

Lemma match_at_digit (c : ascii) (s : string) :
  is_digit c = true -> match_at (String c s) <> None.
Proof.
intros D. cbn [match_at].
destruct (is_sign c) eqn:Sg; [rewrite (sign_not_digit _ Sg) in D; discriminate|].
now apply number_at_digit.
Qed.

(** X8.  What [re.search] returns for the numeric pattern of
    [read_temperature] and [get_raw_value]: a match exactly when the reply
    holds a decimal digit, and the matched group is then a piece of the
    reply that is a plain decimal literal (optional sign, digits, optional
    point and digits), so that [float(match.group(1))] cannot raise. *)
Theorem re_search_token (s : string) :
  match re_search s with
  | Some tok =>
      has_digit s = true /\ decimal_literal tok /\ exists pre post, s = pre ++ tok ++ post
  | None => has_digit s = false
  end.
Proof.
induction s as [|c s IH].
- reflexivity.
- cbn [re_search]. destruct (match_at (String c s)) as [tok|] eqn:E.
  + destruct (match_at_some _ _ E) as [L [post P]].
    split; [|split; [exact L|exists "", post; exact P]].
    destruct (has_digit (String c s)) eqn:H; [reflexivity|].
    now rewrite (match_at_no_digit _ H) in E.
  + assert (D : is_digit c = false).
    { destruct (is_digit c) eqn:D; [|reflexivity].
      now destruct (match_at_digit c s D). }
    cbn [has_digit]. rewrite D. cbn [orb].
    destruct (re_search s) as [tok|]; [|exact IH].
    destruct IH as (H & L & pre & post & P).
    split; [exact H|]. split; [exact L|].
    exists (String c pre), post. simpl. now rewrite P.
Qed.

Lemma number_at_prefix (ds frac rest : string) :
  ds <> "" -> all_digits ds = true ->
  (frac = "" /\ digit_first rest = false /\ (forall r, rest <> String "." r)
   \/ exists fs, frac = "." ++ fs /\ all_digits fs = true /\ digit_first rest = false) ->
  number_at (ds ++ frac ++ rest) = Some (ds ++ frac).
Proof.
intros N D [(-> & R & P)|(fs & -> & F & R)]; unfold number_at.
- simpl. rewrite (take_digits_app ds rest D R), string_app_nil_r.
  destruct ds as [|d ds]; [contradiction|].
  destruct rest as [|c rest]; [reflexivity|].
  destruct c as [[] [] [] [] [] [] [] []]; try reflexivity.
  now destruct (P rest).
- rewrite (take_digits_app ds (("." ++ fs) ++ rest) D eq_refl).
  destruct ds as [|d ds]; [contradiction|].
  simpl. now rewrite (take_digits_app fs rest F R).
Qed.

(** X9.  The pattern has no exponent part: of a reply that starts with a
    decimal number followed by anything that is not a digit (an exponent
    marker, a unit), [get_raw_value] returns the number in front, and so
    does [read_temperature] when that number is in range.  A reply in
    scientific notation is read as its mantissa. *)
Theorem reply_read_up_to_first_non_digit (py_float : string -> float)
  (d : Cropico.device) (sim : float) (ds fs rest : string) :
  Cropico.use_simulator d = false -> Cropico.connected d = true ->
  ds <> "" -> all_digits ds = true -> all_digits fs = true -> digit_first rest = false ->
  let response := ds ++ "." ++ fs ++ rest in
  let value := py_float (ds ++ "." ++ fs) in
  Cropico.get_raw_value py_float d sim (Cropico.Response (Some response)) = (true, value) /\
  Cropico.read_temperature py_float d sim (Cropico.Response (Some response))
  = if ((-200) <=? value)%float && (value <=? 2000)%float then (true, value)
    else (false, 0%float).
Proof.
intros Hs Hc N D F R response value.
assert (E : re_search response = Some (ds ++ "." ++ fs)).
{ unfold response. destruct ds as [|c ds]; [contradiction|].
  pose proof (number_at_prefix (String c ds) ("." ++ fs) rest N D
                (or_intror (ex_intro _ fs (conj eq_refl (conj F R))))) as P.
  simpl in D. apply andb_true_iff in D. destruct D as [Dc Dd].
  assert (Sg : is_sign c = false).
  { destruct (is_sign c) eqn:Sg; [|reflexivity].
    rewrite (sign_not_digit _ Sg) in Dc. discriminate. }
  cbn [append] in P. cbn [append re_search match_at]. rewrite Sg, P. reflexivity. }
assert (T : Cropico.truthy (Some response) = Some response).
{ unfold response. destruct ds; [contradiction|reflexivity]. }
unfold Cropico.get_raw_value, Cropico.read_temperature.
rewrite Hs, Hc, T, E. auto.
Qed.

Lemma reply_read_up_to_first_non_digit_witness :
  Cropico.get_raw_value decimal_float serial_cropico 0%float
    (Cropico.Response (Some "1.25E+02")) = (true, decimal_float "1.25") /\
  Cropico.read_temperature decimal_float serial_cropico 0%float
    (Cropico.Response (Some "1.25E+02"))
  = if ((-200) <=? decimal_float "1.25")%float && (decimal_float "1.25" <=? 2000)%float
    then (true, decimal_float "1.25") else (false, 0%float).
Proof.
apply (reply_read_up_to_first_non_digit decimal_float serial_cropico 0%float
         "1" "25" "E+02"); try reflexivity.
discriminate.
Defined.

Lemma leb_not_nan_l (x y : float) : (x <=? y)%float = true -> is_nan x = false.
Proof.
rewrite leb_spec. unfold is_nan. rewrite eqb_spec. unfold SFleb, SFeqb.
destruct (Prim2SF x) as [s|s| |s m e]; try (destruct s; reflexivity).
- discriminate.
- intros _. unfold SFcompare. rewrite Z.compare_refl.
  change (Pos.compare_cont Eq m m) with (m ?= m)%positive.
  rewrite Pos.compare_refl. now destruct s.
Qed.

Lemma leb_below_infinity (x y : float) :
  (x <=? y)%float = true -> (y <? infinity)%float = true -> (x =? infinity)%float = false.
Proof.
rewrite leb_spec, ltb_spec, eqb_spec.
change (Prim2SF infinity) with (S754_infinity false).
unfold SFleb, SFltb, SFeqb.
destruct (Prim2SF x) as [sx|sx| |sx mx ex], (Prim2SF y) as [sy|sy| |sy my ey];
  try destruct sx; try destruct sy; simpl; congruence.
Qed.

(** X10.  On a serial transport a successful [read_temperature] carries
    a value between -200 and 2000 (so neither a NaN nor an infinity), and a
    failed one carries 0.0 or the overflow sentinel. *)
Theorem read_temperature_serial_range (py_float : string -> float)
  (d : Cropico.device) (sim : float) (x : Cropico.exchange) (ok : bool) (t : float) :
  Cropico.use_simulator d = false ->
  Cropico.read_temperature py_float d sim x = (ok, t) ->
  (ok = true -> ((-200) <=? t)%float = true /\ (t <=? 2000)%float = true /\
                is_nan t = false /\ (t =? infinity)%float = false) /\
  (ok = false -> t = 0%float \/ t = infinity).
Proof.
intros Hs. unfold Cropico.read_temperature. rewrite Hs.
assert (F : forall b, (false, b) = (ok, t) ->
            (ok = true -> ((-200) <=? t)%float = true /\ (t <=? 2000)%float = true /\
                          is_nan t = false /\ (t =? infinity)%float = false) /\
            (ok = false -> b = t)).
{ intros b E. injection E as <- <-. split; [discriminate|reflexivity]. }
assert (Z0 : (false, 0%float) = (ok, t) ->
            (ok = true -> ((-200) <=? t)%float = true /\ (t <=? 2000)%float = true /\
                          is_nan t = false /\ (t =? infinity)%float = false) /\
            (ok = false -> t = 0%float \/ t = infinity)).
{ intros E. destruct (F _ E) as [A B]. split; [exact A|]. intros K. left. now rewrite <- B. }
destruct (Cropico.connected d); cbn [negb]; [|exact Z0].
destruct x as [r|]; [|exact Z0].
destruct (Cropico.truthy r) as [response|]; [|exact Z0].
destruct (re_search response) as [tok|].
- destruct (((-200) <=? py_float tok)%float) eqn:Lo; cbn [andb]; [|exact Z0].
  destruct ((py_float tok <=? 2000)%float) eqn:Hi; [|exact Z0].
  intros E. injection E as <- <-. split; [|discriminate]. intros _.
  split; [exact Lo|]. split; [exact Hi|]. split.
  + exact (leb_not_nan_l _ _ Hi).
  + apply (leb_below_infinity _ _ Hi). vm_compute. reflexivity.
- destruct (Cropico.overflow_marker response); [|exact Z0].
  intros E. destruct (F _ E) as [A B]. split; [exact A|]. intros K. right. now rewrite <- B.
Qed.

Lemma read_temperature_serial_range_witness :
  (true = true -> ((-200) <=? 100.0234)%float = true /\ (100.0234 <=? 2000)%float = true /\
                  is_nan 100.0234 = false /\ (100.0234 =? infinity)%float = false) /\
  (true = false -> 100.0234%float = 0%float \/ 100.0234%float = infinity).
Proof.
apply (read_temperature_serial_range decimal_float serial_cropico 0%float
         (Cropico.Response (Some "+0100.0234 C")) true 100.0234%float).
- reflexivity.
- vm_compute. reflexivity.
Defined.

(* --------------------------------------------------------------------- *)
(** ** The multimeter client: selecting a channel *)
(* --------------------------------------------------------------------- *)

(** Carriage return and line feed, the end of every command. *)
Definition CRLF : string := String "013" (String "010" EmptyString).

(** Whether [s.encode('ascii')] succeeds. *)
Fixpoint all_ascii (s : string) : bool :=
match s with
| String c s' => (nat_of_ascii c <? 128)%nat && all_ascii s'
| EmptyString => true
end.

(** [int(c)] for a one-character text: its value when [c] is a decimal
    digit, and [ValueError] ([None]) otherwise. *)
Definition int_of_char (c : ascii) : option Z :=
if is_digit c then Some (Z.of_nat (nat_of_ascii c) - 48) else None.

(** [str(z)] for [0 <= z <= 9]. *)
Definition str_of_digit (z : Z) : string :=
String (ascii_of_nat (Z.to_nat (z + 48))) EmptyString.

Module CropicoChannel.
Import Cropico.

(** The serial port as [_write] sees it: no port object or a closed one,
    or an open port, on which the write with index [raises_at] (counted
    from 0 within a call of the client) raises. *)
Inductive port :=
| NoPort
| Port (raises_at : option nat).

(** [_write(command)], the [k]-th write of a call: the commands that
    reach the port; [None] is an exception.  Without an open port nothing
    is written and nothing is raised. *)
Definition _write (p : port) (k : nat) (command : string) : option (list string) :=
match p with
| NoPort => Some []
| Port raises_at =>
    if negb (all_ascii command) then None
    else match raises_at with
         | Some j => if (j =? k)%nat then None else Some [command]
         | None => Some [command]
         end
end.

(** What a call of [configure_channel] leaves: the value returned, the
    attribute [current_channel], and the commands that reached the port. *)
Record outcome := {
  result : bool;
  current_channel : string;
  sent : list string
}.

(** The command that sets the measurement function for [sensor_type], if
    there is one. *)
Definition sensor_command (sensor_type : string) : option string :=
if String.eqb sensor_type "PT100" then Some ("CONF:TEMP:RTD PT100,4W,100,0.00385" ++ CRLF)
else if startswith "TC_" sensor_type then
  Some ("CONF:TEMP:TC " ++ split_underscore_1 sensor_type ++ ",INT" ++ CRLF)
else None.

(** [configure_channel]; [current] is [self.current_channel] before. *)
Definition configure_channel (d : device) (p : port) (current channel sensor_type : string)
  : outcome :=
let failed sent := {| result := false; current_channel := current; sent := sent |} in
if use_simulator d then {| result := true; current_channel := channel; sent := [] |}
else if negb (connected d) then failed []
else
  match channel with
  | String scanner (String c1 _) =>
      match int_of_char c1 with
      | Some channel_num =>
          match _write p 0 ("CONF:CHAN " ++ String scanner "," ++ str_of_digit channel_num
                            ++ CRLF) with
          | Some sent1 =>
              match sensor_command sensor_type with
              | Some command =>
                  match _write p 1 command with
                  | Some sent2 =>
                      {| result := true; current_channel := channel;
                         sent := (sent1 ++ sent2)%list |}
                  | None => failed sent1
                  end
              | None => {| result := true; current_channel := channel; sent := sent1 |}
              end
          | None => failed []
          end
      | None => failed []
      end
  | _ => failed []
  end.

(** [read_channel]: the reading is asked for only when the channel could
    be selected. *)
Section Reading.

Variable py_float : string -> float.


End Reading.

End CropicoChannel.

Example configure_channel_examples :
  CropicoChannel.configure_channel serial_cropico (CropicoChannel.Port None) "A0" "B3" "PT100"
  = {| CropicoChannel.result := true; CropicoChannel.current_channel := "B3";
       CropicoChannel.sent := ["CONF:CHAN B,3" ++ CRLF;
                               "CONF:TEMP:RTD PT100,4W,100,0.00385" ++ CRLF] |} /\
  CropicoChannel.configure_channel serial_cropico (CropicoChannel.Port None) "A0" "B3" "TC_K"
  = {| CropicoChannel.result := true; CropicoChannel.current_channel := "B3";
       CropicoChannel.sent := ["CONF:CHAN B,3" ++ CRLF; "CONF:TEMP:TC K,INT" ++ CRLF] |} /\
  CropicoChannel.configure_channel serial_cropico (CropicoChannel.Port None) "A0" "B12" "NTC"
  = {| CropicoChannel.result := true; CropicoChannel.current_channel := "B12";
       CropicoChannel.sent := ["CONF:CHAN B,1" ++ CRLF] |} /\
  CropicoChannel.configure_channel serial_cropico (CropicoChannel.Port (Some 1%nat))
    "A0" "B3" "PT100"
  = {| CropicoChannel.result := false; CropicoChannel.current_channel := "A0";
       CropicoChannel.sent := ["CONF:CHAN B,3" ++ CRLF] |} /\
  CropicoChannel.configure_channel serial_cropico (CropicoChannel.Port None) "A0" "BX" "PT100"
  = {| CropicoChannel.result := false; CropicoChannel.current_channel := "A0";
       CropicoChannel.sent := [] |}.
Proof. repeat split; reflexivity. Qed.



Lemma write_sent_length (p : CropicoChannel.port) (k : nat) (command : string)
  (l : list string) :
  CropicoChannel._write p k command = Some l ->
  (l = [] \/ l = [command]) /\ (p = CropicoChannel.NoPort -> l = []).
Proof.
unfold CropicoChannel._write. destruct p as [|[j|]].
- intros E. injection E as <-. auto.
- destruct (negb (all_ascii command)); [discriminate|].
  destruct (j =? k)%nat; [discriminate|].
  intros E. injection E as <-. split; [auto|discriminate].
- destruct (negb (all_ascii command)); [discriminate|].
  intros E. injection E as <-. split; [auto|discriminate].
Qed.

(** X12.  Whatever the client, the port and the arguments,
    [configure_channel] makes the channel current exactly when it returns
    True and leaves the current channel alone when it returns False; it
    writes at most two commands, the first of which (if any) selects a
    channel; and without an open port it writes nothing. *)
Theorem configure_channel_outcome (d : Cropico.device) (p : CropicoChannel.port)
  (current channel sensor_type : string) :
  let o := CropicoChannel.configure_channel d p current channel sensor_type in
  CropicoChannel.current_channel o = (if CropicoChannel.result o then channel else current) /\
  (List.length (CropicoChannel.sent o) <= 2)%nat /\
  (forall command, hd_error (CropicoChannel.sent o) = Some command ->
                   startswith "CONF:CHAN " command = true) /\
  (p = CropicoChannel.NoPort -> CropicoChannel.sent o = []).
Proof.
unfold CropicoChannel.configure_channel.
destruct (Cropico.use_simulator d); [cbn; repeat split; auto; discriminate|].
destruct (Cropico.connected d); cbn [negb]; [|cbn; repeat split; auto; discriminate].
destruct channel as [|scanner [|c1 rest]];
  try (cbn; repeat split; auto; discriminate).
destruct (int_of_char c1) as [n|]; [|cbn; repeat split; auto; discriminate].
destruct (CropicoChannel._write p 0 _) as [sent1|] eqn:W1;
  [|cbn; repeat split; auto; discriminate].
destruct (write_sent_length _ _ _ _ W1) as [S1 N1].
assert (H1 : forall command, hd_error sent1 = Some command ->
                             startswith "CONF:CHAN " command = true).
{ intros command. destruct S1 as [->| ->]; [discriminate|].
  intros E. injection E as <-. reflexivity. }
destruct (CropicoChannel.sensor_command sensor_type) as [command2|].
- destruct (CropicoChannel._write p 1 command2) as [sent2|] eqn:W2.
  + destruct (write_sent_length _ _ _ _ W2) as [S2 N2].
    cbn [CropicoChannel.result CropicoChannel.current_channel CropicoChannel.sent].
    split; [reflexivity|]. split; [|split].
    * rewrite length_app. destruct S1 as [->| ->], S2 as [->| ->]; cbn; lia.
    * intros command. destruct S1 as [->| ->]; [|exact (H1 command)].
      cbn [app]. rewrite (N2 ltac:(
        destruct p as [|r]; [reflexivity|];
        unfold CropicoChannel._write in W1;
        destruct (negb (all_ascii _)); [discriminate|];
        destruct r as [j|]; [destruct (j =? 0)%nat|]; discriminate)).
      discriminate.
    * intros Hp. now rewrite (N1 Hp), (N2 Hp).
  + cbn [CropicoChannel.result CropicoChannel.current_channel CropicoChannel.sent].
    split; [reflexivity|]. split; [|split]; auto.
    destruct S1 as [->| ->]; cbn; lia.
- cbn [CropicoChannel.result CropicoChannel.current_channel CropicoChannel.sent].
  split; [reflexivity|]. split; [|split]; auto.
  destruct S1 as [->| ->]; cbn; lia.
Qed.

Local Open Scope list_scope.
Local Open Scope Z_scope.

(* --------------------------------------------------------------------- *)
(** ** Classification against the tolerance tables *)
(* --------------------------------------------------------------------- *)

Module UncertaintyTables.
Import Config Uncertainty.

(** [PT100UncertaintyCalculator.get_tolerance]: the tolerance of a class
    at a temperature; a name that is not a class has the tolerance
    infinity. *)
Definition get_tolerance (sensor_class : string) (temperature : float) : float :=
if String.eqb sensor_class "AA" then PT100_CLASS_AA_TOLERANCE temperature
else if String.eqb sensor_class "A" then PT100_CLASS_A_TOLERANCE temperature
else if String.eqb sensor_class "B" then PT100_CLASS_B_TOLERANCE temperature
else if String.eqb sensor_class "C" then PT100_CLASS_C_TOLERANCE temperature
else infinity.

(** The classes of a PT100, strictest first. *)
Definition PT100_CLASSES : list string := ["AA"; "A"; "B"; "C"]%string.

End UncertaintyTables.

Lemma is_nan_Prim2SF (x : float) : is_nan x = true -> Prim2SF x = S754_nan.
Proof.
unfold is_nan. rewrite eqb_spec. unfold SFeqb.
destruct (Prim2SF x) as [s|s| |s m e]; try (destruct s; discriminate); [reflexivity|].
unfold SFcompare. rewrite Z.compare_refl.
change (Pos.compare_cont Eq m m) with (m ?= m)%positive.
rewrite Pos.compare_refl. now destruct s.
Qed.

Lemma abs_nan_leb (e T : float) : is_nan e = true -> (abs e <=? T)%float = false.
Proof.
intros H. rewrite leb_spec, abs_spec, (is_nan_Prim2SF e H). reflexivity.
Qed.

(** X13.  An error that is not a number is never given a class: every
    comparison with a tolerance fails, and each calculator answers "out of
    class", at every temperature. *)
Theorem classify_nan_out_of_class (c : Uncertainty.calculator) (e temperature : float) :
  is_nan e = true ->
  Uncertainty.classify_sensor c e temperature = Uncertainty.OUT_OF_CLASS.
Proof.
intros H. unfold Uncertainty.classify_sensor.
destruct c as [|tc]; [|destruct (String.eqb tc "K"); [|destruct (String.eqb tc "S")]];
  rewrite !(abs_nan_leb e _ H); reflexivity.
Qed.

Lemma classify_nan_out_of_class_witness :
  Uncertainty.classify_sensor (Uncertainty.ThermocoupleUncertaintyCalculator "S") nan 1200
  = Uncertainty.OUT_OF_CLASS.
Proof.
apply (classify_nan_out_of_class (Uncertainty.ThermocoupleUncertaintyCalculator "S") nan 1200).
reflexivity.
Defined.

(** X14.  A thermocouple of any type but S is classified with the limits
    of type K: the branch for the other types repeats K's two tolerances. *)
Theorem thermocouple_classified_as_K (tc_type : string) (e temperature : float) :
  tc_type <> "S"%string ->
  Uncertainty.classify_sensor (Uncertainty.ThermocoupleUncertaintyCalculator tc_type)
                              e temperature
  = Uncertainty.classify_sensor (Uncertainty.ThermocoupleUncertaintyCalculator "K")
                                e temperature.
Proof.
intros N. unfold Uncertainty.classify_sensor.
change (String.eqb "K" "K") with true. cbv iota.
destruct (String.eqb tc_type "K"); [reflexivity|].
destruct (String.eqb_spec tc_type "S"); [contradiction|reflexivity].
Qed.

Lemma thermocouple_classified_as_K_witness :
  Uncertainty.classify_sensor
    (Uncertainty.create_uncertainty_calculator "TC_J") 2 300
  = Uncertainty.classify_sensor (Uncertainty.ThermocoupleUncertaintyCalculator "K") 2 300.
Proof.
apply (thermocouple_classified_as_K "J" 2 300). discriminate.
Defined.

(** X15.  For a PT100, [classify_sensor] returns the strictest class
    whose tolerance, as [get_tolerance] gives it, admits the error: the
    error is within the tolerance of the class returned and outside the
    tolerance of every stricter class; and "out of class", like every name
    that is not a class, has the tolerance infinity. *)
Theorem classify_is_strictest_admitting (e temperature : float) :
  let class := Uncertainty.classify_sensor Uncertainty.PT100UncertaintyCalculator
                 e temperature in
  (class <> Uncertainty.OUT_OF_CLASS ->
   In class UncertaintyTables.PT100_CLASSES /\
   (abs e <=? UncertaintyTables.get_tolerance class temperature)%float = true) /\
  (forall stricter,
     In stricter UncertaintyTables.PT100_CLASSES ->
     (Uncertainty.strictness stricter < Uncertainty.strictness class)%nat ->
     (abs e <=? UncertaintyTables.get_tolerance stricter temperature)%float = false) /\
  UncertaintyTables.get_tolerance Uncertainty.OUT_OF_CLASS temperature = infinity.
Proof.
cbv zeta. unfold Uncertainty.classify_sensor.
destruct (abs e <=? Config.PT100_CLASS_AA_TOLERANCE temperature)%float eqn:AA;
  [|destruct (abs e <=? Config.PT100_CLASS_A_TOLERANCE temperature)%float eqn:A;
    [|destruct (abs e <=? Config.PT100_CLASS_B_TOLERANCE temperature)%float eqn:B;
      [|destruct (abs e <=? Config.PT100_CLASS_C_TOLERANCE temperature)%float eqn:C]]];
  (split; [intros N; first [now contradiction N | split; [cbn; tauto|assumption]]
          |split; [|reflexivity]]);
  intros stricter [<-|[<-|[<-|[<-|[]]]]] L; vm_compute in L; try lia; assumption.
Qed.

(* --------------------------------------------------------------------- *)
(** ** Statistics of a calibration point *)
(* --------------------------------------------------------------------- *)

Module PointStatistics.
Import Statistics.

Section Numpy.

Variable np_sum : list float -> float.

(** [StatisticsCalculator.calculate_std_of_mean]. *)
Definition calculate_std_of_mean (values : list float) : float :=
if (List.length values <? 2)%nat then 0%float
else (np_std np_sum values 1 / sqrt (float_of_nat (List.length values)))%float.

(** The dictionary [calculate_statistics] returns when there are
    measurements. *)
Record summary := {
  sm_channel : string;
  sm_point_temperature : float;
  sm_n_measurements : nat;
  sm_avg_measured_temp : float;
  sm_avg_reference_temp : float;
  sm_avg_raw_value : float;
  sm_std_dev_measured : float;
  sm_std_dev_reference : float;
  sm_errors : list float;
  sm_avg_error : float;
  sm_max_absolute_error : float;
  sm_min_measured : float;
  sm_max_measured : float
}.

(** [CalibrationPointStatistics.calculate_statistics]; [None] is the
    empty dictionary.  [sm_errors] is the local list [errors], which the
    dictionary does not hold. *)
Definition calculate_statistics (st : CalibrationPointStatistics) : option summary :=
match measured_temps st with
| [] => None
| _ =>
    let errors := map (fun mr => (fst mr - snd mr)%float)
                      (combine (measured_temps st) (reference_temps st)) in
    Some {| sm_channel := cps_channel st;
            sm_point_temperature := cps_point_temperature st;
            sm_n_measurements := List.length (measured_temps st);
            sm_avg_measured_temp := calculate_mean np_sum (measured_temps st);
            sm_avg_reference_temp := calculate_mean np_sum (reference_temps st);
            sm_avg_raw_value := calculate_mean np_sum (raw_values st);
            sm_std_dev_measured := calculate_std np_sum (measured_temps st) default_ddof;
            sm_std_dev_reference := calculate_std np_sum (reference_temps st) default_ddof;
            sm_errors := errors;
            sm_avg_error := calculate_mean np_sum errors;
            sm_max_absolute_error :=
              match errors with
              | [] => 0%float
              | _ => py_list_max (map abs errors)
              end;
            sm_min_measured := py_list_min (measured_temps st);
            sm_max_measured := py_list_max (measured_temps st) |}
end.

End Numpy.

(** One call of [add_measurement]: the measured value, the reference, the
    raw value and the time stamp. *)
Definition sample : Type := float * float * float * float.

(** The object after the calls [samples], in order, on a fresh one. *)
Definition collected (channel : string) (t : float) (samples : list sample)
  : CalibrationPointStatistics :=
fold_left (fun st '(m, r, raw, ts) => add_measurement st m r raw ts) samples
          (new_point_statistics channel t).

End PointStatistics.

Lemma collected_lists (channel : string) (t : float) (samples : list PointStatistics.sample)
  (st : Statistics.CalibrationPointStatistics) :
  let st' := fold_left (fun st '(m, r, raw, ts) => Statistics.add_measurement st m r raw ts)
                       samples st in
  Statistics.measured_temps st'
  = Statistics.measured_temps st ++ map (fun s => fst (fst (fst s))) samples /\
  Statistics.reference_temps st'
  = Statistics.reference_temps st ++ map (fun s => snd (fst (fst s))) samples /\
  Statistics.raw_values st'
  = Statistics.raw_values st ++ map (fun s => snd (fst s)) samples /\
  Statistics.timestamps st' = Statistics.timestamps st ++ map snd samples /\
  Statistics.cps_channel st' = Statistics.cps_channel st /\
  Statistics.cps_point_temperature st' = Statistics.cps_point_temperature st.
Proof.
revert st. induction samples as [|[[[m r] raw] ts] rest IH]; intros st; cbn [fold_left map].
- rewrite !app_nil_r. repeat split.
- destruct (IH (Statistics.add_measurement st m r raw ts)) as (A & B & C & D & E & F).
  cbv zeta in *. rewrite A, B, C, D, E, F. cbn. rewrite <- !app_assoc. repeat split.
Qed.

Lemma combine_map_pair {A B C : Type} (f : A -> B) (g : A -> C) (l : list A) :
  combine (map f l) (map g l) = map (fun x => (f x, g x)) l.
Proof. induction l as [|x l IH]; simpl; [reflexivity|now rewrite IH]. Qed.

(** X16.  The statistics of a point after any sequence of
    [add_measurement] calls on a fresh object: the four lists have grown
    together, so there is a summary exactly when there was a call, it
    counts the calls, and its errors pair every measured value with the
    reference recorded in the same call (the [zip] drops nothing). *)
Theorem calculate_statistics_collected (np_sum : list float -> float) (channel : string)
  (t : float) (samples : list PointStatistics.sample) :
  let st := PointStatistics.collected channel t samples in
  List.length (Statistics.measured_temps st) = List.length samples /\
  List.length (Statistics.reference_temps st) = List.length samples /\
  List.length (Statistics.raw_values st) = List.length samples /\
  List.length (Statistics.timestamps st) = List.length samples /\
  match PointStatistics.calculate_statistics np_sum st with
  | None => samples = []
  | Some r =>
      samples <> [] /\
      PointStatistics.sm_n_measurements r = List.length samples /\
      PointStatistics.sm_errors r
      = map (fun s => (fst (fst (fst s)) - snd (fst (fst s)))%float) samples /\
      PointStatistics.sm_channel r = channel /\
      PointStatistics.sm_point_temperature r = t
  end.
Proof.
cbv zeta. unfold PointStatistics.collected.
destruct (collected_lists channel t samples (Statistics.new_point_statistics channel t))
  as (A & B & C & D & E & F).
cbv zeta in *. cbn [Statistics.new_point_statistics Statistics.measured_temps
  Statistics.reference_temps Statistics.raw_values Statistics.timestamps
  Statistics.cps_channel Statistics.cps_point_temperature app] in *.
rewrite A, B, C, D, !length_map. repeat (split; [reflexivity|]).
unfold PointStatistics.calculate_statistics. rewrite A, B, E, F.
destruct samples as [|s rest]; [reflexivity|].
cbn [map]. cbv iota. cbn [PointStatistics.sm_n_measurements PointStatistics.sm_errors
  PointStatistics.sm_channel PointStatistics.sm_point_temperature].
split; [discriminate|]. split; [cbn [List.length]; now rewrite length_map|].
split; [|auto].
cbn [combine map fst snd]. f_equal.
rewrite combine_map_pair, map_map. reflexivity.
Qed.

(** X17.  The standard deviation of the mean, as the statistics module
    computes it, is the type A uncertainty the uncertainty module derives
    from the standard deviation and the number of samples: both are zero
    below two samples, and the deviation over the root of [n] from there. *)
Theorem std_of_mean_is_type_a (np_sum : list float -> float) (values : list float) :
  PointStatistics.calculate_std_of_mean np_sum values
  = Uncertainty.calculate_type_a
      (Statistics.calculate_std np_sum values Statistics.default_ddof)
      (List.length values).
Proof.
unfold PointStatistics.calculate_std_of_mean, Uncertainty.calculate_type_a,
  Statistics.calculate_std, Statistics.default_ddof.
now destruct (List.length values <? 2)%nat.
Qed.

(* --------------------------------------------------------------------- *)
(** ** The engine: configuration and control calls *)
(* --------------------------------------------------------------------- *)

Lemma put_trace_put_trace (t t' : list event) (s : engine) :
  put_trace t (put_trace t' s) = put_trace t s.
Proof. reflexivity. Qed.

Lemma configure_fold (types : dict string) (l : list string) (s : engine) :
  channel_sensor_types s = types ->
  fold_left
    (fun s channel =>
       record_event
         (CropicoConfigureChannel channel
            (dict_get_default channel (channel_sensor_types s) "PT100")) s) l s
  = put_trace
      (trace s ++
       map (fun c => CropicoConfigureChannel c (dict_get_default c types "PT100")) l) s.
Proof.
revert s. induction l as [|c l IH]; intros s Ht; cbn [fold_left map].
- rewrite app_nil_r. now destruct s.
- rewrite IH by exact Ht. unfold record_event. rewrite put_trace_put_trace.
  cbn [trace put_trace]. now rewrite Ht, <- app_assoc.
Qed.

(** X18.  [configure_channels] stores the sensor types and the channels
    given, with the reference channel put in front when it is not among
    them, and sends the multimeter one configuration per active channel,
    in order, with the type "PT100" for a channel that has none; flags,
    points and buffers are not touched. *)
Theorem configure_channels_configures_each (channels : list string)
  (sensor_types : dict string) (s : engine) :
  let s' := configure_channels channels sensor_types s in
  active_channels s'
  = (if existsb (String.eqb Config.REFERENCE_CHANNEL) channels then channels
     else Config.REFERENCE_CHANNEL :: channels) /\
  channel_sensor_types s' = sensor_types /\
  trace s'
  = trace s ++
    map (fun c => CropicoConfigureChannel c (dict_get_default c sensor_types "PT100"))
        (active_channels s') /\
  calibration_points s' = calibration_points s /\
  flags_of s' = flags_of s /\ buffers_of s' = buffers_of s /\ handles_of s' = handles_of s.
Proof.
cbv zeta. unfold configure_channels.
set (s1 := put_channel_sensor_types sensor_types (put_active_channels channels s)).
assert (A1 : active_channels s1 = channels) by reflexivity.
rewrite A1.
set (s2 := if existsb (String.eqb Config.REFERENCE_CHANNEL) channels then s1
           else put_active_channels (Config.REFERENCE_CHANNEL :: active_channels s1) s1).
assert (T2 : channel_sensor_types s2 = sensor_types).
{ unfold s2. now destruct (existsb _ channels). }
assert (A2 : active_channels s2
             = if existsb (String.eqb Config.REFERENCE_CHANNEL) channels then channels
               else Config.REFERENCE_CHANNEL :: channels).
{ unfold s2. now destruct (existsb _ channels). }
assert (R2 : trace s2 = trace s /\ calibration_points s2 = calibration_points s /\
             flags_of s2 = flags_of s /\ buffers_of s2 = buffers_of s /\
             handles_of s2 = handles_of s).
{ unfold s2. destruct (existsb _ channels); repeat split. }
destruct R2 as (R2t & R2p & R2f & R2b & R2h).
rewrite (configure_fold sensor_types _ s2 T2).
split; [exact A2|]. split; [exact T2|]. split.
- cbn [trace put_trace]. now rewrite R2t.
- repeat split; assumption.
Qed.

Lemma insert_sorted_last (x : float) (acc : list float) :
  Forall (fun y => (x <? y)%float = false) acc -> insert_sorted x acc = acc ++ [x].
Proof.
induction 1 as [|y acc Hy _ IH]; cbn [insert_sorted app]; [reflexivity|].
now rewrite Hy, IH.
Qed.

Lemma ascending_strongly (l : list float) :
  ascending l -> StronglySorted (fun a b => (a <=? b)%float = true) l.
Proof.
unfold ascending. apply Sorted_StronglySorted.
intros a b c. apply leb_trans.
Qed.

Lemma sorted_fold_sorted (l acc : list float) :
  StronglySorted (fun a b => (a <=? b)%float = true) (acc ++ l) ->
  fold_left (fun acc x => insert_sorted x acc) l acc = acc ++ l.
Proof.
revert acc. induction l as [|x l IH]; intros acc H; cbn [fold_left].
- now rewrite app_nil_r.
- assert (B : Forall (fun y => (x <? y)%float = false) acc).
  { clear IH. induction acc as [|y acc IHa]; [constructor|].
    cbn [app] in H. inversion H as [|? ? Hs Hf]; subst. constructor.
    - rewrite Forall_forall in Hf. specialize (Hf x ltac:(apply in_or_app; right; now left)).
      destruct (x <? y)%float eqn:L; [|reflexivity].
      rewrite (ltb_leb_false _ _ L) in Hf. discriminate.
    - now apply IHa. }
  rewrite (insert_sorted_last x acc B), IH; rewrite <- app_assoc; [reflexivity|exact H].
Qed.

(** X19.  [set_calibration_points] on a list that is already in ascending
    order stores it as it is, and sorting is idempotent: setting the points
    the engine holds changes nothing in them. *)
Theorem set_calibration_points_sorted_input (points : list float) (s : engine) :
  (ascending points -> calibration_points (set_calibration_points points s) = points) /\
  (no_nan points ->
   calibration_points
     (set_calibration_points (calibration_points (set_calibration_points points s)) s)
   = calibration_points (set_calibration_points points s)).
Proof.
assert (A : forall l, ascending l -> sorted l = l).
{ intros l H. unfold sorted. apply (sorted_fold_sorted l []). now apply ascending_strongly. }
split.
- intros H. cbn. now apply A.
- intros N. cbn. apply A. now apply sorted_ascending.
Qed.

(** X20.  [stop_calibration] marks the engine idle at once, whether or not
    the worker has ended, so a [start_calibration] that follows always
    starts a worker, and it clears the stop request. *)
Theorem start_after_stop_restarts (s : engine) :
  is_running (stop_calibration s) = false /\
  _stop_requested (stop_calibration s) = true /\
  is_running (start_calibration (stop_calibration s)) = true /\
  _stop_requested (start_calibration (stop_calibration s)) = false /\
  is_paused (start_calibration (stop_calibration s)) = false /\
  trace (start_calibration (stop_calibration s))
  = trace s ++ [Log INFO "Calibration stop requested"; WorkerThreadStarted;
                Log INFO "Calibration started"].
Proof.
repeat split. cbn. now rewrite <- !app_assoc.
Qed.

(* --------------------------------------------------------------------- *)
(** ** The engine: waiting, pausing and stopping *)
(* --------------------------------------------------------------------- *)

Definition is_log (e : event) : Prop :=
match e with
| Log _ _ => True
| _ => False
end.

(** [idle s s']: between [s] and [s'] no device was talked to, no clock
    read and no collaborator called; the plan, the buffers and the position
    are the same; a stop request has stayed; only log records were added. *)
Definition idle (s s' : engine) : Prop :=
handles_of s' = handles_of s /\ plan_of s' = plan_of s /\ buffers_of s' = buffers_of s /\
position_of s' = position_of s /\
n_furnace s' = n_furnace s /\ n_cropico s' = n_cropico s /\ n_clock s' = n_clock s /\
n_collab s' = n_collab s /\
(_stop_requested s = true -> _stop_requested s' = true) /\
exists evs, trace s' = trace s ++ evs /\ Forall is_log evs.

Lemma idle_refl (s : engine) : idle s s.
Proof.
unfold idle. repeat split; auto. exists []. now rewrite app_nil_r.
Qed.

Lemma idle_trans (a b c : engine) : idle a b -> idle b c -> idle a c.
Proof.
intros (H1 & H2 & H3 & H4 & H5 & H6 & H7 & H8 & H9 & e1 & T1 & L1)
       (K1 & K2 & K3 & K4 & K5 & K6 & K7 & K8 & K9 & e2 & T2 & L2).
unfold idle. repeat split; try congruence; auto.
exists (e1 ++ e2). rewrite T2, T1, app_assoc. split; [reflexivity|].
apply Forall_app. auto.
Qed.

Lemma idle_command (s : engine) (c : command) : idle s (apply_command s c).
Proof.
unfold idle. destruct c; cbn; repeat split; auto; eexists; split; try reflexivity;
  repeat constructor.
Qed.

Lemma idle_commands (l : list command) (s : engine) : idle s (fold_left apply_command l s).
Proof.
revert s. induction l as [|c l IH]; intros s; cbn [fold_left]; [apply idle_refl|].
eapply idle_trans; [apply idle_command|apply IH].
Qed.

Lemma idle_observe (w : world) (s : engine) : idle s (state_of (observe w s)).
Proof.
unfold observe, modify. cbn [state_of].
eapply idle_trans; [apply idle_commands|].
unfold idle. cbn. repeat split; auto. exists []. now rewrite app_nil_r.
Qed.

Lemma observe_ok (w : world) (s : engine) :
  observe w s = Ok tt (state_of (observe w s)).
Proof. reflexivity. Qed.

(** A stop among the calls that land before a look at the flags is seen
    by that look. *)
Lemma commands_stop (l : list command) (s : engine) :
  In Stop l -> _stop_requested (fold_left apply_command l s) = true.
Proof.
revert s. induction l as [|c l IH]; intros s; [contradiction|].
intros [->|H]; cbn [fold_left].
- destruct (idle_commands l (apply_command s Stop)) as (_ & _ & _ & _ & _ & _ & _ & _ & K & _).
  now apply K.
- now apply IH.
Qed.

Lemma observe_stop (w : world) (s : engine) :
  _stop_requested s = true \/ In Stop (ctl w (n_ctl s)) ->
  _stop_requested (state_of (observe w s)) = true.
Proof.
intros [H|H].
- destruct (idle_observe w s) as (_ & _ & _ & _ & _ & _ & _ & _ & K & _). now apply K.
- unfold observe, modify. cbn [state_of]. now apply (commands_stop _ s).
Qed.

(** X21.  While the run is paused the worker talks to nothing: the pause
    loop reads no device and no clock, calls no collaborator, leaves plan,
    buffers and position alone and adds nothing but log records; it never
    raises; and when it returns, the pause is over or a stop is requested. *)
Theorem pause_wait_idle (w : world) (fuel : nat) (s : engine) :
  idle s (state_of (pause_wait w fuel s)) /\
  (forall s', pause_wait w fuel s <> Raised s') /\
  (forall s', pause_wait w fuel s = Ok tt s' ->
              is_paused s' = false \/ _stop_requested s' = true) /\
  (forall s', pause_wait w fuel s = Waiting s' ->
              is_paused s' = true /\ _stop_requested s' = false).
Proof.
revert s. induction fuel as [|fuel IH]; intros s; rewrite pause_wait_eq;
  pose proof (idle_observe w s) as I;
  set (s1 := state_of (observe w s)) in *;
  unfold bind, get; change (observe w s) with (Ok tt s1); cbv iota beta;
  destruct (is_paused s1) eqn:P, (_stop_requested s1) eqn:St;
  cbn [andb negb ret still_waiting state_of];
  try (split; [exact I|]; split; [discriminate|]; split; intros s' E;
       first [discriminate | injection E as <-; auto]).
destruct (IH s1) as (I1 & R1 & O1 & W1).
split; [eapply idle_trans; eauto|]. auto.
Qed.

(** How a computation that ends with the verdict of the stability wait
    may end: with "not stable" only under a stop request, with "stable"
    only right after the record of the achieved stability. *)
Definition stability_verdict (r : res bool) : Prop :=
match r with
| Ok false s' => _stop_requested s' = true
| Ok true s' => exists evs, trace s' = evs ++ [Log INFO "Stability achieved"]
| Raised _ => False
| Waiting _ => True
end.

(** The same for a block inside the loop, which goes round again on
    "not stable". *)
Definition stability_block (r : res bool) : Prop :=
match r with
| Ok false _ => True
| Ok true s' => exists evs, trace s' = evs ++ [Log INFO "Stability achieved"]
| Raised _ => False
| Waiting _ => True
end.

Definition never_raises {A : Type} (m : M A) : Prop := forall s s', m s <> Raised s'.

Lemma verdict_bind {A : Type} (m : M A) (k : A -> M bool) (s : engine) :
  never_raises m -> (forall a s1, stability_verdict (k a s1)) ->
  stability_verdict (bind m k s).
Proof.
intros N K. unfold bind. specialize (N s). destruct (m s) as [a s1|s1|s1].
- apply K.
- now destruct (N s1).
- exact I.
Qed.

Lemma block_bind {A : Type} (m : M A) (k : A -> M bool) (s : engine) :
  never_raises m -> (forall a s1, stability_block (k a s1)) ->
  stability_block (bind m k s).
Proof.
intros N K. unfold bind. specialize (N s). destruct (m s) as [a s1|s1|s1].
- apply K.
- now destruct (N s1).
- exact I.
Qed.

Lemma verdict_block (m : M bool) (k : M bool) (s : engine) :
  (forall s0, stability_block (m s0)) -> (forall s1, stability_verdict (k s1)) ->
  stability_verdict (bind m (fun returned => if returned then ret true else k) s).
Proof.
intros B K. unfold bind. specialize (B s). destruct (m s) as [[|] s1|s1|s1]; auto.
Qed.

Lemma block_block (m : M bool) (k : M bool) (s : engine) :
  (forall s0, stability_block (m s0)) -> (forall s1, stability_block (k s1)) ->
  stability_block (bind m (fun returned => if returned then ret true else k) s).
Proof.
intros B K. unfold bind. specialize (B s). destruct (m s) as [[|] s1|s1|s1]; auto.
Qed.

Lemma never_raises_ok {A : Type} (m : M A) :
  (forall s, exists a s', m s = Ok a s') -> never_raises m.
Proof. intros H s s' E. destruct (H s) as (a & s1 & E1). congruence. Qed.

Lemma never_raises_bind {A B : Type} (m : M A) (k : A -> M B) :
  never_raises m -> (forall a, never_raises (k a)) -> never_raises (bind m k).
Proof.
intros Hm Hk s s' E. unfold bind in E. specialize (Hm s).
destruct (m s) as [a s1|s1|s1]; [now apply (Hk a s1 s')|now destruct (Hm s1)|discriminate].
Qed.

Lemma never_raises_observe (w : world) : never_raises (observe w).
Proof. apply never_raises_ok. intros s. now do 2 eexists. Qed.

Lemma never_raises_modify (f : engine -> engine) : never_raises (modify f).
Proof. apply never_raises_ok. intros s. now do 2 eexists. Qed.

Lemma never_raises_emit (e : event) : never_raises (emit e).
Proof. apply never_raises_modify. Qed.

Lemma never_raises_get {A : Type} (f : engine -> A) : never_raises (get f).
Proof. apply never_raises_ok. intros s. now do 2 eexists. Qed.

Lemma never_raises_ret {A : Type} (a : A) : never_raises (ret a).
Proof. apply never_raises_ok. intros s. now do 2 eexists. Qed.

Lemma never_raises_time (w : world) : never_raises (time_time w).
Proof. apply never_raises_ok. intros s. now do 2 eexists. Qed.

Lemma never_raises_furnace_pv (w : world) : never_raises (furnace_read_temperature w).
Proof.
apply never_raises_ok. intros s. unfold furnace_read_temperature.
destruct (furnace_io w (n_furnace s)). now do 2 eexists.
Qed.

Lemma never_raises_furnace_sp (w : world) : never_raises (furnace_read_setpoint w).
Proof.
apply never_raises_ok. intros s. unfold furnace_read_setpoint.
destruct (furnace_io w (n_furnace s)). now do 2 eexists.
Qed.

Lemma never_raises_cropico (w : world) : never_raises (cropico_read_temperature w).
Proof.
apply never_raises_ok. intros s. unfold cropico_read_temperature.
destruct (cropico_io w (n_cropico s)). now do 2 eexists.
Qed.

Lemma never_raises_cropico_raw (w : world) : never_raises (cropico_get_raw_value w).
Proof.
apply never_raises_ok. intros s. unfold cropico_get_raw_value.
destruct (cropico_io w (n_cropico s)). now do 2 eexists.
Qed.

Lemma never_raises_pause_wait (w : world) (fuel : nat) : never_raises (pause_wait w fuel).
Proof.
induction fuel as [|fuel IH]; rewrite pause_wait_eq;
  (apply never_raises_bind; [apply never_raises_observe|]; intros _;
   apply never_raises_bind; [apply never_raises_get|]; intros paused;
   apply never_raises_bind; [apply never_raises_get|]; intros stop;
   destruct (paused && negb stop); [|apply never_raises_ret]).
- intros s s'. discriminate.
- exact IH.
Qed.

(** Decomposition of a computation that cannot raise along its syntax. *)
Ltac never_raises_step :=
  first
    [ assumption
    | apply never_raises_ret | apply never_raises_get | apply never_raises_modify
    | apply never_raises_emit | apply never_raises_observe | apply never_raises_time
    | apply never_raises_furnace_pv | apply never_raises_furnace_sp
    | apply never_raises_cropico | apply never_raises_cropico_raw
    | apply never_raises_pause_wait
    | apply never_raises_bind; [|intros]
    | match goal with
      | |- never_raises (if ?c then _ else _) => destruct c
      | |- never_raises (match ?x with _ => _ end) => destruct x
      | |- never_raises (let (_, _) := ?x in _) => destruct x
      end ].

Lemma never_raises_update_status (w : world) : never_raises (_update_status w).
Proof. unfold _update_status. repeat never_raises_step. Qed.

Lemma never_raises_equilibrium_reads (w : world) (channels : list string) (temps : dict float) :
  never_raises (equilibrium_reads w channels temps).
Proof.
revert temps. induction channels as [|c rest IH]; intros temps; cbn [equilibrium_reads];
  repeat first [apply IH | never_raises_step].
Qed.

Lemma never_raises_check (w : world) : never_raises (_check_thermal_equilibrium w).
Proof.
unfold _check_thermal_equilibrium.
repeat first [apply never_raises_equilibrium_reads | never_raises_step].
Qed.

Lemma block_get {A : Type} (f : engine -> A) (k : A -> M bool) (s : engine) :
  stability_block (k (f s) s) -> stability_block (bind (get f) k s).
Proof. intros H. exact H. Qed.

Lemma block_achieved (s : engine) :
  stability_block ((emit (Log INFO "Stability achieved") ;; ret true) s).
Proof. cbn. now exists (trace s). Qed.

Ltac block_step w :=
  first
    [ exact I
    | apply block_achieved
    | apply block_get
    | apply block_block; [intros ?|intros ?]
    | apply block_bind;
      [ solve [repeat first [apply never_raises_check | apply never_raises_update_status
                            | never_raises_step]]
      | intros ? ? ]
    | match goal with
      | |- stability_block ((if ?c then _ else _) _) => destruct c
      | |- stability_block ((match ?x with _ => _ end) _) => destruct x
      end ].

Lemma wait_loop_verdict (w : world) (fuel : nat) (target_temp : float) (s : engine) :
  stability_verdict (wait_loop w fuel target_temp s).
Proof.
revert s. induction fuel as [|fuel IH]; intros s; rewrite wait_loop_eq;
  (apply verdict_bind; [apply never_raises_observe|]; intros _ s1;
   unfold bind at 1, get; destruct (_stop_requested s1) eqn:St; [exact St|];
   apply verdict_bind; [apply never_raises_pause_wait|]; intros _ s2;
   apply verdict_bind; [apply never_raises_furnace_pv|]; intros [success furnace_pv] s3;
   apply verdict_block; [intros s0|intros s4; first [exact I | apply IH]]);
  repeat block_step w.
Qed.

(** X22.  [_wait_for_stability] returns False only when a stop is
    requested (so the worker's "continue" after an unstable point belongs
    to a stopped run), and returns True only right after it has recorded
    that stability was achieved, that is after the furnace was seen within
    tolerance for the stability time and the channels agreed. *)
Theorem wait_for_stability_verdict (w : world) (fuel : nat) (target_temp : float)
  (s : engine) :
  match _wait_for_stability w fuel target_temp s with
  | Ok false s' => _stop_requested s' = true
  | Ok true s' => exists evs, trace s' = evs ++ [Log INFO "Stability achieved"]
  | Raised _ => True
  | Waiting _ => True
  end.
Proof.
unfold _wait_for_stability, bind, modify.
pose proof (wait_loop_verdict w fuel target_temp (put__stability_start_time None s)) as V.
destruct (wait_loop w fuel target_temp (put__stability_start_time None s)) as [[|] s'|s'|s'];
  first [exact V | exact I].
Qed.

Example wait_for_stability_runs :
  (exists s', _wait_for_stability (lab (fun _ => Some "+100.0"%string) no_commands) 5
                100%float bench = Ok true s') /\
  (exists s', _wait_for_stability (lab (fun _ => Some "+100.0"%string) (stop_at 2)) 5
                50%float bench = Ok false s') /\
  (exists s', _wait_for_stability (lab (fun _ => Some "+100.0"%string) no_commands) 5
                50%float bench = Waiting s').
Proof. repeat split; eexists; vm_compute; reflexivity. Qed.

(** The reads of the equilibrium check when no channel can be read. *)
Lemma equilibrium_reads_unreadable (w : world) (channels : list string) (temps : dict float)
  (s : engine) :
  (forall n, fst (Cropico.read_temperature (py_float w) (cropico s) (fst (cropico_io w n))
                    (snd (cropico_io w n))) = false) ->
  exists s',
    equilibrium_reads w channels temps s = Ok temps s' /\
    handles_of s' = handles_of s /\ buffers_of s' = buffers_of s /\
    n_cropico s' = (n_cropico s + List.length channels)%nat.
Proof.
intros H. revert s H. induction channels as [|c rest IH]; intros s H.
- exists s. cbn. repeat split. lia.
- cbn [equilibrium_reads]. unfold bind at 1, get. unfold bind at 1, emit, modify.
  unfold bind at 1, cropico_read_temperature.
  accessors. cbn [record_event put_trace handles_of cursors_of].
  specialize (H (cu_n_cropico (cursors_of s))) as H0.
  destruct (cropico_io w (cu_n_cropico (cursors_of s))) as [sim x]. cbn [fst snd] in H0.
  destruct (Cropico.read_temperature _ _ sim x) as [ok temp]. cbn [fst] in H0. subst ok.
  cbn [andb].
  match goal with |- exists s', equilibrium_reads w rest temps ?s1 = _ /\ _ =>
    destruct (IH s1) as (s' & E & Hh & Hb & Hn); [exact H|] end.
  exists s'. split; [exact E|]. rewrite Hh, Hb. accessors. rewrite Hn.
  cbn. repeat split. lia.
Qed.

(** X23.  The equilibrium check passes without evidence in two cases:
    with fewer than two active channels it returns True without reading
    anything, and when no channel can be read (every read fails) it reads
    each channel once and returns True as well. *)
Theorem equilibrium_passes_without_readings (w : world) (s : engine) :
  ((List.length (active_channels s) < 2)%nat ->
   _check_thermal_equilibrium w s = Ok true s) /\
  ((forall n, fst (Cropico.read_temperature (py_float w) (cropico s) (fst (cropico_io w n))
                     (snd (cropico_io w n))) = false) ->
   exists s',
     _check_thermal_equilibrium w s = Ok true s' /\
     buffers_of s' = buffers_of s /\
     n_cropico s' = (n_cropico s + (if (List.length (active_channels s) <? 2)%nat then 0
                                    else List.length (active_channels s)))%nat).
Proof.
split.
- intros H. unfold _check_thermal_equilibrium, bind, get.
  apply Nat.ltb_lt in H. now rewrite H.
- intros H. unfold _check_thermal_equilibrium, bind at 1, get.
  destruct (List.length (active_channels s) <? 2)%nat.
  + exists s. repeat split. lia.
  + destruct (equilibrium_reads_unreadable w (active_channels s) [] s H)
      as (s' & E & Hh & Hb & Hn).
    exists s'. unfold bind. rewrite E. cbn. auto.
Qed.

Lemma calculate_point_results_empty (w : world) (s : engine) (target_temp : float) :
  channel_readings s = [] -> _calculate_point_results w s target_temp = [].
Proof.
intros H. unfold _calculate_point_results. rewrite H.
induction (active_channels s) as [|c l IH]; [reflexivity|exact IH].
Qed.

Lemma look_stop {A : Type} (w : world) (s : engine) (k1 k2 : M A) :
  _stop_requested s = true \/ In Stop (ctl w (n_ctl s)) ->
  (observe w ;; stop <- get _stop_requested ;; if stop then k1 else k2) s
  = k1 (state_of (observe w s)).
Proof.
intros H. unfold bind, get. change (observe w s) with (Ok tt (state_of (observe w s))).
cbv iota beta. now rewrite (observe_stop w s H).
Qed.

Lemma look_stop_not {A : Type} (w : world) (s : engine) (k1 k2 : M A) :
  _stop_requested s = true \/ In Stop (ctl w (n_ctl s)) ->
  (observe w ;; stop <- get _stop_requested ;; if negb stop then k1 else k2) s
  = k2 (state_of (observe w s)).
Proof.
intros H. unfold bind, get. change (observe w s) with (Ok tt (state_of (observe w s))).
cbv iota beta. now rewrite (observe_stop w s H).
Qed.

(** X24.  A stop that is requested, or lands, before the worker's next
    look at the flags is honoured at that look: the stability wait returns
    False, a measurement burst returns no result, and the worker leaves,
    each without an exchange with the furnace or the multimeter and with
    nothing but log records added; the worker then marks the engine idle
    and neither parks the furnace nor reports completion. *)
Theorem stop_honoured_at_next_look (w : world) (fuel : nat) (target_temp : float)
  (s : engine) :
  _stop_requested s = true \/ In Stop (ctl w (n_ctl s)) ->
  (exists s',
     _wait_for_stability w fuel target_temp s = Ok false s' /\
     n_furnace s' = n_furnace s /\ n_cropico s' = n_cropico s /\
     exists evs, trace s' = trace s ++ evs /\ Forall is_log evs) /\
  (exists s',
     _measure_point w fuel target_temp s = Ok [] s' /\
     n_furnace s' = n_furnace s /\ n_cropico s' = n_cropico s /\
     exists evs, trace s' = trace s ++ evs /\ Forall is_log evs) /\
  (exists s',
     _calibration_worker w fuel s = Ok tt s' /\
     is_running s' = false /\ _stop_requested s' = true /\
     n_furnace s' = n_furnace s /\ n_cropico s' = n_cropico s /\
     exists evs, trace s' = trace s ++ evs /\ Forall is_log evs).
Proof.
intros H. split; [|split].
- unfold _wait_for_stability, bind at 1, modify.
  set (s0 := put__stability_start_time None s).
  assert (H0 : _stop_requested s0 = true \/ In Stop (ctl w (n_ctl s0))) by exact H.
  rewrite wait_loop_eq, (look_stop w s0 _ _ H0).
  destruct (idle_observe w s0) as (_ & _ & _ & _ & F & C & _ & _ & _ & evs & T & L).
  eexists. split; [reflexivity|]. rewrite F, C. repeat split. now exists evs.
- unfold _measure_point, bind at 1, modify. unfold bind at 1.
  set (s0 := put_reference_readings [] (put_channel_readings [] s)).
  assert (H0 : _stop_requested s0 = true \/ In Stop (ctl w (n_ctl s0))) by exact H.
  change (measurement_rounds w fuel target_temp Config.MEASUREMENTS_PER_POINT)
    with (measurement_rounds w fuel target_temp 10).
  cbn [measurement_rounds]. unfold bind at 1. rewrite (look_stop w s0 _ _ H0).
  destruct (idle_observe w s0) as (_ & _ & B & _ & F & C & _ & _ & _ & evs & T & L).
  unfold bind, get, ret.
  rewrite calculate_point_results_empty
    by (unfold channel_readings; now rewrite B).
  eexists. split; [reflexivity|]. rewrite F, C. repeat split. now exists evs.
- assert (Loop : exists s1,
            worker_loop w fuel 0 (calibration_points s) s = Ok tt s1 /\ idle s s1 /\
            (_stop_requested s1 = true \/ In Stop (ctl w (n_ctl s1)))).
  { destruct (calibration_points s) as [|t rest].
    - exists s. split; [reflexivity|]. split; [apply idle_refl|exact H].
    - cbn [worker_loop]. rewrite (look_stop w s _ _ H).
      eexists. split; [reflexivity|]. split; [apply idle_observe|].
      left. now apply observe_stop. }
  destruct Loop as (s1 & E1 & I1 & H1).
  unfold _calibration_worker, worker_body, bind at 1, get. unfold bind at 1.
  rewrite E1, (look_stop_not w s1 _ _ H1). unfold ret.
  pose proof (idle_trans _ _ _ I1 (idle_observe w s1))
    as (_ & _ & _ & _ & F & C & _ & _ & _ & evs & T & L).
  eexists. split; [reflexivity|]. split; [reflexivity|].
  split; [exact (observe_stop w s1 H1)|].
  split; [exact F|]. split; [exact C|]. now exists evs.
Qed.

Lemma stop_honoured_at_next_look_witness :
  (exists s',
     _wait_for_stability (rig (stop_at 0)) 5 50%float ready = Ok false s' /\
     n_furnace s' = n_furnace ready /\ n_cropico s' = n_cropico ready /\
     exists evs, trace s' = trace ready ++ evs /\ Forall is_log evs) /\
  (exists s',
     _measure_point (rig (stop_at 0)) 5 50%float ready = Ok [] s' /\
     n_furnace s' = n_furnace ready /\ n_cropico s' = n_cropico ready /\
     exists evs, trace s' = trace ready ++ evs /\ Forall is_log evs) /\
  (exists s',
     _calibration_worker (rig (stop_at 0)) 5 ready = Ok tt s' /\
     is_running s' = false /\ _stop_requested s' = true /\
     n_furnace s' = n_furnace ready /\ n_cropico s' = n_cropico ready /\
     exists evs, trace s' = trace ready ++ evs /\ Forall is_log evs).
Proof.
apply (stop_honoured_at_next_look (rig (stop_at 0)) 5 50%float ready).
right. now left.
Defined.

(* --------------------------------------------------------------------- *)
(** ** The engine: how many samples a point can collect *)
(* --------------------------------------------------------------------- *)

(** The buffer of a channel: [self.channel_readings[ch]]. *)
Definition readings (ch : string) (s : engine) : list float :=
dict_get_default ch (channel_readings s) [].

(** [grown d s s']: the plan is the same, and the buffer of each channel
    [ch] has grown by [d ch] samples at most. *)
Definition grown (d : string -> nat) (s s' : engine) : Prop :=
plan_of s' = plan_of s /\
forall ch, (List.length (readings ch s') <= List.length (readings ch s) + d ch)%nat.

Lemma grown_trans (d1 d2 d : string -> nat) (a b c : engine) :
  (forall ch, (d1 ch + d2 ch <= d ch)%nat) ->
  grown d1 a b -> grown d2 b c -> grown d a c.
Proof.
intros H [P1 G1] [P2 G2]. split; [congruence|].
intros ch. specialize (H ch). specialize (G1 ch). specialize (G2 ch). lia.
Qed.

Lemma grown_framed (s s' : engine) :
  framed keep_samples not_measurement s s' -> grown (fun _ => 0%nat) s s'.
Proof.
intros [(Kp & _ & Kr & _) _]. split; [exact Kp|].
intros ch. unfold readings. rewrite Kr. lia.
Qed.

Lemma grown_bind {A B : Type} (d1 d2 d : string -> nat) (m : M A) (k : A -> M B)
  (s : engine) :
  (forall ch, (d1 ch + d2 ch <= d ch)%nat) ->
  grown d1 s (state_of (m s)) ->
  (forall a s1, m s = Ok a s1 -> grown d2 s1 (state_of (k a s1))) ->
  grown d s (state_of (bind m k s)).
Proof.
intros H G K. unfold bind. destruct (m s) as [a s1|s1|s1] eqn:E; cbn [state_of] in *.
- eapply grown_trans; [exact H|exact G|now apply K].
- destruct G as [P G]. split; [exact P|]. intros ch. specialize (G ch). specialize (H ch). lia.
- destruct G as [P G]. split; [exact P|]. intros ch. specialize (G ch). specialize (H ch). lia.
Qed.

Lemma grown_visit (w : world) (target_temp : float) (channel : string) (s : engine) :
  grown (fun ch => if String.eqb channel ch then 1%nat else 0%nat) s
        (state_of (visit_channel w target_temp channel s)).
Proof.
destruct (cropico_io w (n_cropico s)) as [sim x] eqn:Hio.
destruct (Cropico.read_temperature (py_float w) (cropico s) sim x) as [ok temp] eqn:Hr.
destruct (ok && negb (temp =? infinity)%float) eqn:Hc.
- apply andb_prop in Hc. destruct Hc as [-> Hinf]. apply negb_true_iff in Hinf.
  destruct (cropico_io w (S (n_cropico s))) as [sim2 x2] eqn:Hio2.
  destruct (Cropico.get_raw_value (py_float w) (cropico s) sim2 x2) as [ok_raw raw] eqn:Hraw.
  destruct (visit_channel_sampled w target_temp channel s sim sim2 temp raw x x2 ok_raw
              Hio Hio2 Hr Hinf Hraw)
    as (ref_temp & s1 & E & Hh & Hp & Hf & Hn & Hcr & Hps & Ht).
  rewrite E.
  apply (grown_trans (fun ch => if String.eqb channel ch then 1%nat else 0%nat)
                     (fun _ => 0%nat) _ s s1); [intros; lia| |].
  + split; [exact Hp|]. intros ch. unfold readings. rewrite Hcr.
    destruct (String.eqb_spec channel ch) as [<-|N].
    * rewrite dict_get_default_set_eq, length_app. cbn. lia.
    * rewrite dict_get_default_set_ne by exact N. lia.
  + apply grown_framed. apply samples_save_measurement.
- destruct (visit_channel_excluded w target_temp channel s sim x ok temp Hio Hr Hc)
    as (s' & E & B & Hp & Hh & T).
  rewrite E. cbn [state_of]. split; [exact Hp|].
  intros ch. unfold readings, channel_readings. rewrite B. lia.
Qed.

Lemma grown_visit_channels (w : world) (target_temp : float) (channels : list string)
  (s : engine) :
  grown (fun ch => count_occ string_dec channels ch) s
        (state_of (visit_channels w target_temp channels s)).
Proof.
revert s. induction channels as [|channel rest IH]; intros s; cbn [visit_channels].
- split; [reflexivity|]. intros ch. cbn. lia.
- apply (grown_bind (fun _ => 0%nat) (fun ch => count_occ string_dec (channel :: rest) ch)).
  + intros ch. lia.
  + apply grown_framed. apply samples_observe.
  + intros _ s1 _. unfold bind at 1, get.
    destruct (_stop_requested s1).
    * split; [reflexivity|]. intros ch. cbn [state_of ret]. lia.
    * apply (grown_bind (fun ch => if String.eqb channel ch then 1%nat else 0%nat)
                        (fun ch => count_occ string_dec rest ch)).
      -- intros ch. cbn [count_occ]. destruct (string_dec channel ch) as [->|N].
         ++ rewrite String.eqb_refl. lia.
         ++ destruct (String.eqb_spec channel ch); [contradiction|lia].
      -- apply grown_visit.
      -- intros _ s2 _. apply IH.
Qed.

Lemma grown_rounds (w : world) (fuel : nat) (target_temp : float) (n : nat) (s : engine) :
  grown (fun ch => (n * count_occ string_dec (active_channels s) ch)%nat) s
        (state_of (measurement_rounds w fuel target_temp n s)).
Proof.
revert s. induction n as [|n IH]; intros s; cbn [measurement_rounds].
- split; [reflexivity|]. intros ch. cbn. lia.
- assert (F : forall (A : Type) (m : M A) (s0 : engine),
            frames keep_samples not_measurement m ->
            grown (fun _ => 0%nat) s0 (state_of (m s0))).
  { intros A m s0 H. apply grown_framed, H. }
  set (c := fun ch => count_occ string_dec (active_channels s) ch).
  apply (grown_bind (fun _ => 0%nat) (fun ch => (S n * c ch)%nat));
    [intros; lia|apply F, samples_observe|].
  intros u1 s1 E1.
  assert (P1 : plan_of s1 = plan_of s).
  { pose proof (F _ _ s (samples_observe w)) as [P _]. now rewrite E1 in P. }
  unfold bind at 1, get. destruct (_stop_requested s1).
  { split; [reflexivity|]. intros ch. cbn [state_of ret]. lia. }
  apply (grown_bind (fun _ => 0%nat) (fun ch => (S n * c ch)%nat));
    [intros; lia|apply F, samples_pause_wait|].
  intros u2 s2 E2.
  assert (P2 : plan_of s2 = plan_of s).
  { pose proof (F _ _ s1 (samples_pause_wait w fuel)) as [P _]. rewrite E2 in P.
    cbn [state_of] in P. congruence. }
  unfold bind at 1, get.
  assert (A2 : active_channels s2 = active_channels s)
    by (unfold active_channels; now rewrite P2).
  rewrite A2.
  apply (grown_bind c (fun ch => (n * c ch)%nat)); [intros; lia|apply grown_visit_channels|].
  intros u3 s3 E3.
  assert (P3 : plan_of s3 = plan_of s).
  { pose proof (grown_visit_channels w target_temp (active_channels s) s2) as [P _].
    rewrite E3 in P. cbn [state_of] in P. congruence. }
  apply (grown_bind (fun _ => 0%nat) (fun ch => (n * c ch)%nat));
    [intros; lia|apply F, samples_update_status|].
  intros u4 s4 E4.
  assert (P4 : plan_of s4 = plan_of s).
  { pose proof (F _ _ s3 (samples_update_status w)) as [P _]. rewrite E4 in P.
    cbn [state_of] in P. congruence. }
  replace c with (fun ch => count_occ string_dec (active_channels s4) ch).
  + apply IH.
  + unfold c, active_channels. now rewrite P4.
Qed.

(** X25.  A point collects at most [MEASUREMENTS_PER_POINT] samples per
    occurrence of a channel among the active channels: the number of
    measurements of every entry of the results of [_measure_point] is the
    length of the channel's buffer, it is at most ten times the number of
    times the channel is listed, and so at most ten when the active
    channels are distinct. *)
Theorem samples_per_channel_bounded (w : world) (fuel : nat) (target_temp : float)
  (s : engine) (results : dict PointResult) (s' : engine) :
  _measure_point w fuel target_temp s = Ok results s' ->
  forall ch r,
    dict_get ch results = Some r ->
    n_measurements r = List.length (readings ch s') /\
    (n_measurements r
     <= Config.MEASUREMENTS_PER_POINT * count_occ string_dec (active_channels s) ch)%nat /\
    (NoDup (active_channels s) -> (n_measurements r <= Config.MEASUREMENTS_PER_POINT)%nat).
Proof.
intros E ch r Hr.
unfold _measure_point in E. unfold bind at 1, modify in E. unfold bind at 1 in E.
set (s0 := put_reference_readings [] (put_channel_readings [] s)) in E.
pose proof (grown_rounds w fuel target_temp Config.MEASUREMENTS_PER_POINT s0) as [P G].
unfold bind in E.
destruct (measurement_rounds w fuel target_temp Config.MEASUREMENTS_PER_POINT s0)
  as [[] s1|s1|s1]; try discriminate.
cbn [state_of get ret] in *. injection E as <- <-.
rewrite calculate_point_results_lookup in Hr.
fold (readings ch s1) in Hr. specialize (G ch).
change (readings ch s0) with (@nil float) in G.
change (active_channels s0) with (active_channels s) in G. cbn [List.length Nat.add] in G.
destruct (readings ch s1) as [|x temps] eqn:R; [discriminate|].
destruct (existsb (String.eqb ch) (active_channels s1)); [|discriminate].
injection Hr as <-. cbn [n_measurements point_result].
split; [reflexivity|]. split; [exact G|].
intros N. pose proof (proj1 (NoDup_count_occ string_dec (active_channels s)) N ch) as C.
unfold Config.MEASUREMENTS_PER_POINT in *. lia.
Qed.

Lemma samples_per_channel_bounded_witness :
  exists results s',
    _measure_point (lab b0_open no_commands) 5 100%float bench = Ok results s' /\
    forall ch r,
      dict_get ch results = Some r ->
      n_measurements r = List.length (readings ch s') /\
      (n_measurements r
       <= Config.MEASUREMENTS_PER_POINT
          * count_occ string_dec (active_channels bench) ch)%nat /\
      (NoDup (active_channels bench) -> (n_measurements r <= Config.MEASUREMENTS_PER_POINT)%nat).
Proof.
do 2 eexists. split; [vm_compute; reflexivity|].
eapply (samples_per_channel_bounded (lab b0_open no_commands) 5 100%float bench).
vm_compute. reflexivity.
Defined.

(* --------------------------------------------------------------------- *)
(** ** The engine: the largest deviation, and the reference of a sample *)
(* --------------------------------------------------------------------- *)

Lemma ltb_irrefl (x : float) : (x <? x)%float = false.
Proof.
destruct (x <? x)%float eqn:L; [|reflexivity].
pose proof (ltb_leb _ _ L) as A. rewrite (ltb_leb_false _ _ L) in A. discriminate.
Qed.

Lemma leb_refl (x : float) : is_nan x = false -> (x <=? x)%float = true.
Proof. intros N. apply not_ltb_leb; auto. apply ltb_irrefl. Qed.

(** Python's [max] over the elements after [m], from left to right. *)
Lemma max_fold_spec (l : list float) (m : float) :
  is_nan m = false -> no_nan l ->
  let r := fold_left (fun m y => if (m <? y)%float then y else m) l m in
  In r (m :: l) /\ is_nan r = false /\ (m <=? r)%float = true /\
  forall x, In x l -> (x <=? r)%float = true.
Proof.
revert m. induction l as [|y l IH]; intros m Nm Nl; cbn [fold_left].
- split; [now left|]. split; [exact Nm|]. split; [now apply leb_refl|]. intros x [].
- inversion Nl as [|? ? Ny Nl']; subst.
  destruct (m <? y)%float eqn:L.
  + destruct (IH y Ny Nl') as (I & N & B & A). cbv zeta in *.
    split; [destruct I as [I|I]; [right; now left|right; now right]|].
    split; [exact N|]. split.
    * eapply leb_trans; [apply ltb_leb, L|exact B].
    * intros x [<-|H]; auto.
  + destruct (IH m Nm Nl') as (I & N & B & A). cbv zeta in *.
    split; [destruct I as [I|I]; [now left|right; now right]|].
    split; [exact N|]. split; [exact B|].
    intros x [<-|H]; [|now apply A].
    eapply leb_trans; [apply (not_ltb_leb m y Nm Ny L)|exact B].
Qed.

Lemma py_list_max_spec (l : list float) :
  l <> [] -> no_nan l ->
  In (py_list_max l) l /\ forall x, In x l -> (x <=? py_list_max l)%float = true.
Proof.
destruct l as [|m l]; [contradiction|]. intros _ N.
inversion N as [|? ? Nm Nl]; subst.
destruct (max_fold_spec l m Nm Nl) as (I & _ & B & A). cbv zeta in *.
cbn [py_list_max]. split; [exact I|].
intros x [<-|H]; auto.
Qed.

(** X26.  The largest deviation reported for a channel of a point is the
    deviation of one of its samples from the reference value of the entry,
    and no sample deviates more (for deviations that are numbers). *)
Theorem max_absolute_error_bounds (w : world) (s : engine) (target_temp : float)
  (ch : string) (r : PointResult) :
  dict_get ch (_calculate_point_results w s target_temp) = Some r ->
  no_nan (map (fun x => abs (x - avg_reference_temp r)) (readings ch s)) ->
  (exists x, In x (readings ch s) /\
             max_absolute_error r = abs (x - avg_reference_temp r)) /\
  (forall x, In x (readings ch s) ->
             (abs (x - avg_reference_temp r) <=? max_absolute_error r)%float = true).
Proof.
intros H. rewrite calculate_point_results_lookup in H. fold (readings ch s) in H.
destruct (readings ch s) as [|t ts] eqn:E; [discriminate|].
destruct (existsb (String.eqb ch) (active_channels s)); [|discriminate].
injection H as <-. cbn [avg_reference_temp max_absolute_error point_result].
set (ref := reference_mean w s target_temp). intros N.
destruct (py_list_max_spec (map (fun x => abs (x - ref)) (t :: ts)) ltac:(discriminate) N)
  as [I A].
split.
- apply in_map_iff in I. destruct I as (x & Hx & Ix). exists x. auto.
- intros x Hx. apply A. apply in_map_iff. now exists x.
Qed.

Lemma max_absolute_error_bounds_witness :
  let w := lab (fun _ => None) no_commands in
  let r := point_result w bench_sampled 100 (reference_mean w bench_sampled 100) "B0"
                        [100.5; 100.7]%float in
  (exists x, In x (readings "B0" bench_sampled) /\
             max_absolute_error r = abs (x - avg_reference_temp r)) /\
  (forall x, In x (readings "B0" bench_sampled) ->
             (abs (x - avg_reference_temp r) <=? max_absolute_error r)%float = true).
Proof.
apply (max_absolute_error_bounds (lab (fun _ => None) no_commands) bench_sampled 100%float
         "B0"%string _ eq_refl).
repeat constructor.
Defined.

(** The reference temperature attached to a sample of [channel] taken in
    state [s]: the sample itself on the reference channel, otherwise the
    last value read on the reference channel, and the target of the point
    when there is none. *)
Definition attached_reference (s : engine) (target_temp : float) (channel : string)
  (temp : float) : float :=
if String.eqb channel Config.REFERENCE_CHANNEL then temp
else dict_get_default Config.REFERENCE_CHANNEL (last_channel_values s) target_temp.

(** X27.  A visit that yields a sample signals it, and hands it to
    [_save_measurement], with the reference [attached_reference] gives:
    the sample itself on the reference channel; on another channel the last
    value read on the reference channel, whenever that was (the values last
    read survive rounds, points and runs), or the target temperature when
    the reference channel was never read.  The sample goes to the end of
    the channel's buffer, and to the reference buffer on the reference
    channel only. *)
Theorem sample_reference (w : world) (target_temp : float) (channel : string)
  (s : engine) (sim sim2 temp raw : float) (x x2 : Cropico.exchange) (ok_raw : bool) :
  cropico_io w (n_cropico s) = (sim, x) ->
  cropico_io w (S (n_cropico s)) = (sim2, x2) ->
  Cropico.read_temperature (py_float w) (cropico s) sim x = (true, temp) ->
  (temp =? infinity)%float = false ->
  Cropico.get_raw_value (py_float w) (cropico s) sim2 x2 = (ok_raw, raw) ->
  let ref_temp := attached_reference s target_temp channel temp in
  exists s1,
    visit_channel w target_temp channel s
    = _save_measurement w channel temp ref_temp (if ok_raw then raw else 0%float)
                        target_temp s1 /\
    trace s1
    = trace s ++
      [CropicoConfigureChannel channel
         (dict_get_default channel (channel_sensor_types s) "PT100");
       ChannelChanged channel; MeasurementTaken channel temp ref_temp] /\
    readings channel s1 = readings channel s ++ [temp] /\
    reference_readings s1
    = (if String.eqb channel Config.REFERENCE_CHANNEL then reference_readings s ++ [temp]
       else reference_readings s) /\
    dict_get channel (last_channel_values s1) = Some temp.
Proof.
intros Hio Hio2 Hr Hinf Hraw.
unfold attached_reference, visit_channel, bind, get, emit, modify,
  cropico_read_temperature, cropico_get_raw_value, time_time, ret, readings.
accessors. cbn -[_save_measurement String.eqb Config.REFERENCE_CHANNEL] in *.
rewrite Hio, Hr. cbn -[_save_measurement String.eqb Config.REFERENCE_CHANNEL].
rewrite Hio2, Hraw, Hinf.
cbn -[_save_measurement String.eqb Config.REFERENCE_CHANNEL].
destruct (String.eqb_spec channel Config.REFERENCE_CHANNEL) as [->|N];
  accessors; cbn -[_save_measurement String.eqb Config.REFERENCE_CHANNEL]; accessors;
  cbn -[_save_measurement String.eqb Config.REFERENCE_CHANNEL];
  rewrite ?dict_get_default_set_ne by exact N;
  destruct (dict_get _ (bf_point_stats (buffers_of s))) as [st|];
  cbn -[_save_measurement String.eqb Config.REFERENCE_CHANNEL];
  eexists; (split; [reflexivity|]);
  cbn -[String.eqb Config.REFERENCE_CHANNEL];
  rewrite <- ?app_assoc, ?dict_get_default_set_eq, ?dict_get_set_eq; repeat split.
Qed.

Lemma sample_reference_witness :
  let w := lab b0_open no_commands in
  exists s1,
    visit_channel w 100 "B0" bench
    = _save_measurement w "B0" 100 (attached_reference bench 100 "B0" 100) 138.5 100 s1 /\
    trace s1
    = trace bench ++
      [CropicoConfigureChannel "B0"
         (dict_get_default "B0" (channel_sensor_types bench) "PT100");
       ChannelChanged "B0";
       MeasurementTaken "B0" 100 (attached_reference bench 100 "B0" 100)] /\
    readings "B0" s1 = readings "B0" bench ++ [100%float] /\
    reference_readings s1
    = (if String.eqb "B0" Config.REFERENCE_CHANNEL then reference_readings bench ++ [100%float]
       else reference_readings bench) /\
    dict_get "B0" (last_channel_values s1) = Some 100%float.
Proof.
apply (sample_reference (lab b0_open no_commands) 100%float "B0"%string bench
         0%float 0%float 100%float 138.5%float
         (Cropico.Response (Some "+100.0"%string)) (Cropico.Response (Some "138.5"%string))
         true); vm_compute; reflexivity.
Defined.

(* --------------------------------------------------------------------- *)
(** ** The engine: where an error of the worker can come from *)
(* --------------------------------------------------------------------- *)





Section Calm.

Variable w : world.

(** No persistence collaborator raises. *)
Hypothesis collaborators_return : forall n, collab_raises w n = false.

(** The active channels of the run. *)
Variable chs : list string.

































End Calm.






(** A world like [rig] in which the database raises on its third call. *)
Definition failing_database : world :=
{| py_float := decimal_float;
   np_sum := Statistics.seq_sum;
   ctl := no_commands;
   furnace_io := fun n => if (n <? 61)%nat then (50%float, Furnace.Reply reply_50)
                          else (100%float, Furnace.Reply reply_100);
   cropico_io := fun _ => (0%float, Cropico.Response (Some "+100.0"%string));
   clock := fun n => float_of_nat (100 * n);
   collab_raises := fun n => (n =? 2)%nat |}.

(** With a failing database the run is abandoned at the point where the
    call raised: the error is signalled, the engine is marked idle, the
    second point is not visited and the furnace is not parked. *)
Example failing_database_aborts_run :
  exists s',
    _calibration_worker failing_database 5 ready = Ok tt s' /\
    setpoints (trace s') = [50]%float /\
    is_running s' = false /\ _stop_requested s' = false /\
    existsb (fun e => match e with ErrorOccurred => true | _ => false end) (trace s') = true /\
    existsb (fun e => match e with CalibrationCompleted => true | _ => false end) (trace s')
    = false.
Proof. eexists. split; [vm_compute; reflexivity|]. repeat split; vm_compute; reflexivity. Qed.

(* --------------------------------------------------------------------- *)
(** ** The engine: the status report *)
(* --------------------------------------------------------------------- *)

Module EngineStatus.

(** The dictionary [get_current_status] returns. *)
Record status := {
  st_is_running : bool;
  st_is_paused : bool;
  st_session_id : option Z;
  st_current_point_index : nat;
  st_total_points : nat;
  st_current_target : option float;
  st_furnace_pv : option float;
  st_furnace_sp : option float;
  st_active_channels : list string;
  st_last_channel_values : dict float
}.

(** [self.calibration_points[self.current_point_index] if
    self.calibration_points else None]: the outer [None] is [IndexError]. *)
Definition current_target (s : engine) : option (option float) :=
match calibration_points s with
| [] => Some None
| points =>
    match nth_error points (current_point_index s) with
    | Some t => Some (Some t)
    | None => None
    end
end.

(** [get_current_status]: the two furnace reads come first. *)
Definition get_current_status (w : world) : M status :=
' (success, furnace_pv) <- furnace_read_temperature w ;;
' (success_sp, furnace_sp) <- furnace_read_setpoint w ;;
s <- get (fun s => s) ;;
match current_target s with
| Some target =>
    ret {| st_is_running := is_running s;
           st_is_paused := is_paused s;
           st_session_id := session_id s;
           st_current_point_index := current_point_index s;
           st_total_points := List.length (calibration_points s);
           st_current_target := target;
           st_furnace_pv := if success then Some furnace_pv else None;
           st_furnace_sp := if success_sp then Some furnace_sp else None;
           st_active_channels := active_channels s;
           st_last_channel_values := last_channel_values s |}
| None => raise
end.

(** The current index points into the list of points, or there is no
    point. *)
Definition indexed (s : engine) : Prop :=
calibration_points s = [] \/
(current_point_index s < List.length (calibration_points s))%nat.

End EngineStatus.

(** [steady m]: [m] leaves the index of the current point and the plan
    as they are. *)
Definition steady {A : Type} (m : M A) : Prop :=
forall s, current_point_index (state_of (m s)) = current_point_index s /\
          plan_of (state_of (m s)) = plan_of s.

Lemma steady_bind {A B : Type} (m : M A) (k : A -> M B) :
  steady m -> (forall a, steady (k a)) -> steady (bind m k).
Proof.
intros Hm Hk s. unfold bind. destruct (Hm s) as [I P].
destruct (m s) as [a s1|s1|s1]; cbn [state_of] in *; auto.
destruct (Hk a s1) as [I1 P1]. split; congruence.
Qed.

Lemma steady_ret {A : Type} (a : A) : steady (ret a).
Proof. intros s. split; reflexivity. Qed.

Lemma steady_get {A : Type} (f : engine -> A) : steady (get f).
Proof. intros s. split; reflexivity. Qed.

Lemma steady_raise {A : Type} : steady (@raise A).
Proof. intros s. split; reflexivity. Qed.

Lemma steady_still_waiting {A : Type} : steady (@still_waiting A).
Proof. intros s. split; reflexivity. Qed.

Lemma steady_modify (f : engine -> engine) :
  (forall s, current_point_index (f s) = current_point_index s /\ plan_of (f s) = plan_of s) ->
  steady (modify f).
Proof. intros H s. apply H. Qed.

Lemma steady_emit (e : event) : steady (emit e).
Proof. apply steady_modify. intros s. split; reflexivity. Qed.

Lemma steady_observe (w : world) : steady (observe w).
Proof.
intros s. destruct (idle_observe w s) as (_ & P & _ & Q & _).
unfold current_point_index. now rewrite Q.
Qed.

Lemma steady_cursor (w : world) :
  steady (furnace_read_temperature w) /\ steady (furnace_read_setpoint w) /\
  steady (cropico_read_temperature w) /\ steady (cropico_get_raw_value w) /\
  steady (time_time w) /\ forall e, steady (collaborator_call w e).
Proof.
repeat split;
  try (unfold furnace_read_temperature, furnace_read_setpoint;
       destruct (furnace_io w (n_furnace s)); reflexivity);
  try (unfold cropico_read_temperature, cropico_get_raw_value;
       destruct (cropico_io w (n_cropico s)); reflexivity);
  unfold collaborator_call; destruct (collab_raises w (n_collab s)); reflexivity.
Qed.

Ltac steady_step w :=
  first
    [ assumption
    | apply steady_ret | apply steady_get | apply steady_raise | apply steady_still_waiting
    | apply steady_emit | apply steady_observe
    | apply (proj1 (steady_cursor w))
    | apply (proj1 (proj2 (steady_cursor w)))
    | apply (proj1 (proj2 (proj2 (steady_cursor w))))
    | apply (proj1 (proj2 (proj2 (proj2 (steady_cursor w)))))
    | apply (proj1 (proj2 (proj2 (proj2 (proj2 (steady_cursor w))))))
    | apply (proj2 (proj2 (proj2 (proj2 (proj2 (steady_cursor w))))))
    | apply steady_modify; intros; split; reflexivity
    | apply steady_bind; [|intros]
    | match goal with
      | |- steady (if ?c then _ else _) => destruct c
      | |- steady (match ?x with _ => _ end) => destruct x
      | |- steady (let (_, _) := ?x in _) => destruct x
      end ].

Lemma steady_pause_wait (w : world) (fuel : nat) : steady (pause_wait w fuel).
Proof. induction fuel as [|fuel IH]; rewrite pause_wait_eq; repeat steady_step w. Qed.

Lemma steady_update_status (w : world) : steady (_update_status w).
Proof. unfold _update_status. repeat steady_step w. Qed.

Lemma steady_equilibrium_reads (w : world) (channels : list string) (temps : dict float) :
  steady (equilibrium_reads w channels temps).
Proof.
revert temps. induction channels as [|c rest IH]; intros temps; cbn [equilibrium_reads];
  repeat first [apply IH | steady_step w].
Qed.

Lemma steady_check (w : world) : steady (_check_thermal_equilibrium w).
Proof.
unfold _check_thermal_equilibrium.
repeat first [apply steady_equilibrium_reads | steady_step w].
Qed.

Lemma steady_wait_loop (w : world) (fuel : nat) (target_temp : float) :
  steady (wait_loop w fuel target_temp).
Proof.
induction fuel as [|fuel IH]; rewrite wait_loop_eq;
  repeat first [apply steady_pause_wait | apply steady_update_status | apply steady_check
               | steady_step w].
Qed.

Lemma steady_wait_for_stability (w : world) (fuel : nat) (target_temp : float) :
  steady (_wait_for_stability w fuel target_temp).
Proof.
unfold _wait_for_stability. repeat first [apply steady_wait_loop | steady_step w].
Qed.

Lemma steady_save_measurement (w : world) (channel : string) (a b c d : float) :
  steady (_save_measurement w channel a b c d).
Proof. unfold _save_measurement. repeat steady_step w. Qed.

Lemma steady_visit_channel (w : world) (target_temp : float) (channel : string) :
  steady (visit_channel w target_temp channel).
Proof.
unfold visit_channel. repeat first [apply steady_save_measurement | steady_step w].
Qed.

Lemma steady_visit_channels (w : world) (target_temp : float) (channels : list string) :
  steady (visit_channels w target_temp channels).
Proof.
induction channels as [|c rest IH]; cbn [visit_channels];
  repeat first [apply steady_visit_channel | steady_step w].
Qed.

Lemma steady_measurement_rounds (w : world) (fuel : nat) (target_temp : float) (n : nat) :
  steady (measurement_rounds w fuel target_temp n).
Proof.
induction n as [|n IH]; cbn [measurement_rounds];
  repeat first [apply steady_pause_wait | apply steady_update_status
               | apply steady_visit_channels | steady_step w].
Qed.

Lemma steady_measure_point (w : world) (fuel : nat) (target_temp : float) :
  steady (_measure_point w fuel target_temp).
Proof.
unfold _measure_point. repeat first [apply steady_measurement_rounds | steady_step w].
Qed.

Lemma steady_save_each (w : world) (sid : Z) (items : dict PointResult) :
  steady (save_each w sid items).
Proof.
induction items as [|[channel data] rest IH]; cbn [save_each]; repeat steady_step w.
Qed.

Lemma steady_save_point_results (w : world) (results : dict PointResult) :
  steady (_save_point_results w results).
Proof. unfold _save_point_results. repeat first [apply steady_save_each | steady_step w]. Qed.

Lemma steady_finalize_session (w : world) : steady (_finalize_session w).
Proof. unfold _finalize_session. repeat steady_step w. Qed.

Lemma look_then {A : Type} (w : world) (s : engine) (k1 k2 : M A) :
  (observe w ;; stop <- get _stop_requested ;; if stop then k1 else k2) s
  = (if _stop_requested (state_of (observe w s)) then k1 else k2)
      (state_of (observe w s)).
Proof.
unfold bind, get. reflexivity.
Qed.

Lemma modify_then {A : Type} (f : engine -> engine) (k : M A) (s : engine) :
  (modify f ;; k) s = k (f s).
Proof. reflexivity. Qed.

(** Where the loop over the points leaves the index: where it was, or at
    one of the points it went through. *)
Lemma worker_loop_index (w : world) (fuel : nat) (points : list float) :
  forall point_idx s,
    let s' := state_of (worker_loop w fuel point_idx points s) in
    plan_of s' = plan_of s /\
    (current_point_index s' = current_point_index s \/
     (point_idx <= current_point_index s' < point_idx + List.length points)%nat).
Proof.
induction points as [|target_temp rest IH]; intros point_idx s; cbv zeta.
- cbn [worker_loop ret state_of]. auto.
- cbn [worker_loop].
  set (at_idx := fun s2 => plan_of s2 = plan_of s /\ current_point_index s2 = point_idx).
  set (goal := fun s' =>
         plan_of s' = plan_of s /\
         (point_idx <= current_point_index s'
          < point_idx + List.length (target_temp :: rest))%nat).
  assert (G : forall s2, at_idx s2 -> goal s2).
  { intros s2 [P I]. split; [exact P|]. cbn [List.length]. lia. }
  assert (K : forall (A : Type) (m : M A) (k : A -> M unit) (s1 : engine),
            steady m -> at_idx s1 ->
            (forall a s2, at_idx s2 -> goal (state_of (k a s2))) ->
            goal (state_of (bind m k s1))).
  { intros A m k s1 Sm [P1 I1] Kk. destruct (Sm s1) as [Hi Hp].
    assert (A2 : at_idx (state_of (m s1))) by (split; congruence).
    unfold bind. destruct (m s1) as [a s2|s2|s2]; cbn [state_of] in *; auto. }
  assert (Next : forall s2, at_idx s2 ->
            goal (state_of (worker_loop w fuel (S point_idx) rest s2))).
  { intros s2 [P2 I2]. destruct (IH (S point_idx) s2) as [P [I|I]].
    - split; [congruence|]. rewrite I, I2. cbn [List.length]. lia.
    - split; [congruence|]. cbn [List.length]. lia. }
  destruct (steady_observe w s) as [Oi Op].
  rewrite look_then. set (s1 := state_of (observe w s)) in *.
  destruct (_stop_requested s1).
  { cbn [ret state_of]. split; [exact Op|]. left. exact Oi. }
  rewrite modify_then.
  set (s2 := put_current_point_index point_idx s1).
  assert (A2 : at_idx s2) by (split; [exact Op|reflexivity]).
  match goal with |- _ /\ (_ \/ (_ <= current_point_index (state_of ?r) < _)%nat) =>
    assert (R : goal (state_of r)) end.
  { apply K; [apply steady_emit|exact A2|]. intros _ s3 A3.
    apply K; [apply steady_emit|exact A3|]. intros _ s4 A4.
    apply K; [apply steady_wait_for_stability|exact A4|]. intros stable s5 A5.
    destruct stable; cbn [negb].
    - unfold bind at 1, get.
      apply K; [apply steady_modify; intros; split; reflexivity|exact A5|]. intros _ s6 A6.
      apply K; [apply steady_measure_point|exact A6|]. intros results s7 A7.
      apply K; [|exact A7|intros _ s8 A8; now apply Next].
      destruct results as [|item results]; [apply steady_ret|].
      apply steady_bind; [apply steady_emit|]. intros _. apply steady_save_point_results.
    - rewrite look_then.
      destruct (steady_observe w s5) as [Oi5 Op5]. destruct A5 as [P5 I5].
      assert (A6 : at_idx (state_of (observe w s5))) by (split; congruence).
      destruct (_stop_requested (state_of (observe w s5))); [now apply G|].
      now apply Next. }
  destruct R as [P R]. split; [exact P|]. right. exact R.
Qed.

Lemma steady_after {A B : Type} (m : M A) (k : A -> M B) (s : engine) :
  (forall a, steady (k a)) ->
  current_point_index (state_of (bind m k s)) = current_point_index (state_of (m s)) /\
  plan_of (state_of (bind m k s)) = plan_of (state_of (m s)).
Proof.
intros Hk. unfold bind. destruct (m s) as [a s1|s1|s1]; cbn [state_of]; auto.
apply Hk.
Qed.

Lemma worker_body_index (w : world) (fuel : nat) (s : engine) :
  let s' := state_of (worker_body w fuel s) in
  plan_of s' = plan_of s /\
  (current_point_index s' = current_point_index s \/
   (current_point_index s' < List.length (calibration_points s))%nat).
Proof.
cbv zeta.
set (tail := fun _ : unit =>
       observe w ;;
       stop <- get _stop_requested ;;
       if negb stop then
         emit (FurnaceSetSetpoint Config.PARKING_TEMPERATURE) ;; _finalize_session w
       else ret tt).
change (worker_body w fuel s)
  with (bind (worker_loop w fuel 0 (calibration_points s)) tail s).
destruct (steady_after (worker_loop w fuel 0 (calibration_points s)) tail s) as [I P].
{ intros u. unfold tail. apply steady_bind; [apply steady_observe|]. intros _.
  apply steady_bind; [apply steady_get|]. intros stop.
  destruct stop; cbn [negb]; [apply steady_ret|].
  apply steady_bind; [apply steady_emit|]. intros _. apply steady_finalize_session. }
rewrite I, P.
destruct (worker_loop_index w fuel (calibration_points s) 0 s) as [P' [I'|I']].
- auto.
- split; [exact P'|]. right. lia.
Qed.


Import EngineStatus.

(** The report is returned when the index is within the points, the
    target it gives being the point at the index; otherwise the lookup of
    the target raises. *)
Lemma get_current_status_outcome (w : world) (s : engine) :
  (indexed s /\
   exists st s',
     get_current_status w s = Ok st s' /\
     st_total_points st = List.length (calibration_points s) /\
     st_current_point_index st = current_point_index s /\
     st_current_target st = nth_error (calibration_points s) (current_point_index s)) \/
  (~ indexed s /\ exists s', get_current_status w s = Raised s').
Proof.
assert (R : forall s1, calibration_points s1 = calibration_points s ->
            current_point_index s1 = current_point_index s ->
            current_target s1 =
              match calibration_points s with
              | [] => Some None
              | _ => match nth_error (calibration_points s) (current_point_index s) with
                     | Some t => Some (Some t)
                     | None => None
                     end
              end).
{ intros s1 E1 E2. unfold current_target. rewrite E1, E2.
  now destruct (calibration_points s). }
unfold get_current_status, bind, get.
destruct (steady_cursor w) as (S1 & S2 & _).
destruct (S1 s) as [I1 P1].
destruct (furnace_read_temperature w s) as [[success pv] s1|s1|s1] eqn:E1;
  try (unfold furnace_read_temperature in E1;
       destruct (furnace_io w (n_furnace s)); discriminate).
cbn [state_of] in I1, P1.
destruct (S2 s1) as [I2 P2].
destruct (furnace_read_setpoint w s1) as [[success_sp sp] s2|s2|s2] eqn:E2;
  try (unfold furnace_read_setpoint in E2;
       destruct (furnace_io w (n_furnace s1)); discriminate).
cbn [state_of] in I2, P2.
assert (Ec : calibration_points s2 = calibration_points s)
  by (unfold calibration_points; congruence).
assert (Ei : current_point_index s2 = current_point_index s) by congruence.
rewrite (R s2 Ec Ei). unfold indexed.
destruct (calibration_points s) as [|t rest] eqn:Ep.
- left. split; [now left|]. eexists _, _. split; [reflexivity|].
  cbn [st_total_points st_current_point_index st_current_target].
  rewrite Ec, Ei. repeat split.
  now destruct (current_point_index s).
- destruct (nth_error (t :: rest) (current_point_index s)) as [x|] eqn:En.
  + left. split.
    * right. apply nth_error_Some. now rewrite En.
    * eexists _, _. split; [reflexivity|].
      cbn [st_total_points st_current_point_index st_current_target].
      rewrite Ec, Ei. repeat split.
  + right. split.
    * intros [H|H]; [discriminate|]. apply nth_error_None in En. lia.
    * eexists. reflexivity.
Qed.

(** X29.  The status report and the index of the current point: a start
    puts the index within the points, the controller's calls and the whole
    worker (however it ends, and wherever it is still waiting) leave it
    within them, and [get_current_status] returns its report exactly when
    the index is within the points (or there is no point), the target of
    the report being the point at the index. *)
Theorem status_report_through_run (w w' : world) (fuel : nat) (s : engine) :
  (is_running s = false -> indexed (start_calibration s)) /\
  (forall c, indexed s -> indexed (apply_command s c)) /\
  (indexed s -> indexed (state_of (_calibration_worker w fuel s))) /\
  (indexed s <->
   exists st s',
     get_current_status w' s = Ok st s' /\
     st_total_points st = List.length (calibration_points s) /\
     st_current_point_index st = current_point_index s /\
     st_current_target st = nth_error (calibration_points s) (current_point_index s)).
Proof.
split; [|split; [|split]].
- intros R.
  assert (Ec : calibration_points (start_calibration s) = calibration_points s)
    by (unfold start_calibration; rewrite R; reflexivity).
  assert (Ei : current_point_index (start_calibration s) = 0%nat)
    by (unfold start_calibration; rewrite R; reflexivity).
  unfold indexed. rewrite Ec, Ei.
  destruct (calibration_points s) as [|t rest]; [now left|right; cbn [List.length]; lia].
- intros c H. destruct c; exact H.
- intros H. unfold indexed in *.
  destruct (worker_body_index w fuel s) as [P I].
  assert (E : plan_of (state_of (_calibration_worker w fuel s)) = plan_of s /\
              current_point_index (state_of (_calibration_worker w fuel s))
              = current_point_index (state_of (worker_body w fuel s))).
  { unfold _calibration_worker.
    destruct (worker_body w fuel s) as [u s1|s1|s1]; cbn [state_of] in *; auto. }
  destruct E as [E1 E2]. unfold calibration_points in *. rewrite E1, E2.
  destruct H as [H|H]; [now left|]. right. destruct I as [I|I]; [now rewrite I|exact I].
- destruct (get_current_status_outcome w' s) as [[H R]|[H [s' R]]].
  + split; auto.
  + split; [intros H'; contradiction|]. intros (st & s2 & E & _).
    rewrite R in E. discriminate.
Qed.

(** The engine after a run over the two points of [bench]. *)
Definition finished_run : engine :=
state_of (_calibration_worker (rig no_commands) 5 ready).

(** The run ends with the index on the last point, and the report is
    returned. *)
Example status_after_complete_run :
  current_point_index finished_run = 1%nat /\
  exists st s2, get_current_status (rig no_commands) finished_run = Ok st s2 /\
                st_current_target st = Some 100%float.
Proof.
split; [vm_compute; reflexivity|].
eexists _, _. split; [vm_compute; reflexivity|]. reflexivity.
Qed.


